(** * tiny-sip: a shallow embedding of the SIP engine and its specification

    The development follows the layout of the Python package [tinysip]:
    - [Py]       the fragment of Python's [str] and [int] the code relies on;
    - [Message]  [tinysip/message.py]: URIs, headers, bodies, messages,
                 [SIPMessage.parse] and [SIPMessage.encode];
    - [Auth]     [tinysip/auth.py]: the Digest authenticator;
    - [Sdp]      [tinysip/sdp.py]: [SDPBuilder.build_answer];
    - [Fsm]      [tinysip/fsm.py]: transactions, the transaction manager,
                 the dialog manager and the user agent's challenge handler.

    Python strings are modelled as [string], one character per code point
    below 256; the character classes ([str.strip], [\s], [\w], [str.lower])
    are Python's restricted to that range.  Durations are kept in
    milliseconds (the source uses float seconds). *)

From Stdlib Require Import ZArith NArith String Ascii List Bool Lia.
From Stdlib Require Import DecimalString DecimalZ DecimalN.
From Stdlib Require HexadecimalString.
From stdpp Require Import base option list gmap strings.

Local Open Scope Z_scope.

(* ================================================================== *)
(** * Python's [str] and [int] primitives *)
(* ================================================================== *)

Module Py.

Definition CR : ascii := "013"%char.
Definition LF : ascii := "010"%char.
Definition DQ : ascii := "034"%char.
Definition CRLF : string := String CR (String LF EmptyString).

Definition ord (c : ascii) : N := N_of_ascii c.

Definition in_range (lo hi : N) (c : ascii) : bool :=
  ((lo <=? ord c) && (ord c <=? hi))%N.

(** [str.isspace] on one code point: TAB..CR, FS..US, SPACE, NEL, NBSP. *)
Definition is_space (c : ascii) : bool :=
  in_range 9 13 c || in_range 28 32 c || (ord c =? 133)%N || (ord c =? 160)%N.

Definition is_digit (c : ascii) : bool := in_range 48 57 c.

Definition is_ascii_alpha (c : ascii) : bool :=
  in_range 65 90 c || in_range 97 122 c.

(** The regular expression class [\w] on [str] patterns: alphanumeric code
    points and the underscore. *)
Definition is_word (c : ascii) : bool :=
  is_ascii_alpha c || is_digit c || (ord c =? 95)%N
  || (ord c =? 170)%N || (ord c =? 178)%N || (ord c =? 179)%N
  || (ord c =? 181)%N || (ord c =? 185)%N || (ord c =? 186)%N
  || in_range 188 190 c || in_range 192 214 c || in_range 216 246 c
  || in_range 248 255 c.

Definition str_eqb (a b : string) : bool := bool_decide (a = b).
Definition chr_eqb (a b : ascii) : bool := bool_decide (a = b).

Fixpoint str_map (f : ascii -> ascii) (s : string) : string :=
  match s with
  | EmptyString => EmptyString
  | String c s' => String (f c) (str_map f s')
  end.

Fixpoint str_forall (p : ascii -> bool) (s : string) : bool :=
  match s with
  | EmptyString => true
  | String c s' => p c && str_forall p s'
  end.

Definition shift_char (c : ascii) (d : Z) : ascii :=
  ascii_of_N (Z.to_N (Z.of_N (ord c) + d)).

(** [str.lower], character by character. *)
Definition lower_char (c : ascii) : ascii :=
  if in_range 65 90 c then shift_char c 32
  else if in_range 192 222 c && negb (ord c =? 215)%N then shift_char c 32
  else c.

Definition lower (s : string) : string := str_map lower_char s.

(** [str.upper]: U+00DF expands to two letters; the upper-case forms of
    U+00B5 and U+00FF lie above 255 and are kept as they are here. *)
Definition upper_char (c : ascii) : string :=
  if in_range 97 122 c then String (shift_char c (-32)) EmptyString
  else if in_range 224 254 c && negb (ord c =? 247)%N
       then String (shift_char c (-32)) EmptyString
  else if (ord c =? 223)%N then "SS"
  else String c EmptyString.

Fixpoint upper (s : string) : string :=
  match s with
  | EmptyString => EmptyString
  | String c s' => upper_char c +:+ upper s'
  end.

(** [str.title] is only applied by the source to the three constants
    call-id, cseq and from. *)
Fixpoint title_go (start : bool) (s : string) : string :=
  match s with
  | EmptyString => EmptyString
  | String c s' =>
      if is_ascii_alpha c
      then (if start then upper_char c else String (lower_char c) EmptyString)
             +:+ title_go false s'
      else String c (title_go true s')
  end.
Definition title (s : string) : string := title_go true s.

Fixpoint lstrip (s : string) : string :=
  match s with
  | EmptyString => EmptyString
  | String c s' => if is_space c then lstrip s' else s
  end.

Fixpoint rstrip (s : string) : string :=
  match s with
  | EmptyString => EmptyString
  | String c s' =>
      match rstrip s' with
      | EmptyString => if is_space c then EmptyString else String c EmptyString
      | r => String c r
      end
  end.

(** [s.isspace()] or [s == ""]: nothing but blanks. *)
Definition blank (s : string) : bool := str_forall is_space s.

(** No blank anywhere in [s]. *)
Definition no_space (s : string) : bool :=
  str_forall (fun c => negb (is_space c)) s.

(** The character [c] does not occur in [s]. *)
Definition free_of (c : ascii) (s : string) : bool :=
  str_forall (fun x => negb (chr_eqb x c)) s.

(** [s[k:]] *)
Fixpoint str_drop (k : nat) (s : string) : string :=
  match k, s with
  | S k', String _ s' => str_drop k' s'
  | _, _ => s
  end.

(** [s.strip(chars)] *)
Fixpoint lstrip_chars (p : ascii -> bool) (s : string) : string :=
  match s with
  | EmptyString => EmptyString
  | String c s' => if p c then lstrip_chars p s' else s
  end.

Fixpoint rstrip_chars (p : ascii -> bool) (s : string) : string :=
  match s with
  | EmptyString => EmptyString
  | String c s' =>
      match rstrip_chars p s' with
      | EmptyString => if p c then EmptyString else String c EmptyString
      | r => String c r
      end
  end.

Definition strip_chars (p : ascii -> bool) (s : string) : string :=
  rstrip_chars p (lstrip_chars p s).

(** [s.strip()] *)
Definition strip (s : string) : string := rstrip (lstrip s).

Definition startswith (p s : string) : bool := String.prefix p s.

Fixpoint endswith (suf s : string) : bool :=
  str_eqb s suf ||
  match s with
  | EmptyString => false
  | String _ s' => endswith suf s'
  end.

(** [sub in s] *)
Fixpoint contains (sub s : string) : bool :=
  String.prefix sub s ||
  match s with
  | EmptyString => false
  | String _ s' => contains sub s'
  end.

Definition may_split (maxsplit : option nat) : bool :=
  match maxsplit with
  | Some O => false
  | _ => true
  end.

(** [s.split(sep, maxsplit)] for a non-empty [sep]: the occurrences of
    [sep] are found from the left and do not overlap; [skip] counts the
    characters of a separator still to be passed over. *)
Fixpoint split_go (sep : string) (maxsplit : option nat) (skip : nat)
    (s : string) : list string :=
  match s with
  | EmptyString => [EmptyString]
  | String c s' =>
      match skip with
      | S k => split_go sep maxsplit k s'
      | O =>
          if may_split maxsplit && String.prefix sep s
          then EmptyString
                 :: split_go sep (Nat.pred <$> maxsplit)
                      (Nat.pred (String.length sep)) s'
          else match split_go sep maxsplit O s' with
               | h :: t => String c h :: t
               | [] => [String c EmptyString]
               end
      end
  end.

Definition split (sep : string) (maxsplit : option nat) (s : string)
  : list string := split_go sep maxsplit 0 s.

(** [s.rsplit(c, 1)] for a one-character separator: [None] when [c] does
    not occur (Python returns the one-element list [[s]]). *)
Fixpoint rsplit1 (c : ascii) (s : string) : option (string * string) :=
  match s with
  | EmptyString => None
  | String a s' =>
      match rsplit1 c s' with
      | Some (h, t) => Some (String a h, t)
      | None => if chr_eqb a c then Some (EmptyString, s') else None
      end
  end.

(** [s.split()] with no separator: the maximal runs of non-blank
    characters. *)
Fixpoint words_go (s : string) : string * list string :=
  match s with
  | EmptyString => (EmptyString, [])
  | String c s' =>
      let '(w, ws) := words_go s' in
      if is_space c
      then (EmptyString, if str_eqb w EmptyString then ws else w :: ws)
      else (String c w, ws)
  end.

Definition split_ws (s : string) : list string :=
  let '(w, ws) := words_go s in
  if str_eqb w EmptyString then ws else w :: ws.

(** [sep.join(ls)] *)
Definition join (sep : string) (ls : list string) : string :=
  String.concat sep ls.

(** [str(n)] for an [int]. *)
Definition str_of_Z (n : Z) : string :=
  DecimalString.NilZero.string_of_int (Z.to_int n).

(** The first character of the text of an integer. *)
Definition digit_or_minus (c : ascii) : bool :=
  is_digit c || chr_eqb c "-"%char.

(** [len(s.encode("utf-8"))]: code points from 128 on take two bytes. *)
Fixpoint utf8_len (s : string) : Z :=
  match s with
  | EmptyString => 0
  | String c s' => (if (ord c <? 128)%N then 1 else 2) + utf8_len s'
  end.

(** Digits with single underscores between them, as [int()] accepts. *)
Fixpoint digits_ok (prev_digit : bool) (s : string) : bool :=
  match s with
  | EmptyString => prev_digit
  | String c s' =>
      if is_digit c then digits_ok true s'
      else if chr_eqb c "_"%char then prev_digit && digits_ok false s'
      else false
  end.

Fixpoint drop_underscores (s : string) : string :=
  match s with
  | EmptyString => EmptyString
  | String c s' =>
      if chr_eqb c "_"%char then drop_underscores s'
      else String c (drop_underscores s')
  end.

Definition py_digits (s : string) : option Z :=
  if digits_ok false s
  then Z.of_uint <$> DecimalString.NilEmpty.uint_of_string (drop_underscores s)
  else None.

(** The blanks [int()] skips around the digits: 9 to 13 and 32, and 133
    and 160, the blanks from 128 on; unlike [str.strip], not 28 to 31. *)
Definition is_int_space (c : ascii) : bool :=
  is_space c && negb (in_range 28 31 c).

(** [int(s)]: [None] stands for [ValueError].  Integers are unbounded, as
    in Python; the bound an interpreter may put on the number of digits of
    a conversion between [int] and [str] (4300 unless configured otherwise)
    is left out, here and in [str_of_Z]. *)
Definition py_int (s : string) : option Z :=
  match strip_chars is_int_space s with
  | String "-"%char r => Z.opp <$> py_digits r
  | String "+"%char r => py_digits r
  | t => py_digits t
  end.

Fixpoint zeros (n : nat) : string :=
  match n with
  | O => EmptyString
  | S k => String "0"%char (zeros k)
  end.

(** [f"{n:08x}"] *)
Definition hex08 (n : Z) : string :=
  let digits :=
    HexadecimalString.NilZero.string_of_uint (N.to_hex_uint (Z.abs_N n)) in
  if n <? 0
  then String "-"%char (zeros (7 - String.length digits) +:+ digits)
  else zeros (8 - String.length digits) +:+ digits.

(** Python's truth value of a [str] and of [str | None]. *)
Definition truthy (s : string) : bool := negb (str_eqb s EmptyString).
Definition truthy_opt (o : option string) : bool :=
  match o with
  | Some s => truthy s
  | None => false
  end.

(** [a or b] on strings. *)
Definition str_or (a : option string) (b : string) : string :=
  match a with
  | Some s => if truthy s then s else b
  | None => b
  end.

(** [d[k] = v] and [d.get(k)] on a dictionary kept in insertion order. *)
Fixpoint dict_set {V : Type} (k : string) (v : V) (d : list (string * V))
  : list (string * V) :=
  match d with
  | [] => [(k, v)]
  | (k', v') :: d' =>
      if str_eqb k' k then (k, v) :: d' else (k', v') :: dict_set k v d'
  end.

Fixpoint dict_get {V : Type} (k : string) (d : list (string * V)) : option V :=
  match d with
  | [] => None
  | (k', v) :: d' => if str_eqb k' k then Some v else dict_get k d'
  end.

(** The exceptions the modelled code can raise. *)
Inductive exn : Type :=
| ValueError (what : string)
| AttributeError (what : string)
| IndexError
| StopIteration.

Inductive result (A : Type) : Type :=
| Ok (a : A)
| Raise (e : exn).
Arguments Ok {A} a.
Arguments Raise {A} e.

Definition rbind {A B : Type} (r : result A) (k : A -> result B) : result B :=
  match r with
  | Ok a => k a
  | Raise e => Raise e
  end.

(** [a, b = l] for a list the guard before it makes two elements long. *)
Definition unpack2 (l : list string) : string * string :=
  match l with
  | [a; b] => (a, b)
  | _ => (EmptyString, EmptyString)
  end.

End Py.

(* ================================================================== *)
(** * tinysip/message.py *)
(* ================================================================== *)

Module Message.
Import Py.

Inductive SIPMethod : Type :=
| INVITE | ACK | OPTIONS | BYE | CANCEL | REGISTER | INFO | MESSAGE.

Global Instance SIPMethod_eq_dec : EqDecision SIPMethod.
Proof. solve_decision. Defined.

Definition method_value (m : SIPMethod) : string :=
  match m with
  | INVITE => "INVITE" | ACK => "ACK" | OPTIONS => "OPTIONS" | BYE => "BYE"
  | CANCEL => "CANCEL" | REGISTER => "REGISTER" | INFO => "INFO"
  | MESSAGE => "MESSAGE"
  end.

Definition all_methods : list SIPMethod :=
  [INVITE; ACK; OPTIONS; BYE; CANCEL; REGISTER; INFO; MESSAGE].

(** [SIPMethod(s)]: [None] stands for the [ValueError] of an unknown value. *)
Definition SIPMethod_of_value (s : string) : option SIPMethod :=
  List.find (fun m => str_eqb (method_value m) s) all_methods.

(** A URI parameter is a string or the flag [True]. *)
Inductive ParamValue : Type :=
| PTrue
| PStr (s : string).

(** What [urllib.parse.unquote] returns for [raw].  The decoder is not part
    of the package and no code inspects the decoded text, so the value is
    kept as the application itself. *)
Inductive Unquoted : Type :=
| unquote (raw : string).

Record SIPURI : Type := mkSIPURI {
  raw_uri : string;
  scheme : string;
  user : option string;
  password : option string;
  host : string;
  port : option Z;
  parameters : list (string * ParamValue);
  uri_headers : list (string * Unquoted)
}.

(** The loop over [headers_part.split("&")]. *)
Fixpoint parse_uri_headers (items : list string)
    (acc : list (string * Unquoted)) : list (string * Unquoted) :=
  match items with
  | [] => acc
  | header :: rest =>
      if contains "=" header
      then let '(key, value) := unpack2 (split "=" (Some 1%nat) header) in
           parse_uri_headers rest (dict_set key (unquote value) acc)
      else parse_uri_headers rest acc
  end.

(** The loop over [params_part.split(";")]. *)
Fixpoint parse_uri_params (items : list string)
    (acc : list (string * ParamValue)) : list (string * ParamValue) :=
  match items with
  | [] => acc
  | param :: rest =>
      if contains "=" param
      then let '(key, value) := unpack2 (split "=" (Some 1%nat) param) in
           parse_uri_params rest (dict_set key (PStr value) acc)
      else parse_uri_params rest (dict_set param PTrue acc)
  end.

(** [SIPURI.__init__] followed by [SIPURI._parse]. *)
Definition SIPURI_new (uri : string) : SIPURI :=
  let raw := strip uri in
  let init := mkSIPURI raw "sip" None None EmptyString None [] [] in
  if negb (truthy raw) then init
  else if negb (contains ":" raw) then init
  else
    let '(scheme_part, rest) := unpack2 (split ":" (Some 1%nat) raw) in
    let scheme' := lower scheme_part in
    (* headers, after "?" *)
    let '(rest, headers') :=
      if contains "?" rest
      then let '(rest', headers_part) :=
             unpack2 (split "?" (Some 1%nat) rest) in
           (rest', parse_uri_headers (split "&" None headers_part) [])
      else (rest, []) in
    (* parameters, after ";" *)
    let '(rest, parameters') :=
      if contains ";" rest
      then let '(rest', params_part) :=
             unpack2 (split ";" (Some 1%nat) rest) in
           (rest', parse_uri_params (split ";" None params_part) [])
      else (rest, []) in
    (* user@host:port *)
    let '(user', password', host_part) :=
      match (if contains "@" rest then rsplit1 "@"%char rest else None) with
      | Some (user_part, host_part) =>
          if contains ":" user_part
          then let '(u, p) := unpack2 (split ":" (Some 1%nat) user_part) in
               (Some u, Some p, host_part)
          else (Some user_part, None, host_part)
      | None => (None, None, rest)
      end in
    (* host:port *)
    let '(host', port') :=
      if contains ":" host_part && negb (startswith "[" host_part)
      then match rsplit1 ":"%char host_part with
           | Some (h, port_str) =>
               match py_int port_str with
               | Some n => (h, Some n)
               | None => (host_part, None)   (* except ValueError *)
               end
           | None => (host_part, None)
           end
      else (host_part, None) in
    mkSIPURI raw scheme' user' password' host' port' parameters' headers'.

(** [str(uri)] *)
Definition SIPURI_str (u : SIPURI) : string := raw_uri u.

Definition is_secure (u : SIPURI) : bool := str_eqb (scheme u) "sips".

Record SIPHeader : Type := mkSIPHeader {
  name : string;
  value : string
}.

(** [SIPHeader.__init__] trims both parts. *)
Definition SIPHeader_new (n v : string) : SIPHeader :=
  mkSIPHeader (strip n) (strip v).

(** The characters of the token grammar
    [A-Za-z0-9!#$%&'*+\-.^_`|~]. *)
Definition is_token_char (c : ascii) : bool :=
  is_ascii_alpha c || is_digit c ||
  existsb (chr_eqb c)
    ["!"; "#"; "$"; "%"; "&"; "'"; "*"; "+"; "-"; "."; "^"; "_"; "`"; "|";
     "~"]%char.

(** [re.match(r"^[...]+$", s)]: one or more token characters; [$] also
    matches just before a final line feed. *)
Fixpoint token_match (s : string) : bool :=
  match s with
  | EmptyString => false
  | String c s' =>
      is_token_char c &&
      (str_eqb s' EmptyString || str_eqb s' (String LF EmptyString)
       || token_match s')
  end.

(** The class [\x00-\x08\x0A-\x1F\x7F]. *)
Definition is_ctl (c : ascii) : bool :=
  in_range 0 8 c || in_range 10 31 c || (ord c =? 127)%N.

Definition header_validate (h : SIPHeader) : bool :=
  if negb (truthy (name h)) || negb (truthy (value h)) then false
  else if negb (token_match (name h)) then false
  else if negb (str_forall (fun c => negb (is_ctl c)) (value h)) then false
  else true.

Definition header_encode (h : SIPHeader) : string :=
  name h +:+ ": " +:+ value h.

(** A body built from a string ([SIPBody(content, content_type)]). *)
Record SIPBody : Type := mkSIPBody {
  content : string;
  content_type : string
}.

Definition content_length (b : SIPBody) : Z := utf8_len (content b).

Record SIPMessage : Type := mkSIPMessage {
  headers : list SIPHeader;
  body : option SIPBody;
  method : option SIPMethod;
  uri : option SIPURI;
  status_code : option Z;
  reason_phrase : option string;
  sip_version : string
}.

(** [SIPMessage.__init__] *)
Definition SIPMessage_new : SIPMessage :=
  mkSIPMessage [] None None None None None "SIP/2.0".

Definition with_headers (hs : list SIPHeader) (m : SIPMessage) : SIPMessage :=
  mkSIPMessage hs (body m) (method m) (uri m) (status_code m)
    (reason_phrase m) (sip_version m).

Definition with_body (b : option SIPBody) (m : SIPMessage) : SIPMessage :=
  mkSIPMessage (headers m) b (method m) (uri m) (status_code m)
    (reason_phrase m) (sip_version m).

Definition is_request (m : SIPMessage) : bool :=
  match method m with Some _ => true | None => false end.

Definition is_response (m : SIPMessage) : bool :=
  match status_code m with Some _ => true | None => false end.

Definition add_header (n v : string) (m : SIPMessage) : SIPMessage :=
  with_headers (headers m ++ [SIPHeader_new n v]) m.

Fixpoint find_header (name_lower : string) (hs : list SIPHeader)
  : option string :=
  match hs with
  | [] => None
  | h :: rest =>
      if str_eqb (lower (name h)) name_lower then Some (value h)
      else find_header name_lower rest
  end.

Definition get_header (n : string) (m : SIPMessage) : option string :=
  find_header (lower n) (headers m).

(** The loop of [set_header]: the first header of that name gets the new
    value, which is stored as given; [None] when no header has the name. *)
Fixpoint replace_header (name_lower v : string) (hs : list SIPHeader)
  : option (list SIPHeader) :=
  match hs with
  | [] => None
  | h :: rest =>
      if str_eqb (lower (name h)) name_lower
      then Some (mkSIPHeader (name h) v :: rest)
      else cons h <$> replace_header name_lower v rest
  end.

Definition set_header (n v : string) (m : SIPMessage) : SIPMessage :=
  match replace_header (lower n) v (headers m) with
  | Some hs => with_headers hs m
  | None => add_header n v m
  end.

Definition remove_header (n : string) (m : SIPMessage) : SIPMessage :=
  with_headers
    (List.filter (fun h => negb (str_eqb (lower (name h)) (lower n)))
       (headers m)) m.

(** [set_body] with a string or a [SIPBody]. *)
Definition set_body_obj (b : SIPBody) (m : SIPMessage) : SIPMessage :=
  set_header "Content-Length" (str_of_Z (content_length b))
    (set_header "Content-Type" (content_type b) (with_body (Some b) m)).

Definition set_body (c ctype : string) (m : SIPMessage) : SIPMessage :=
  set_body_obj (mkSIPBody c ctype) m.

(** [SIPMessage.create_request] with optional extra headers and body. *)
Definition create_request (m : SIPMethod) (u : string)
    (extra_headers : list (string * string)) (b : option SIPBody)
  : SIPMessage :=
  let msg :=
    mkSIPMessage [] None (Some m) (Some (SIPURI_new u)) None None "SIP/2.0" in
  let msg := fold_left (fun acc kv => add_header kv.1 kv.2 acc)
               extra_headers msg in
  match b with
  | Some b' => with_body (Some b') msg
  | None => msg
  end.

Definition REASON_PHRASES : list (Z * string) :=
  [(100, "Trying"); (180, "Ringing"); (183, "Session Progress"); (200, "OK");
   (202, "Accepted"); (300, "Multiple Choices"); (301, "Moved Permanently");
   (302, "Moved Temporarily"); (400, "Bad Request"); (401, "Unauthorized");
   (403, "Forbidden"); (404, "Not Found"); (405, "Method Not Allowed");
   (500, "Internal Server Error"); (501, "Not Implemented");
   (502, "Bad Gateway"); (503, "Service Unavailable");
   (600, "Busy Everywhere"); (603, "Decline")].

Definition default_reason (code : Z) : string :=
  match List.find (fun kv => Z.eqb kv.1 code) REASON_PHRASES with
  | Some kv => kv.2
  | None => "Unknown"
  end.

(** [SIPMessage.create_response]; [obj_id] is [id(msg)], the identity of the
    new object, used as the To tag when the request carries none. *)
Definition create_response (obj_id : Z) (code : Z) (reason : option string)
    (request : option SIPMessage) (extra_headers : list (string * string))
    (b : option SIPBody) : SIPMessage :=
  let msg :=
    mkSIPMessage [] None None None (Some code)
      (Some (if truthy_opt reason then default "" reason
             else default_reason code)) "SIP/2.0" in
  let msg :=
    match request with
    | Some req =>
        if is_request req then
          let copy1 (acc : SIPMessage) (header_name : string) :=
            match get_header header_name req with
            | Some v => if truthy v then add_header (title header_name) v acc
                        else acc
            | None => acc
            end in
          let msg := fold_left copy1 ["call-id"; "cseq"; "from"] msg in
          let msg :=
            match get_header "via" req with
            | Some v => if truthy v then add_header "Via" v msg else msg
            | None => msg
            end in
          match get_header "to" req with
          | Some to_value =>
              if truthy to_value then
                add_header "To"
                  (if negb (contains ";tag=" (lower to_value))
                   then to_value +:+ ";tag=" +:+ str_of_Z obj_id
                   else to_value) msg
              else msg
          | None => msg
          end
        else msg
    | None => msg
    end in
  let msg := fold_left (fun acc kv => set_header kv.1 kv.2 acc)
               extra_headers msg in
  match b with
  | Some b' => with_body (Some b') msg
  | None => msg
  end.

(** The text of [None] in an f-string. *)
Definition fmt_opt {A : Type} (f : A -> string) (o : option A) : string :=
  match o with
  | Some a => f a
  | None => "None"
  end.

(** The request line or the status line. *)
Definition start_line (m : SIPMessage) : string :=
  match method m with
  | Some meth =>
      method_value meth +:+ " " +:+ fmt_opt SIPURI_str (uri m) +:+ " "
        +:+ sip_version m
  | None =>
      sip_version m +:+ " " +:+ fmt_opt str_of_Z (status_code m) +:+ " "
        +:+ fmt_opt (fun r => r) (reason_phrase m)
  end.

(** The lines [SIPMessage.encode] joins. *)
Definition encode_lines (m : SIPMessage) : list string :=
  let hdrs := List.map header_encode (headers m) in
  let clen :=
    match body m with
    | Some b =>
        if negb (truthy_opt (get_header "content-length" m))
        then ["Content-Length: " +:+ str_of_Z (content_length b)]
        else []
    | None => []
    end in
  let tail :=
    match body m with
    | Some b => [content b]
    | None => []
    end in
  start_line m :: hdrs ++ clen ++ [EmptyString] ++ tail.

(** [message_str] of [SIPMessage.encode]; the method returns its UTF-8
    bytes and [__str__] decodes them again. *)
Definition encode_str (m : SIPMessage) : string := join CRLF (encode_lines m).

(** The header loop of [SIPMessage.parse] over [lines[1:]], [i] being the
    index of the first line of [ls]: the headers collected and the index of
    the first blank line. *)
Fixpoint parse_headers (i : nat) (ls : list string)
  : list SIPHeader * option nat :=
  match ls with
  | [] => ([], None)
  | line :: rest =>
      if str_eqb (strip line) EmptyString then ([], Some i)
      else
        let '(hs, e) := parse_headers (S i) rest in
        if contains ":" line
        then let '(n, v) := unpack2 (split ":" (Some 1%nat) line) in
             (SIPHeader_new (strip n) (strip v) :: hs, e)
        else (hs, e)
  end.

(** The first header named content-type, else text/plain. *)
Fixpoint find_content_type (hs : list SIPHeader) : string :=
  match hs with
  | [] => "text/plain"
  | h :: rest =>
      if str_eqb (lower (name h)) "content-type" then value h
      else find_content_type rest
  end.

(** The first part of [SIPMessage.parse]: the message the start line
    gives. *)
Definition parse_start_line (first_line : string) : result SIPMessage :=
  let parts := split " " (Some 2%nat) first_line in
  if startswith "SIP/" first_line then
    (* Response: SIP/2.0 200 OK *)
    if (2 <=? length parts)%nat then
      match py_int (nth 1 parts EmptyString) with
      | Some n =>
          Ok (mkSIPMessage [] None None None (Some n)
                (Some (if (2 <? length parts)%nat
                       then nth 2 parts EmptyString
                       else EmptyString)) "SIP/2.0")
      | None => Raise (ValueError "invalid literal for int()")
      end
    else Ok SIPMessage_new
  else
    (* Request: OPTIONS sip:user@host SIP/2.0 *)
    if (2 <=? length parts)%nat then
      match SIPMethod_of_value (nth 0 parts EmptyString) with
      | Some meth =>
          Ok (mkSIPMessage [] None (Some meth)
                (Some (SIPURI_new (nth 1 parts EmptyString)))
                None None "SIP/2.0")
      | None => Raise (ValueError "not a valid SIPMethod")
      end
    else Ok SIPMessage_new.

(** The last part of [SIPMessage.parse]: the body, when a blank line was
    found at [e] and lines follow it. *)
Definition parse_body (lines : list string) (hs : list SIPHeader)
    (e : option nat) : option SIPBody :=
  match e with
  | Some idx =>
      if (0 <? idx)%nat && (idx + 1 <? length lines)%nat then
        let body_content := join CRLF (drop (idx + 1) lines) in
        if truthy (strip body_content)
        then Some (mkSIPBody body_content (find_content_type hs))
        else None
      else None
  | None => None
  end.

(** [SIPMessage.parse] *)
Definition parse (message : string) : result SIPMessage :=
  let lines := split CRLF None (strip message) in
  match lines with
  | [] => Raise (ValueError "Mensagem SIP vazia")
  | line0 :: _ =>
      rbind (parse_start_line (strip line0))
        (fun msg =>
           let '(hs, e) := parse_headers 1 (tl lines) in
           Ok (with_body (parse_body lines hs e) (with_headers hs msg)))
  end.

(** ** Well-formed messages

    The invariants the specification gives for a message (data model) and
    the checks of [SIPMessage.validate] on the start line and the headers:
    a request or else a response; a request has its six required headers and
    a Request-URI with a host; every header passes [SIPHeader.validate] and
    is trimmed as [SIPHeader.__init__] leaves it; Content-Length gives the
    byte length of the body. *)

Definition REQUIRED_HEADERS : list string :=
  ["via"; "from"; "to"; "call-id"; "cseq"; "max-forwards"].

(** A text that fits on one line: no CR and no LF. *)
Definition is_line (s : string) : bool := free_of CR s && free_of LF s.

Definition header_ok (h : SIPHeader) : bool :=
  header_validate h
  && str_eqb (strip (name h)) (name h)
  && str_eqb (strip (value h)) (value h).

Definition start_line_ok (m : SIPMessage) : bool :=
  match method m, status_code m with
  | Some _, None =>
      match uri m with
      | Some u => no_space (raw_uri u) && truthy (host u)
      | None => false
      end
  | None, Some _ =>
      match reason_phrase m with
      | Some r => is_line r
      | None => false
      end
  | _, _ => false
  end.

Definition required_ok (m : SIPMessage) : bool :=
  match method m with
  | Some _ =>
      forallb
        (fun r => existsb (fun h => str_eqb (lower (name h)) r) (headers m))
        REQUIRED_HEADERS
  | None => true
  end.

Definition length_ok (m : SIPMessage) : bool :=
  match body m with
  | Some b =>
      bool_decide
        (get_header "content-length" m = Some (str_of_Z (content_length b)))
  | None => true
  end.

Definition well_formed (m : SIPMessage) : bool :=
  start_line_ok m
  && str_eqb (sip_version m) "SIP/2.0"
  && required_ok m
  && forallb header_ok (headers m)
  && length_ok m.

(** The bytes of the body; a message without a body has none. *)
Definition body_bytes (m : SIPMessage) : string :=
  match body m with
  | Some b => content b
  | None => EmptyString
  end.

(** What one line of the header section yields when it is read on its own:
    a header when it holds a colon, nothing otherwise. *)
Definition header_of_line (line : string) : list SIPHeader :=
  if contains ":" line
  then let '(n, v) := unpack2 (split ":" (Some 1%nat) line) in
       [SIPHeader_new (strip n) (strip v)]
  else [].

(** An INVITE with the six required headers and the body [b] as SDP. *)
Definition invite_with_body (b : string) : SIPMessage :=
  set_body b "application/sdp"
    (add_header "CSeq" "1 INVITE"
       (add_header "Call-ID" "a84b4c76e66710@pc33.example.org"
          (add_header "To" "<sip:bob@example.org>"
             (add_header "From" "<sip:alice@example.org>;tag=1928301774"
                (add_header "Max-Forwards" "70"
                   (add_header "Via"
                      "SIP/2.0/UDP pc33.example.org;branch=z9hG4bK776asdhds"
                      (create_request INVITE "sip:bob@example.org" []
                         None))))))).

(** Its body is one SDP line, ended by CRLF as SDP lines are. *)
Definition invite_with_sdp : SIPMessage := invite_with_body ("v=0" +:+ CRLF).

(** An OPTIONS request whose Subject header continues on a second line. *)
Definition folded_subject : string :=
  "OPTIONS sip:bob@example.org SIP/2.0" +:+ CRLF
  +:+ "Subject: hello" +:+ CRLF
  +:+ " world" +:+ CRLF
  +:+ CRLF.

(** What [create_response] copies of a header of the request: nothing when
    the header is absent or empty, else the value, changed by [f] and
    trimmed by [add_header]. *)
Definition copied (f : string -> string) (o : option string)
  : option string :=
  match o with
  | Some v => if truthy v then Some (strip (f v)) else None
  | None => None
  end.

(** The To value of a response: a tag is added unless one is there. *)
Definition with_tag (obj_id : Z) (to_value : string) : string :=
  if negb (contains ";tag=" (lower to_value))
  then to_value +:+ ";tag=" +:+ str_of_Z obj_id
  else to_value.

(** The text of a URI parameter: [key=value], or [key] alone for a
    flag. *)
Definition param_text (kv : string * ParamValue) : string :=
  match kv.2 with
  | PStr v => kv.1 +:+ "=" +:+ v
  | PTrue => kv.1
  end.

End Message.

(* ================================================================== *)
(** * tinysip/auth.py *)
(* ================================================================== *)

Module Auth.
Import Py Message.

(** [s[:n]] *)
Fixpoint str_take (n : nat) (s : string) : string :=
  match n, s with
  | S n', String c s' => String c (str_take n' s')
  | _, _ => EmptyString
  end.

(** The longest prefix of [s] whose characters satisfy [p], and the rest. *)
Fixpoint span (p : ascii -> bool) (s : string) : string * string :=
  match s with
  | EmptyString => (EmptyString, EmptyString)
  | String c s' =>
      if p c then let '(a, b) := span p s' in (String c a, b)
      else (EmptyString, s)
  end.

(** [s] in double quotes. *)
Definition quoted (s : string) : string :=
  String DQ (s +:+ String DQ EmptyString).

(** Group 3 of the pattern of [parse_www_authenticate]: a non-empty run of
    characters other than comma and blank, at the start of [s]. *)
Definition bare_value (key s : string) : option (string * string * string) :=
  let '(v, rest) :=
    span (fun c => negb (chr_eqb c ","%char) && negb (is_space c)) s in
  if truthy v then Some (key, v, rest) else None.

(** One match of the pattern of [parse_www_authenticate] at the start of
    [s]: a run of word characters (the key), an equals sign, then either a
    non-empty text between double quotes (group 2) or, failing that, group
    3.  The result is the key, the value and the text after the match. *)
Definition match_auth_param (s : string)
  : option (string * string * string) :=
  let '(key, r1) := span is_word s in
  if negb (truthy key) then None
  else
    match r1 with
    | String c r2 =>
        if chr_eqb c "="%char then
          match r2 with
          | String q r3 =>
              if chr_eqb q DQ then
                let '(v, r4) := span (fun c => negb (chr_eqb c DQ)) r3 in
                match r4 with
                | String q' r5 =>
                    if truthy v && chr_eqb q' DQ then Some (key, v, r5)
                    else bare_value key r2
                | EmptyString => bare_value key r2
                end
              else bare_value key r2
          | EmptyString => bare_value key r2
          end
        else None
    | EmptyString => None
    end.

(** The loop over [re.finditer]: matches from the left, without overlap;
    each step consumes a character, so [fuel] is the length of the text. *)
Fixpoint finditer_auth (fuel : nat) (s : string)
    (params : gmap string string) : gmap string string :=
  match fuel with
  | O => params
  | S fuel' =>
      match s with
      | EmptyString => params
      | String _ s' =>
          match match_auth_param s with
          | Some (key, v, rest) =>
              finditer_auth fuel' rest (<[lower key := v]> params)
          | None => finditer_auth fuel' s' params
          end
      end
  end.

Definition parse_www_authenticate (header_value : string)
  : gmap string string :=
  let header_value :=
    if startswith "Digest " header_value then str_drop 7 header_value
    else header_value in
  finditer_auth (String.length header_value) header_value ∅.

(** [re.sub] of the pattern [branch=[^;]+] by [repl] in [s]; [skip] counts
    the characters of a match still to be passed over. *)
Fixpoint sub_branch (repl : string) (skip : nat) (s : string) : string :=
  match s with
  | EmptyString => EmptyString
  | String c s' =>
      match skip with
      | S k => sub_branch repl k s'
      | O =>
          let '(run, _) :=
            span (fun x => negb (chr_eqb x ";"%char)) (str_drop 7 s) in
          if startswith "branch=" s && truthy run
          then repl +:+ sub_branch repl (6 + String.length run) s'
          else String c (sub_branch repl 0 s')
      end
  end.

(** The authenticator: the credentials by realm, the nonce counts, and how
    many random values ([random.random], [time.time], [uuid.uuid4]) have
    been drawn. *)
Record SIPDigestAuthentication : Type := mkAuth {
  credentials : gmap string (string * string);
  nonce_count : gmap string Z;
  draws : nat
}.

Definition SIPDigestAuthentication_new : SIPDigestAuthentication :=
  mkAuth ∅ ∅ 0.

Definition add_credentials (realm username password : string)
    (a : SIPDigestAuthentication) : SIPDigestAuthentication :=
  mkAuth (<[realm := (username, password)]> (credentials a))
    (nonce_count a) (draws a).

(** What [create_authenticated_request] returns: the very request it was
    given, or a new message. *)
Inductive AuthResult : Type :=
| Original
| Fresh (m : SIPMessage).

Section Digest.

(** [hashlib.md5(data.encode()).hexdigest()] and its SHA-256
    counterpart. *)
Variable md5 sha256 : string -> string.

(** The text of [random.random()] followed by [time.time()] at the [n]-th
    draw, and [uuid.uuid4().hex] of the [n]-th draw. *)
Variable entropy : nat -> string.
Variable uuid_hex : nat -> string.

Definition _hash_function (data algorithm : string) : result string :=
  if startswith "MD5" algorithm then Ok (md5 data)
  else if startswith "SHA-256" algorithm then Ok (sha256 data)
  else Raise (ValueError "Algoritmo nao suportado").

Definition _calculate_ha1
    (username realm password nonce cnonce algorithm : string)
  : result string :=
  let base_ha1 := username +:+ ":" +:+ realm +:+ ":" +:+ password in
  rbind (_hash_function base_ha1 algorithm) (fun ha1 =>
  if endswith "-sess" algorithm
  then _hash_function (ha1 +:+ ":" +:+ nonce +:+ ":" +:+ cnonce) algorithm
  else Ok ha1).

Definition _calculate_ha2 (method uri : string) (qop body : option string)
    (algorithm : string) : result string :=
  match body with
  | Some b =>
      if bool_decide (qop = Some "auth-int")
      then rbind (_hash_function b algorithm) (fun body_hash =>
             _hash_function
               (method +:+ ":" +:+ uri +:+ ":" +:+ body_hash) algorithm)
      else _hash_function (method +:+ ":" +:+ uri) algorithm
  | None => _hash_function (method +:+ ":" +:+ uri) algorithm
  end.

Definition _calculate_response
    (username realm password method uri nonce : string) (nc : Z)
    (cnonce : string) (qop : option string) (algorithm : string)
    (body : option string) : result string :=
  rbind (_calculate_ha1 username realm password nonce cnonce algorithm)
    (fun ha1 =>
  rbind (_calculate_ha2 method uri qop body algorithm) (fun ha2 =>
  let response_data :=
    match qop with
    | Some q =>
        if str_eqb q "auth" || str_eqb q "auth-int"
        then ha1 +:+ ":" +:+ nonce +:+ ":" +:+ hex08 nc +:+ ":" +:+ cnonce
               +:+ ":" +:+ q +:+ ":" +:+ ha2
        else ha1 +:+ ":" +:+ nonce +:+ ":" +:+ ha2
    | None => ha1 +:+ ":" +:+ nonce +:+ ":" +:+ ha2
    end in
  _hash_function response_data algorithm)).

Definition _generate_cnonce (a : SIPDigestAuthentication)
  : string * SIPDigestAuthentication :=
  (str_take 16 (md5 (entropy (draws a))),
   mkAuth (credentials a) (nonce_count a) (S (draws a))).

Definition _get_nonce_count (nonce : string) (a : SIPDigestAuthentication)
  : Z * SIPDigestAuthentication :=
  let n := default 0 (nonce_count a !! nonce) + 1 in
  (n, mkAuth (credentials a) (<[nonce := n]> (nonce_count a)) (draws a)).

(** [generate_authorization_header]: the header or the exception, and the
    authenticator as the call leaves it. *)
Definition generate_authorization_header
    (method uri : string) (auth_params : gmap string string)
    (body : option string) (a : SIPDigestAuthentication)
  : result string * SIPDigestAuthentication :=
  let realm := default EmptyString (auth_params !! "realm") in
  let nonce := default EmptyString (auth_params !! "nonce") in
  let opaque := auth_params !! "opaque" in
  let algorithm := upper (default "MD5" (auth_params !! "algorithm")) in
  let qop := auth_params !! "qop" in
  match credentials a !! realm with
  | None => (Raise (ValueError "Sem credenciais para realm"), a)
  | Some (username, password) =>
      let '(cnonce, a) := _generate_cnonce a in
      let '(nc, a) := _get_nonce_count nonce a in
      match _calculate_response username realm password method uri nonce nc
              cnonce qop algorithm body with
      | Raise e => (Raise e, a)
      | Ok response =>
          let auth_header :=
            "Digest username=" +:+ quoted username
              +:+ ", realm=" +:+ quoted realm
              +:+ ", nonce=" +:+ quoted nonce
              +:+ ", uri=" +:+ quoted uri
              +:+ ", response=" +:+ quoted response in
          let auth_header :=
            if truthy algorithm
            then auth_header +:+ ", algorithm=" +:+ algorithm
            else auth_header in
          let auth_header :=
            match opaque with
            | Some o => if truthy o
                        then auth_header +:+ ", opaque=" +:+ quoted o
                        else auth_header
            | None => auth_header
            end in
          let auth_header :=
            match qop with
            | Some q => if truthy q
                        then auth_header +:+ ", qop=" +:+ q +:+ ", nc="
                               +:+ hex08 nc +:+ ", cnonce=" +:+ quoted cnonce
                        else auth_header
            | None => auth_header
            end in
          (Ok auth_header, a)
      end
  end.

(** [handle_authentication_challenge]: the Authorization header, or [None]. *)
Definition handle_authentication_challenge
    (response original_request : SIPMessage) (a : SIPDigestAuthentication)
  : option string * SIPDigestAuthentication :=
  if negb (bool_decide (status_code response = Some 401)
           || bool_decide (status_code response = Some 407))
  then (None, a)
  else
    let auth_header_name :=
      if bool_decide (status_code response = Some 401)
      then "WWW-Authenticate" else "Proxy-Authenticate" in
    match get_header (lower auth_header_name) response with
    | None => (None, a)
    | Some auth_header =>
        if negb (truthy auth_header) then (None, a)
        else
          let auth_params := parse_www_authenticate auth_header in
          (* try: ... except Exception: return None *)
          match method original_request with
          | None => (None, a)
          | Some meth =>
              let uri_text := fmt_opt SIPURI_str (uri original_request) in
              let body_text := content <$> body original_request in
              match generate_authorization_header (method_value meth)
                      uri_text auth_params body_text a with
              | (Ok h, a') => (Some h, a')
              | (Raise _, a') => (None, a')
              end
          end
    end.

(** [create_authenticated_request]; the exception is the [ValueError] of
    [int] on a CSeq that does not start with a number. *)
Definition create_authenticated_request
    (original_request auth_response : SIPMessage)
    (a : SIPDigestAuthentication)
  : result AuthResult * SIPDigestAuthentication :=
  let '(auth_header, a) :=
    handle_authentication_challenge auth_response original_request a in
  if negb (truthy_opt auth_header) then (Ok Original, a)
  else
    match method original_request with
    | None => (Ok Original, a)
    | Some meth =>
        let new_request :=
          create_request meth (fmt_opt SIPURI_str (uri original_request)) []
            (body original_request) in
        (* every header of the original except Via *)
        let new_request :=
          fold_left
            (fun acc h =>
               if negb (str_eqb (lower (name h)) "via")
               then add_header (name h) (value h) acc else acc)
            (headers original_request) new_request in
        let new_branch := "z9hG4bK" +:+ str_take 16 (uuid_hex (draws a)) in
        let a := mkAuth (credentials a) (nonce_count a) (S (draws a)) in
        let new_request :=
          match get_header "via" original_request with
          | Some via_header =>
              if truthy via_header
              then set_header "Via"
                     (sub_branch ("branch=" +:+ new_branch) 0 via_header)
                     new_request
              else set_header "Via"
                     ("SIP/2.0/UDP 0.0.0.0;branch=" +:+ new_branch)
                     new_request
          | None =>
              set_header "Via"
                ("SIP/2.0/UDP 0.0.0.0;branch=" +:+ new_branch) new_request
          end in
        let header_name :=
          if bool_decide (status_code auth_response = Some 401)
          then "Authorization" else "Proxy-Authorization" in
        let new_request :=
          set_header header_name (default EmptyString auth_header)
            new_request in
        (* CSeq + 1 *)
        match get_header "cseq" new_request with
        | Some cseq_header =>
            if truthy cseq_header then
              match split_ws cseq_header with
              | p0 :: p1 :: _ =>
                  match py_int p0 with
                  | Some n =>
                      (Ok (Fresh (set_header "CSeq"
                                    (str_of_Z (n + 1) +:+ " " +:+ p1)
                                    new_request)), a)
                  | None =>
                      (Raise (ValueError "invalid literal for int()"), a)
                  end
              | _ => (Ok (Fresh new_request), a)
              end
            else (Ok (Fresh new_request), a)
        | None => (Ok (Fresh new_request), a)
        end
    end.

End Digest.

(** ** The realm of a challenge *)

(** The realm [generate_authorization_header] looks up for a 401 or 407
    response: the realm parameter of its WWW-Authenticate (401) or
    Proxy-Authenticate (407) header, the empty string when the header names
    none; [None] when the response carries no such header. *)
Definition challenge_realm (resp : SIPMessage) : option string :=
  let header_name :=
    if bool_decide (status_code resp = Some 401)
    then "www-authenticate" else "proxy-authenticate" in
  match get_header header_name resp with
  | Some hv =>
      if truthy hv
      then Some (default EmptyString (parse_www_authenticate hv !! "realm"))
      else None
  | None => None
  end.

(** A challenge that asks for the session variant of MD5. *)
Definition sess_challenge : gmap string string :=
  parse_www_authenticate
    ("Digest realm=" +:+ quoted "r" +:+ ", nonce=" +:+ quoted "n1"
       +:+ ", algorithm=MD5-sess").

(** The loop of [create_authenticated_request] that copies every header
    but Via. *)
Definition copy_but_via (acc : SIPMessage) (h : SIPHeader) : SIPMessage :=
  if negb (str_eqb (lower (name h)) "via")
  then add_header (name h) (value h) acc else acc.

(** A challenge as the docstring of [parse_www_authenticate] has it: the
    word Digest, then the parameters as key="value", separated by a comma
    and a blank. *)
Definition challenge_param (kv : string * string) : string :=
  kv.1 +:+ "=" +:+ quoted kv.2.

Definition challenge_text (kvs : list (string * string)) : string :=
  "Digest " +:+ join ", " (List.map challenge_param kvs).

(** A key of one or more word characters, a value of one or more
    characters other than the double quote. *)
Definition quotable (kv : string * string) : bool :=
  truthy kv.1 && str_forall is_word kv.1 && truthy kv.2 && free_of DQ kv.2.

(** An authenticator that knows alice at example.org. *)
Definition alice_auth : SIPDigestAuthentication :=
  add_credentials "example.org" "alice" "secret" SIPDigestAuthentication_new.

End Auth.

(* ================================================================== *)
(** * tinysip/sdp.py: the answer builder *)
(* ================================================================== *)

Module Sdp.
Import Py.

(** The fields of the source's dataclasses carry the same names in several
    classes; here each has a prefix: [codec_] for [SDPCodec], [cap_] for
    [MediaCapability], [sess_] for [SessionCapability], [rm_] for [RtpMap],
    [md_] for [MediaDesc] and [sdp_] for [SDPParsed]. *)

Record SDPCodec : Type := mkSDPCodec {
  codec_name : string;
  codec_clock : Z;
  codec_channels : Z;
  codec_fmtp : list (string * string);
  codec_static_pt : option Z
}.

Record MediaCapability : Type := mkMediaCapability {
  cap_media : string;
  cap_profile : string;
  cap_direction : string;
  cap_codecs : list SDPCodec;
  cap_rtcp_mux : bool;
  cap_telephone_event_pt_pref : Z;
  cap_port : Z
}.

Record SessionCapability : Type := mkSessionCapability {
  sess_origin_user : string;
  sess_ip : string;
  sess_session_name : string;
  sess_version : Z;
  sess_timing : string;
  sess_audio : option MediaCapability;
  sess_video : option MediaCapability
}.

Record RtpMap : Type := mkRtpMap {
  rm_pt : Z;
  rm_encoding : string;
  rm_clock : Z;
  rm_channels : Z
}.

Record MediaDesc : Type := mkMediaDesc {
  md_media : string;
  md_port : Z;
  md_proto : string;
  md_fmts : list Z;
  md_conn_addr : option string;
  md_direction : option string;
  md_rtpmap : gmap Z RtpMap;
  md_fmtp : gmap Z (list (string * string));
  md_rtcp_mux : bool
}.

Record SDPParsed : Type := mkSDPParsed {
  sdp_origin : string;
  sdp_session_name : string;
  sdp_connection : option string;
  sdp_timing : string;
  sdp_media : list MediaDesc
}.

(** The key codecs are compared by: lower-case name, clock, channels. *)
Definition codec_key : Type := (string * Z * Z)%type.

Definition key_of_codec (c : SDPCodec) : codec_key :=
  (lower (codec_name c), codec_clock c, codec_channels c).

Definition te_key : codec_key := ("telephone-event", 8000, 1).

(** [SDPBuilder._origin]; [now] is [int(time.time())]. *)
Definition _origin (now : Z) (user ip : string) (version : Z) : string :=
  "o=" +:+ user +:+ " " +:+ str_of_Z now +:+ " " +:+ str_of_Z version
    +:+ " IN IP4 " +:+ ip.

Definition _rtpmap_line (pt : Z) (c : SDPCodec) : string :=
  let ch :=
    if negb (codec_channels c =? 0) && negb (codec_channels c =? 1)
    then "/" +:+ str_of_Z (codec_channels c) else EmptyString in
  "a=rtpmap:" +:+ str_of_Z pt +:+ " " +:+ codec_name c +:+ "/"
    +:+ str_of_Z (codec_clock c) +:+ ch.

Definition _fmtp_line (pt : Z) (fmtp : list (string * string))
  : option string :=
  match fmtp with
  | [] => None
  | _ =>
      Some ("a=fmtp:" +:+ str_of_Z pt +:+ " "
              +:+ join ";" (List.map (fun kv => kv.1 +:+ "=" +:+ kv.2) fmtp))
  end.

(** The dictionary comprehensions over [mcap.codecs]: a later codec with
    the same key replaces an earlier one. *)
Definition local_codecs_of (codecs : list SDPCodec)
  : gmap codec_key SDPCodec :=
  fold_left (fun d c => <[key_of_codec c := c]> d) codecs ∅.

Fixpoint local_order_from (idx : Z) (codecs : list SDPCodec)
    (d : gmap codec_key Z) : gmap codec_key Z :=
  match codecs with
  | [] => d
  | c :: rest => local_order_from (idx + 1) rest (<[key_of_codec c := idx]> d)
  end.

Definition local_order_of (codecs : list SDPCodec) : gmap codec_key Z :=
  local_order_from 0 codecs ∅.

Definition remote_codec : Type :=
  (Z * codec_key * list (string * string))%type.

(** The offered formats with their keys; a format without rtpmap counts
    when it is one of the static types 0 (PCMU) and 8 (PCMA). *)
Fixpoint remote_codecs_of (md : MediaDesc) (fmts : list Z)
  : list remote_codec :=
  match fmts with
  | [] => []
  | pt :: rest =>
      match md_rtpmap md !! pt with
      | Some r =>
          (pt, (lower (rm_encoding r), rm_clock r, rm_channels r),
           default [] (md_fmtp md !! pt)) :: remote_codecs_of md rest
      | None =>
          if pt =? 0 then (pt, ("pcmu", 8000, 1), []) :: remote_codecs_of md rest
          else if pt =? 8
               then (pt, ("pcma", 8000, 1), []) :: remote_codecs_of md rest
          else remote_codecs_of md rest
      end
  end.

(** [list.sort(key=...)]: a stable sort. *)
Fixpoint insert_by {A : Type} (key : A -> Z) (x : A) (l : list A) : list A :=
  match l with
  | [] => [x]
  | y :: l' => if key x <=? key y then x :: l else y :: insert_by key x l'
  end.

Definition sort_by {A : Type} (key : A -> Z) (l : list A) : list A :=
  fold_right (insert_by key) [] l.

(** The direction of the answer (RFC 3264, section 6.1). *)
Definition answer_direction (md : MediaDesc) (mcap : MediaCapability)
  : string :=
  let off_dir := str_or (md_direction md) "sendrecv" in
  if str_eqb off_dir "sendonly" then "recvonly"
  else if str_eqb off_dir "recvonly" then "sendonly"
  else if str_eqb off_dir "inactive" then "inactive"
  else str_or (Some (cap_direction mcap)) "sendrecv".

(** What the loops over the remote codecs build up. *)
Record answer_acc : Type := mkAcc {
  dyn_next : Z;                (* the next value of [dyn_pt_iter] *)
  answer_fmts : list Z;
  rtpmap_lines : list string;
  fmtp_lines : list string;
  chosen_any : bool
}.

(** [next(dyn_pt_iter)] over [range(96, 128)]. *)
Definition next_dyn (acc : answer_acc) : result (Z * answer_acc) :=
  if dyn_next acc <? 128
  then Ok (dyn_next acc,
           mkAcc (dyn_next acc + 1) (answer_fmts acc) (rtpmap_lines acc)
             (fmtp_lines acc) (chosen_any acc))
  else Raise StopIteration.

(** The first loop: telephone-event, when both sides have it. *)
Definition answer_telephone_event (mcap : MediaCapability)
    (local_codecs : gmap codec_key SDPCodec) (remote : list remote_codec)
    (acc : answer_acc) : answer_acc :=
  match local_codecs !! te_key with
  | None => acc
  | Some te_local =>
      match List.find (fun rc => bool_decide (rc.1.2 = te_key)) remote with
      | None => acc
      | Some (_, _, rfmtp) =>
          let te_pt := cap_telephone_event_pt_pref mcap in
          let events_remote := dict_get "events" rfmtp in
          let events_local := dict_get "events" (codec_fmtp te_local) in
          let events :=
            if truthy_opt events_local then default EmptyString events_local
            else str_or events_remote "0-16" in
          mkAcc (dyn_next acc) (answer_fmts acc ++ [te_pt])
            (rtpmap_lines acc ++ [_rtpmap_line te_pt te_local])
            (fmtp_lines acc
               ++ match _fmtp_line te_pt [("events", events)] with
                  | Some fl => [fl]
                  | None => []
                  end)
            true
      end
  end.

(** One round of the second loop, over the regular codecs. *)
Definition answer_codec (mcap : MediaCapability)
    (local_codecs : gmap codec_key SDPCodec) (rc : remote_codec)
    (acc : answer_acc) : result answer_acc :=
  match local_codecs !! rc.1.2 with
  | Some lc =>
      if bool_decide (rc.1.2 = te_key) then Ok acc
      else
        let is_te := str_eqb (lower (codec_name lc)) "telephone-event" in
        rbind
          (match codec_static_pt lc with
           | Some spt => Ok (spt, acc)
           | None =>
               rbind (if is_te
                      then Ok (cap_telephone_event_pt_pref mcap, acc)
                      else next_dyn acc)
                 (fun '(apt, acc) =>
                    if (apt =? cap_telephone_event_pt_pref mcap) && negb is_te
                    then next_dyn acc
                    else Ok (apt, acc))
           end)
          (fun '(apt, acc) =>
             if bool_decide (apt ∈ answer_fmts acc) then Ok acc
             else
               Ok (mkAcc (dyn_next acc) (answer_fmts acc ++ [apt])
                     (rtpmap_lines acc ++ [_rtpmap_line apt lc])
                     (fmtp_lines acc
                        ++ match _fmtp_line apt (codec_fmtp lc) with
                           | Some fl => [fl]
                           | None => []
                           end)
                     true))
  | None => Ok acc
  end.

Fixpoint answer_codecs (mcap : MediaCapability)
    (local_codecs : gmap codec_key SDPCodec) (remote : list remote_codec)
    (acc : answer_acc) : result answer_acc :=
  match remote with
  | [] => Ok acc
  | rc :: rest =>
      rbind (answer_codec mcap local_codecs rc acc)
        (answer_codecs mcap local_codecs rest)
  end.

(** The m-line that rejects a medium: port 0 and the offered formats. *)
Definition reject_line (md : MediaDesc) : string :=
  "m=" +:+ md_media md +:+ " 0 " +:+ md_proto md +:+ " "
    +:+ join " " (List.map str_of_Z (md_fmts md)).

(** The local capability for an offered medium. *)
Definition local_capability (md : MediaDesc) (local : SessionCapability)
  : option MediaCapability :=
  if str_eqb (md_media md) "audio" then sess_audio local
  else if str_eqb (md_media md) "video" then sess_video local
  else None.

(** The lines of the answer for one offered medium: one round of the loop
    over [offer.media]. *)
Definition answer_media (md : MediaDesc) (local : SessionCapability)
  : result (list string) :=
  match local_capability md local with
  | None => Ok [reject_line md]
  | Some mcap =>
      let local_codecs := local_codecs_of (cap_codecs mcap) in
      let local_order := local_order_of (cap_codecs mcap) in
      let remote :=
        sort_by (fun rc : remote_codec => default 9999 (local_order !! rc.1.2))
          (remote_codecs_of md (md_fmts md)) in
      let ans_dir := answer_direction md mcap in
      let acc :=
        answer_telephone_event mcap local_codecs remote
          (mkAcc 96 [] [] [] false) in
      rbind (answer_codecs mcap local_codecs remote acc) (fun acc =>
      if negb (chosen_any acc) then Ok [reject_line md]
      else
        Ok (("m=" +:+ md_media md +:+ " " +:+ str_of_Z (cap_port mcap) +:+ " "
               +:+ cap_profile mcap +:+ " "
               +:+ join " " (List.map str_of_Z (answer_fmts acc)))
              :: ("a=" +:+ ans_dir)
              :: (if cap_rtcp_mux mcap && md_rtcp_mux md
                  then ["a=rtcp-mux"] else [])
              ++ rtpmap_lines acc ++ fmtp_lines acc))
  end.

Fixpoint answer_all (media : list MediaDesc) (local : SessionCapability)
  : result (list string) :=
  match media with
  | [] => Ok []
  | md :: rest =>
      rbind (answer_media md local) (fun ls =>
      rbind (answer_all rest local) (fun ls' => Ok (ls ++ ls')))
  end.

(** [SDPBuilder.build_answer] *)
Definition build_answer (now : Z) (offer : SDPParsed)
    (local : SessionCapability) : result string :=
  rbind (answer_all (sdp_media offer) local) (fun media_lines =>
  Ok (join CRLF
        (["v=0";
          _origin now (sess_origin_user local) (sess_ip local)
            (sess_version local);
          "s=" +:+ sess_session_name local;
          "c=IN IP4 " +:+ sess_ip local;
          "t=" +:+ sdp_timing offer] ++ media_lines) +:+ CRLF)).

(** ** The direction rule of the specification *)

(** The answer direction the specification gives for an offered direction,
    [local] being the configured direction of the local capability; [None]
    where the specification says nothing. *)
Definition spec_direction (offered : option string) (local : string)
  : option string :=
  match offered with
  | None => Some local
  | Some d =>
      if str_eqb d "sendonly" then Some "recvonly"
      else if str_eqb d "recvonly" then Some "sendonly"
      else if str_eqb d "inactive" then Some "inactive"
      else if str_eqb d "sendrecv" then Some local
      else None
  end.

(** The default audio capability of the negotiator and an offer of PCMU,
    PCMA and telephone-event, send-only. *)
Definition sample_audio : MediaCapability :=
  mkMediaCapability "audio" "RTP/AVP" "sendrecv"
    [mkSDPCodec "PCMU" 8000 1 [] (Some 0);
     mkSDPCodec "PCMA" 8000 1 [] (Some 8);
     mkSDPCodec "telephone-event" 8000 1 [("events", "0-16")] None]
    true 101 5004.

Definition sample_local : SessionCapability :=
  mkSessionCapability "tinysip" "192.0.2.1" "TinySIP Session" 0 "0 0"
    (Some sample_audio) None.

Definition sample_offer_media : MediaDesc :=
  mkMediaDesc "audio" 49170 "RTP/AVP" [0; 8; 101] None (Some "sendonly")
    (<[101 := mkRtpMap 101 "telephone-event" 8000 1]> ∅) ∅ true.

(** [AdvancedSDPNegotiator.next_reoffer_version]; [now] is
    [int(time.time())], the value of the [except] branch. *)
Definition next_reoffer_version (now : Z) (prev_origin_line : string) : Z :=
  match split_ws prev_origin_line !! 2%nat with
  | Some p =>
      match py_int p with
      | Some v => v + 1
      | None => now
      end
  | None => now
  end.

(** Where a payload type of an answer comes from: the preference for
    telephone-event, the dynamic range, or the static type of a codec of
    the local capability. *)
Definition known_pt (mcap : MediaCapability) (pt : Z) : bool :=
  (pt =? cap_telephone_event_pt_pref mcap)
  || ((96 <=? pt) && (pt <? 128))
  || existsb (fun c => bool_decide (codec_static_pt c = Some pt))
       (cap_codecs mcap).

(** What the loops keep true of the accumulator: the payload types chosen
    so far are distinct and of known origin, the iterator has not gone
    back, and a medium is only accepted with a payload type. *)
Definition acc_ok (mcap : MediaCapability) (acc : answer_acc) : Prop :=
  NoDup (answer_fmts acc) /\
  forallb (known_pt mcap) (answer_fmts acc) = true /\
  96 <= dyn_next acc /\
  (chosen_any acc = true -> answer_fmts acc <> []).

(** How far the iterator over the dynamic types can be after [k] rounds of
    the loop over the codecs: a round draws one type, and a second one only
    when the first is the preferred type for telephone-event. *)
Definition drawn_within (mcap : MediaCapability) (k : nat)
    (acc : answer_acc) : Prop :=
  dyn_next acc <= 96 + Z.of_nat k \/
  (cap_telephone_event_pt_pref mcap < dyn_next acc /\
   dyn_next acc <= 97 + Z.of_nat k).

End Sdp.

(* ================================================================== *)
(** * tinysip/fsm.py *)
(* ================================================================== *)

Module Fsm.
Import Py Message Auth.

(** ** States, kinds and timers *)

Inductive TxState : Type :=
| INITIAL | TRYING | PROCEEDING | COMPLETED | ACCEPTED | CONFIRMED
| TERMINATED.

(** [DialogState]; three of its members share their names with [TxState]
    and carry the prefix [DIALOG_] here. *)
Inductive DialogState : Type :=
| DIALOG_INITIAL | EARLY | DIALOG_CONFIRMED | DIALOG_TERMINATED.

Inductive TxKind : Type :=
| INVITE_CLIENT | INVITE_SERVER | NON_INVITE_CLIENT | NON_INVITE_SERVER.

Inductive TimerType : Type :=
| TIMER_E | TIMER_F | TIMER_K
| TIMER_A | TIMER_B | TIMER_D | TIMER_G | TIMER_H | TIMER_I
| TIMER_J | TIMER_L | TIMER_M.

Global Instance TxState_eq_dec : EqDecision TxState.
Proof. solve_decision. Defined.
Global Instance DialogState_eq_dec : EqDecision DialogState.
Proof. solve_decision. Defined.
Global Instance TxKind_eq_dec : EqDecision TxKind.
Proof. solve_decision. Defined.
Global Instance TimerType_eq_dec : EqDecision TimerType.
Proof. solve_decision. Defined.

Definition TimerType_to_nat (t : TimerType) : nat :=
  match t with
  | TIMER_E => 0 | TIMER_F => 1 | TIMER_K => 2 | TIMER_A => 3
  | TIMER_B => 4 | TIMER_D => 5 | TIMER_G => 6 | TIMER_H => 7
  | TIMER_I => 8 | TIMER_J => 9 | TIMER_L => 10 | TIMER_M => 11
  end%nat.

Definition TimerType_of_nat (n : nat) : option TimerType :=
  match n with
  | 0 => Some TIMER_E | 1 => Some TIMER_F | 2 => Some TIMER_K
  | 3 => Some TIMER_A | 4 => Some TIMER_B | 5 => Some TIMER_D
  | 6 => Some TIMER_G | 7 => Some TIMER_H | 8 => Some TIMER_I
  | 9 => Some TIMER_J | 10 => Some TIMER_L | 11 => Some TIMER_M
  | _ => None
  end%nat.

Global Instance TimerType_countable : Countable TimerType.
Proof.
  apply (inj_countable TimerType_to_nat TimerType_of_nat).
  now intros [].
Defined.

(** [SIPTimers], in milliseconds. *)
Record SIPTimers : Type := mkSIPTimers {
  T1 : Z;
  T2 : Z;
  T4 : Z
}.

Definition SIPTimers_default : SIPTimers := mkSIPTimers 500 4000 5000.

(** The properties [SIPTimers.TIMER_A] ... [SIPTimers.TIMER_M]. *)
Definition timer_value (t : TimerType) (ts : SIPTimers) : Z :=
  match t with
  | TIMER_A => T1 ts
  | TIMER_B => 64 * T1 ts
  | TIMER_D => 32000
  | TIMER_E => T1 ts
  | TIMER_F => 64 * T1 ts
  | TIMER_G => T1 ts
  | TIMER_H => 64 * T1 ts
  | TIMER_I => T4 ts
  | TIMER_J => 64 * T1 ts
  | TIMER_K => T4 ts
  | TIMER_L => 64 * T1 ts
  | TIMER_M => 64 * T1 ts
  end.

(** ** What the transaction layer does to the outside

    The callbacks of [TransactionCallbacks] and [DialogCallbacks], the
    transport's [send_message], the tasks handed to the event loop and the
    warnings logged, in the order they happen. *)
Inductive Event : Type :=
| on_provisional_response (tx_id : string) (response : SIPMessage)
| on_final_response (tx_id : string) (response : SIPMessage)
| on_request_received (tx_id : string) (request : SIPMessage)
| on_timeout (tx_id : string) (timer_type : TimerType)
| on_transport_error (tx_id : string)
| on_terminated (tx_id : string)
| send_message (message : string) (destination : string * Z)
| create_task_cleanup (tx_id : string)
| on_dialog_created (dialog_id : string)
| on_dialog_confirmed (dialog_id : string)
| on_dialog_terminated (dialog_id : string) (reason : string)
| warning (text : string).

(** The surroundings of a call: the events so far and the number of UUIDs
    drawn. *)
Record Env : Type := mkEnv {
  trace : list Event;
  uuid_draws : nat
}.

(** A computation on a state [S] that may raise; the state it leaves is
    kept also when it raises, as Python keeps the mutations made before an
    exception. *)
Definition M (S A : Type) : Type := S -> result A * S.

Definition ret {S A : Type} (a : A) : M S A := fun s => (Ok a, s).

Definition bind {S A B : Type} (c : M S A) (k : A -> M S B) : M S B :=
  fun s =>
    match c s with
    | (Ok a, s') => k a s'
    | (Raise e, s') => (Raise e, s')
    end.

Definition raise {S A : Type} (e : exn) : M S A := fun s => (Raise e, s).
Definition get {S : Type} : M S S := fun s => (Ok s, s).
Definition modify {S : Type} (f : S -> S) : M S unit := fun s => (Ok tt, f s).

Notation "x <- c ;; k" := (bind c (fun x => k))
  (at level 100, c at next level, right associativity).
Notation "c ;;; k" := (bind c (fun _ => k))
  (at level 100, right associativity).

(** ** Transactions *)

Record SIPTransaction : Type := mkSIPTransaction {
  tx_id : string;
  kind : TxKind;
  state : TxState;
  timers : option SIPTimers;
  request : option SIPMessage;
  response : option SIPMessage;
  _active_timers : gmap TimerType Z;   (* timer -> the delay of its task *)
  _terminated_event : bool;
  _retransmission_count : Z;
  _max_retransmissions : Z
}.

(** [SIPTransaction.__init__]: the second assignment to [self.timers]
    overrides the default of the first, so the field is the argument. *)
Definition SIPTransaction_new (id : string) (k : TxKind)
    (ts : option SIPTimers) : SIPTransaction :=
  mkSIPTransaction id k INITIAL ts None None ∅ false 0 7.

Definition TxSt : Type := (SIPTransaction * Env)%type.

Definition emit {S : Type} (e : Event) : M (S * Env) unit :=
  modify (fun '(s, env) => (s, mkEnv (trace env ++ [e]) (uuid_draws env))).

Definition ask_env {S : Type} : M (S * Env) Env := fun s => (Ok s.2, s).

Definition update_tx (f : SIPTransaction -> SIPTransaction) : M TxSt unit :=
  modify (fun '(tx, env) => (f tx, env)).

Definition self : M TxSt SIPTransaction := fun s => (Ok s.1, s).

Definition set_state (st : TxState) (tx : SIPTransaction) : SIPTransaction :=
  mkSIPTransaction (tx_id tx) (kind tx) st (timers tx) (request tx)
    (response tx) (_active_timers tx) (_terminated_event tx)
    (_retransmission_count tx) (_max_retransmissions tx).

Definition set_request (r : option SIPMessage) (tx : SIPTransaction)
  : SIPTransaction :=
  mkSIPTransaction (tx_id tx) (kind tx) (state tx) (timers tx) r
    (response tx) (_active_timers tx) (_terminated_event tx)
    (_retransmission_count tx) (_max_retransmissions tx).

Definition set_response (r : option SIPMessage) (tx : SIPTransaction)
  : SIPTransaction :=
  mkSIPTransaction (tx_id tx) (kind tx) (state tx) (timers tx) (request tx)
    r (_active_timers tx) (_terminated_event tx)
    (_retransmission_count tx) (_max_retransmissions tx).

Definition set_active_timers (a : gmap TimerType Z) (tx : SIPTransaction)
  : SIPTransaction :=
  mkSIPTransaction (tx_id tx) (kind tx) (state tx) (timers tx) (request tx)
    (response tx) a (_terminated_event tx)
    (_retransmission_count tx) (_max_retransmissions tx).

Definition set_terminated_event (tx : SIPTransaction) : SIPTransaction :=
  mkSIPTransaction (tx_id tx) (kind tx) (state tx) (timers tx) (request tx)
    (response tx) (_active_timers tx) true
    (_retransmission_count tx) (_max_retransmissions tx).

Definition set_retransmission_count (n : Z) (tx : SIPTransaction)
  : SIPTransaction :=
  mkSIPTransaction (tx_id tx) (kind tx) (state tx) (timers tx) (request tx)
    (response tx) (_active_timers tx) (_terminated_event tx)
    n (_max_retransmissions tx).

(** [self.timers.X]: an [AttributeError] when no timers were given. *)
Definition the_timers : M TxSt SIPTimers :=
  tx <- self ;;
  match timers tx with
  | Some ts => ret ts
  | None => raise (AttributeError "NoneType has no timer attributes")
  end.

Definition _transition_to (new_state : TxState) : M TxSt unit :=
  update_tx (set_state new_state) ;;;
  if bool_decide (new_state = TERMINATED)
  then update_tx set_terminated_event ;;;
       tx <- self ;;
       emit (create_task_cleanup (tx_id tx))
  else ret tt.

Definition _start_timer (timer_type : TimerType) (duration : Z)
  : M TxSt unit :=
  update_tx (fun tx =>
    set_active_timers (<[timer_type := duration]> (_active_timers tx)) tx).

Definition _cancel_timer (timer_type : TimerType) : M TxSt unit :=
  update_tx (fun tx =>
    set_active_timers (delete timer_type (_active_timers tx)) tx).

(** One match of the Via pattern of [_extract_destination] at the start of
    [s]: the protocol prefix [SIP/2.0/], a transport word, blanks, the host
    (no semicolon, colon or blank) and an optional colon and port. *)
Definition match_via (s : string) : option (string * Z) :=
  if negb (startswith "SIP/2.0/" s) then None
  else
    let '(w, r1) := span is_word (str_drop 8 s) in
    let '(ws, r2) := span is_space r1 in
    let '(h, r3) :=
      span (fun c => negb (chr_eqb c ";"%char) && negb (chr_eqb c ":"%char)
                     && negb (is_space c)) r2 in
    if truthy w && truthy ws && truthy h then
      match r3 with
      | String ":"%char r4 =>
          let '(digits, _) := span is_digit r4 in
          if truthy digits then Some (h, default 5060 (py_int digits))
          else Some (h, 5060)
      | _ => Some (h, 5060)
      end
    else None.

(** [re.search]: the leftmost match. *)
Fixpoint search_via (s : string) : option (string * Z) :=
  match match_via s with
  | Some r => Some r
  | None =>
      match s with
      | EmptyString => None
      | String _ s' => search_via s'
      end
  end.

Definition via_destination (m : SIPMessage) : option (string * Z) :=
  match get_header "via" m with
  | Some via_value => if truthy via_value then search_via via_value else None
  | None => None
  end.

Definition _extract_destination (request : SIPMessage) : string * Z :=
  match via_destination request with
  | Some d => d
  | None =>
      match uri request with
      | Some u =>
          (host u,
           match port u with
           | Some p => if p =? 0 then 5060 else p
           | None => 5060
           end)
      | None => ("127.0.0.1", 5060)
      end
  end.

Definition _extract_response_destination (response : SIPMessage)
  : string * Z :=
  default ("127.0.0.1", 5060) (via_destination response).

Section Transport.

(** Whether [transport.send_message] returns (rather than raises) for a
    message and a destination, given the events so far. *)
Variable transport_ok : list Event -> string -> string * Z -> bool.

(** [id] of the next message object created, given the events so far. *)
Variable object_id : list Event -> Z.

(** [str(uuid.uuid4())] at the [n]-th draw. *)
Variable uuid_text : nat -> string.

(** [_send_request]: the debug line after the send formats
    [self.request.method.value] inside the [try], so a request without a
    method ends in the transport-error callback as well. *)
Definition _send_request : M TxSt unit :=
  tx <- self ;;
  match request tx with
  | None => ret tt
  | Some req =>
      let raw_message := encode_str req in
      let destination := _extract_destination req in
      env <- ask_env ;;
      if transport_ok (trace env) raw_message destination
      then emit (send_message raw_message destination) ;;;
           match method req with
           | Some _ => ret tt
           | None => emit (on_transport_error (tx_id tx))
           end
      else emit (on_transport_error (tx_id tx))
  end.

Definition _send_response : M TxSt unit :=
  tx <- self ;;
  match response tx with
  | None => ret tt
  | Some resp =>
      let raw_message := encode_str resp in
      let destination := _extract_response_destination resp in
      env <- ask_env ;;
      if transport_ok (trace env) raw_message destination
      then emit (send_message raw_message destination)
      else emit (on_transport_error (tx_id tx))
  end.

Definition is_client (k : TxKind) : bool :=
  bool_decide (k = INVITE_CLIENT) || bool_decide (k = NON_INVITE_CLIENT).

Definition is_server (k : TxKind) : bool :=
  bool_decide (k = INVITE_SERVER) || bool_decide (k = NON_INVITE_SERVER).

Definition _handle_retransmission (timer_type : TimerType) : M TxSt unit :=
  tx <- self ;;
  if _max_retransmissions tx <=? _retransmission_count tx
  then _transition_to TERMINATED
  else
    update_tx (fun tx =>
      set_retransmission_count (_retransmission_count tx + 1) tx) ;;;
    (if is_client (kind tx) && bool_decide (is_Some (request tx))
     then _send_request
     else if is_server (kind tx) && bool_decide (is_Some (response tx))
     then _send_response
     else ret tt) ;;;
    ts <- the_timers ;;
    tx <- self ;;
    _start_timer timer_type
      (Z.min (T2 ts) (2 ^ _retransmission_count tx * T1 ts)).

Definition _on_timer_fired (timer_type : TimerType) : M TxSt unit :=
  tx <- self ;;
  emit (on_timeout (tx_id tx) timer_type) ;;;
  if bool_decide (timer_type ∈ [TIMER_B; TIMER_F])
  then (* transaction timeout *)
       _transition_to TERMINATED
  else if bool_decide (timer_type ∈ [TIMER_D; TIMER_I; TIMER_J; TIMER_K])
  then (* cleanup timeout *)
       _transition_to TERMINATED
  else if bool_decide (timer_type ∈ [TIMER_A; TIMER_E; TIMER_G])
  then (* retransmission timeout *)
       _handle_retransmission timer_type
  else ret tt.

(** [_cleanup], the task [_transition_to] hands to the event loop. *)
Definition _cleanup : M TxSt unit :=
  update_tx (set_active_timers ∅) ;;;
  tx <- self ;;
  emit (on_terminated (tx_id tx)).

(** *** INVITE client *)

Definition InviteClient_start (req : SIPMessage) : M TxSt unit :=
  update_tx (set_request (Some req)) ;;;
  _transition_to TRYING ;;;
  _send_request ;;;
  ts <- the_timers ;;
  _start_timer TIMER_A (timer_value TIMER_A ts) ;;;
  ts <- the_timers ;;
  _start_timer TIMER_B (timer_value TIMER_B ts).

Definition InviteClient_process_message (resp : SIPMessage) : M TxSt unit :=
  match status_code resp with
  | None => ret tt
  | Some status_code =>
      tx <- self ;;
      if bool_decide (state tx = TRYING) then
        if (100 <=? status_code) && (status_code <=? 199) then
          _transition_to PROCEEDING ;;;
          _cancel_timer TIMER_A ;;;
          emit (on_provisional_response (tx_id tx) resp)
        else if (200 <=? status_code) && (status_code <=? 299) then
          _transition_to ACCEPTED ;;;
          _cancel_timer TIMER_A ;;;
          _cancel_timer TIMER_B ;;;
          emit (on_final_response (tx_id tx) resp) ;;;
          ts <- the_timers ;;
          _start_timer TIMER_L (timer_value TIMER_L ts)
        else if 300 <=? status_code then
          _transition_to COMPLETED ;;;
          _cancel_timer TIMER_A ;;;
          _cancel_timer TIMER_B ;;;
          emit (on_final_response (tx_id tx) resp) ;;;
          ts <- the_timers ;;
          _start_timer TIMER_D (timer_value TIMER_D ts)
        else ret tt
      else if bool_decide (state tx = PROCEEDING) then
        if (200 <=? status_code) && (status_code <=? 299) then
          _transition_to ACCEPTED ;;;
          emit (on_final_response (tx_id tx) resp) ;;;
          ts <- the_timers ;;
          _start_timer TIMER_L (timer_value TIMER_L ts)
        else if 300 <=? status_code then
          _transition_to COMPLETED ;;;
          emit (on_final_response (tx_id tx) resp) ;;;
          ts <- the_timers ;;
          _start_timer TIMER_D (timer_value TIMER_D ts)
        else
          emit (on_provisional_response (tx_id tx) resp)
      else ret tt
  end.

(** *** Non-INVITE client *)

Definition NonInviteClient_start (req : SIPMessage) : M TxSt unit :=
  update_tx (set_request (Some req)) ;;;
  _transition_to TRYING ;;;
  _send_request ;;;
  ts <- the_timers ;;
  _start_timer TIMER_E (timer_value TIMER_E ts) ;;;
  ts <- the_timers ;;
  _start_timer TIMER_F (timer_value TIMER_F ts).

Definition NonInviteClient_process_message (resp : SIPMessage)
  : M TxSt unit :=
  match status_code resp with
  | None => ret tt
  | Some status_code =>
      tx <- self ;;
      if bool_decide (state tx = TRYING) then
        if (100 <=? status_code) && (status_code <=? 199) then
          _transition_to PROCEEDING ;;;
          _cancel_timer TIMER_E ;;;
          emit (on_provisional_response (tx_id tx) resp)
        else if 200 <=? status_code then
          (* final response: straight to TERMINATED *)
          _transition_to TERMINATED ;;;
          _cancel_timer TIMER_E ;;;
          _cancel_timer TIMER_F ;;;
          emit (on_final_response (tx_id tx) resp)
        else ret tt
      else if bool_decide (state tx = PROCEEDING) then
        if 200 <=? status_code then
          (* final response: straight to TERMINATED *)
          _transition_to TERMINATED ;;;
          emit (on_final_response (tx_id tx) resp)
        else
          emit (on_provisional_response (tx_id tx) resp)
      else ret tt
  end.

(** *** Servers *)

(** [_create_response] of both server classes. *)
Definition _create_response (status_code : Z) (reason_phrase : string)
    (body : option string) : M TxSt SIPMessage :=
  tx <- self ;;
  match request tx with
  | None => raise (ValueError "No request to respond to")
  | Some req =>
      env <- ask_env ;;
      let resp :=
        create_response (object_id (trace env)) status_code
          (Some reason_phrase) (Some req) [] None in
      match body with
      | Some b => if truthy b
                  then ret (set_body b "application/sdp" resp)
                  else ret resp
      | None => ret resp
      end
  end.

Definition _send_response_internal (resp : SIPMessage) : M TxSt unit :=
  update_tx (set_response (Some resp)) ;;;
  _send_response.

Definition InviteServer_start (req : SIPMessage) : M TxSt unit :=
  update_tx (set_request (Some req)) ;;;
  _transition_to PROCEEDING ;;;
  tx <- self ;;
  emit (on_request_received (tx_id tx) req).

Definition InviteServer_send_provisional_response (status_code : Z)
    (reason_phrase : string) : M TxSt unit :=
  tx <- self ;;
  if negb (bool_decide (state tx = PROCEEDING)) then ret tt
  else
    resp <- _create_response status_code reason_phrase None ;;
    _send_response_internal resp.

Definition InviteServer_send_final_response (status_code : Z)
    (reason_phrase : string) (body : option string) : M TxSt unit :=
  tx <- self ;;
  if negb (bool_decide (state tx = PROCEEDING)) then ret tt
  else
    resp <- _create_response status_code reason_phrase body ;;
    (if (200 <=? status_code) && (status_code <=? 299) then
       _transition_to ACCEPTED ;;;
       ts <- the_timers ;;
       _start_timer TIMER_L (timer_value TIMER_L ts)
     else
       _transition_to COMPLETED ;;;
       ts <- the_timers ;;
       _start_timer TIMER_H (timer_value TIMER_H ts) ;;;
       ts <- the_timers ;;
       _start_timer TIMER_G (timer_value TIMER_G ts)) ;;;
    update_tx (set_response (Some resp)) ;;;
    _send_response_internal resp.

Definition InviteServer_process_message (message : SIPMessage)
  : M TxSt unit :=
  if is_request message then
    tx <- self ;;
    if bool_decide (method message = Some ACK) then
      if bool_decide (state tx = ACCEPTED) then
        _transition_to CONFIRMED ;;;
        _cancel_timer TIMER_L ;;;
        ts <- the_timers ;;
        _start_timer TIMER_I (timer_value TIMER_I ts)
      else if bool_decide (state tx = COMPLETED) then
        _transition_to CONFIRMED ;;;
        _cancel_timer TIMER_G ;;;
        _cancel_timer TIMER_H ;;;
        ts <- the_timers ;;
        _start_timer TIMER_I (timer_value TIMER_I ts)
      else ret tt
    else if bool_decide (state tx = PROCEEDING) then
      match response tx with
      | Some resp => _send_response_internal resp
      | None => ret tt
      end
    else ret tt
  else ret tt.

Definition NonInviteServer_start (req : SIPMessage) : M TxSt unit :=
  update_tx (set_request (Some req)) ;;;
  _transition_to TRYING ;;;
  tx <- self ;;
  emit (on_request_received (tx_id tx) req).

Definition NonInviteServer_send_provisional_response (status_code : Z)
    (reason_phrase : string) : M TxSt unit :=
  tx <- self ;;
  if negb (bool_decide (state tx = TRYING)) then ret tt
  else
    _transition_to PROCEEDING ;;;
    resp <- _create_response status_code reason_phrase None ;;
    _send_response_internal resp.

Definition NonInviteServer_send_final_response (status_code : Z)
    (reason_phrase : string) (body : option string) : M TxSt unit :=
  tx <- self ;;
  if negb (bool_decide (state tx = TRYING)
           || bool_decide (state tx = PROCEEDING)) then ret tt
  else
    _transition_to COMPLETED ;;;
    resp <- _create_response status_code reason_phrase body ;;
    update_tx (set_response (Some resp)) ;;;
    _send_response_internal resp ;;;
    ts <- the_timers ;;
    _start_timer TIMER_J (timer_value TIMER_J ts).

Definition NonInviteServer_process_message (req : SIPMessage)
  : M TxSt unit :=
  tx <- self ;;
  match response tx with
  | Some resp =>
      if bool_decide (state tx = COMPLETED)
      then _send_response_internal resp
      else ret tt
  | None => ret tt
  end.

(** The methods of a transaction, by its class. *)
Definition start (req : SIPMessage) : M TxSt unit :=
  tx <- self ;;
  match kind tx with
  | INVITE_CLIENT => InviteClient_start req
  | NON_INVITE_CLIENT => NonInviteClient_start req
  | INVITE_SERVER => InviteServer_start req
  | NON_INVITE_SERVER => NonInviteServer_start req
  end.

Definition process_message (message : SIPMessage) : M TxSt unit :=
  tx <- self ;;
  match kind tx with
  | INVITE_CLIENT => InviteClient_process_message message
  | NON_INVITE_CLIENT => NonInviteClient_process_message message
  | INVITE_SERVER => InviteServer_process_message message
  | NON_INVITE_SERVER => NonInviteServer_process_message message
  end.

(** [send_final_response], which only the server classes have. *)
Definition send_final_response (status_code : Z) (reason_phrase : string)
    (body : option string) : M TxSt unit :=
  tx <- self ;;
  match kind tx with
  | INVITE_SERVER =>
      InviteServer_send_final_response status_code reason_phrase body
  | NON_INVITE_SERVER =>
      NonInviteServer_send_final_response status_code reason_phrase body
  | _ => ret tt
  end.

(** ** The transaction manager *)

Record TransactionManager : Type := mkTransactionManager {
  _transactions : gmap string SIPTransaction;
  tm_timers : option SIPTimers
}.

(** [TransactionManager.__init__]; as in [SIPTransaction.__init__] the
    second assignment makes the timers the argument itself. *)
Definition TransactionManager_new (ts : option SIPTimers)
  : TransactionManager :=
  mkTransactionManager ∅ ts.

Definition MgrSt : Type := (TransactionManager * Env)%type.

Definition put_tx (tx : SIPTransaction) (mgr : TransactionManager)
  : TransactionManager :=
  mkTransactionManager (<[tx_id tx := tx]> (_transactions mgr))
    (tm_timers mgr).

(** A method called on a transaction object the table holds: the object is
    shared, so what the method does to it shows in the table. *)
Definition on_tx {A : Type} (tx : SIPTransaction) (c : M TxSt A)
  : M MgrSt A :=
  fun '(mgr, env) =>
    match c (tx, env) with
    | (r, (tx', env')) => (r, (put_tx tx' mgr, env'))
    end.

(** The first match of [key=([^;]+)] in [s], for the keys [branch=] and
    [tag=] the source searches for. *)
Fixpoint search_param (key : string) (s : string) : option string :=
  let '(run, _) :=
    span (fun x => negb (chr_eqb x ";"%char))
      (str_drop (String.length key) s) in
  if startswith key s && truthy run then Some run
  else
    match s with
    | EmptyString => None
    | String _ s' => search_param key s'
    end.

(** The branch parameter of the topmost Via, empty when there is none. *)
Definition via_branch (message : SIPMessage) : string :=
  match get_header "via" message with
  | Some via_header =>
      if truthy via_header
      then default EmptyString (search_param "branch=" via_header)
      else EmptyString
  | None => EmptyString
  end.

Definition generate_transaction_id (message : SIPMessage) : M MgrSt string :=
  if truthy (via_branch message) then ret (via_branch message)
  else
    (* no branch: a random id *)
    env <- ask_env ;;
    modify (fun '(mgr, env) =>
              (mgr, mkEnv (trace env) (S (uuid_draws env)))) ;;;
    ret (str_take 16 (uuid_text (uuid_draws env))).

Definition manager : M MgrSt TransactionManager := fun s => (Ok s.1, s).

Definition create_client_transaction (req : SIPMessage) : M MgrSt string :=
  id <- generate_transaction_id req ;;
  mgr <- manager ;;
  match _transactions mgr !! id with
  | Some _ => ret id
  | None =>
      let tx :=
        if bool_decide (method req = Some INVITE)
        then SIPTransaction_new id INVITE_CLIENT (tm_timers mgr)
        else SIPTransaction_new id NON_INVITE_CLIENT (tm_timers mgr) in
      modify (fun '(mgr, env) => (put_tx tx mgr, env)) ;;;
      on_tx tx (start req) ;;;
      ret id
  end.

Definition create_server_transaction (req : SIPMessage) : M MgrSt string :=
  id <- generate_transaction_id req ;;
  mgr <- manager ;;
  match _transactions mgr !! id with
  | Some tx =>
      (* retransmitted request *)
      on_tx tx (process_message req) ;;;
      ret id
  | None =>
      let tx :=
        if bool_decide (method req = Some INVITE)
        then SIPTransaction_new id INVITE_SERVER (tm_timers mgr)
        else SIPTransaction_new id NON_INVITE_SERVER (tm_timers mgr) in
      modify (fun '(mgr, env) => (put_tx tx mgr, env)) ;;;
      on_tx tx (start req) ;;;
      ret id
  end.

Definition process_response (resp : SIPMessage) : M MgrSt unit :=
  id <- generate_transaction_id resp ;;
  mgr <- manager ;;
  match _transactions mgr !! id with
  | Some tx => on_tx tx (process_message resp)
  | None => emit (warning "No transaction found for response")
  end.

Definition process_request (req : SIPMessage) : M MgrSt string :=
  if bool_decide (method req = Some ACK) then
    (* ACK for an existing INVITE transaction *)
    id <- generate_transaction_id req ;;
    mgr <- manager ;;
    match _transactions mgr !! id with
    | Some tx =>
        on_tx tx (process_message req) ;;;
        ret id
    | None =>
        (* new server transaction *)
        create_server_transaction req
    end
  else
    (* new server transaction *)
    create_server_transaction req.

Definition get_transaction (id : string) (mgr : TransactionManager)
  : option SIPTransaction :=
  _transactions mgr !! id.

Definition send_response (id : string) (status_code : Z)
    (reason_phrase : string) (body : option string) : M MgrSt unit :=
  mgr <- manager ;;
  match _transactions mgr !! id with
  | Some tx => on_tx tx (send_final_response status_code reason_phrase body)
  | None => ret tt
  end.

Definition cleanup_transaction (id : string) : M MgrSt unit :=
  modify (fun '(mgr, env) =>
            (mkTransactionManager (delete id (_transactions mgr))
               (tm_timers mgr), env)).

(** A timer task of a transaction in the table runs to its end. *)
Definition fire_timer (id : string) (t : TimerType) : M MgrSt unit :=
  mgr <- manager ;;
  match _transactions mgr !! id with
  | Some tx => on_tx tx (_on_timer_fired t)
  | None => ret tt
  end.

(** ** Dialogs *)

Record SIPDialog : Type := mkSIPDialog {
  dialog_id : string;
  dialog_state : DialogState;           (* the field [state] *)
  local_uri : string;
  remote_uri : string;
  local_tag : option string;
  remote_tag : option string;
  call_id : string;
  local_cseq : Z;
  remote_cseq : option Z;
  route_set : list string;
  secure : bool;
  created_time : Z
}.


Definition set_remote (tag : option string) (st : DialogState)
    (d : SIPDialog) : SIPDialog :=
  mkSIPDialog (dialog_id d) st (local_uri d) (remote_uri d) (local_tag d)
    tag (call_id d) (local_cseq d) (remote_cseq d) (route_set d) (secure d)
    (created_time d).

Definition set_dialog_state (st : DialogState) (d : SIPDialog) : SIPDialog :=
  set_remote (remote_tag d) st d.

Record DialogManager : Type := mkDialogManager {
  _dialogs : gmap string SIPDialog
}.

Definition DlgSt : Type := (DialogManager * Env)%type.

Definition _extract_tag (header_value : string) : option string :=
  search_param "tag=" header_value.

Definition header_or_empty (n : string) (m : SIPMessage) : string :=
  str_or (get_header n m) EmptyString.



(** [time.time()] given the events so far. *)
Variable time_now : list Event -> Z.


(** The dialog object found under [id] was changed in place. *)
Definition put_dialog (id : string) (d : SIPDialog) : M DlgSt unit :=
  modify (fun '(dm, env) =>
            (mkDialogManager (<[id := d]> (_dialogs dm)), env)).

Definition update_dialog_from_response (id : string) (resp : SIPMessage)
  : M DlgSt (option SIPDialog) :=
  dm <- (fun s => (Ok s.1, s)) ;;
  match _dialogs dm !! id with
  | None => ret None
  | Some dialog =>
      match status_code resp with
      | None => ret None
      | Some status_code =>
          let to_header := header_or_empty "to" resp in
          if (100 <=? status_code) && (status_code <=? 199) then
            (* provisional response *)
            let remote_tag' := _extract_tag to_header in
            if truthy_opt remote_tag' && negb (truthy_opt (remote_tag dialog))
            then let d := set_remote remote_tag' EARLY dialog in
                 put_dialog id d ;;; ret (Some d)
            else ret (Some dialog)
          else if (200 <=? status_code) && (status_code <=? 299) then
            (* success response *)
            let remote_tag' := _extract_tag to_header in
            if truthy_opt remote_tag'
            then let d := set_remote remote_tag' DIALOG_CONFIRMED dialog in
                 put_dialog id d ;;;
                 emit (on_dialog_confirmed id) ;;;
                 ret (Some d)
            else ret (Some dialog)
          else if 300 <=? status_code then
            (* error response: the dialog ends *)
            let d := set_dialog_state DIALOG_TERMINATED dialog in
            put_dialog id d ;;;
            emit (on_dialog_terminated id
                    ("Response " +:+ str_of_Z status_code)) ;;;
            ret (Some d)
          else ret (Some dialog)
      end
  end.

Definition get_dialog (id : string) (dm : DialogManager) : option SIPDialog :=
  _dialogs dm !! id.


(** ** The user agent *)

Record SIPUserAgent : Type := mkSIPUserAgent {
  ua_local_uri : string;
  ua_timers : SIPTimers;
  tx_manager : TransactionManager;
  dialog_manager : DialogManager;
  authenticator : SIPDigestAuthentication
}.

(** [SIPUserAgent.__init__]: the manager gets the [timers] argument as it
    is, not the default the agent keeps for itself. *)
Definition SIPUserAgent_new (local : string) (ts : option SIPTimers)
  : SIPUserAgent :=
  mkSIPUserAgent local (default SIPTimers_default ts)
    (TransactionManager_new ts) (mkDialogManager ∅) SIPDigestAuthentication_new.

Definition UaSt : Type := (SIPUserAgent * Env)%type.

Definition on_manager {A : Type} (c : M MgrSt A) : M UaSt A :=
  fun '(ua, env) =>
    match c (tx_manager ua, env) with
    | (r, (mgr', env')) =>
        (r, (mkSIPUserAgent (ua_local_uri ua) (ua_timers ua) mgr'
               (dialog_manager ua) (authenticator ua), env'))
    end.

Definition on_dialogs {A : Type} (c : M DlgSt A) : M UaSt A :=
  fun '(ua, env) =>
    match c (dialog_manager ua, env) with
    | (r, (dm', env')) =>
        (r, (mkSIPUserAgent (ua_local_uri ua) (ua_timers ua) (tx_manager ua)
               dm' (authenticator ua), env'))
    end.

Definition set_authenticator (a : SIPDigestAuthentication)
  : M UaSt unit :=
  modify (fun '(ua, env) =>
            (mkSIPUserAgent (ua_local_uri ua) (ua_timers ua) (tx_manager ua)
               (dialog_manager ua) a, env)).

Definition agent : M UaSt SIPUserAgent := fun s => (Ok s.1, s).

Definition ua_add_credentials (realm username password : string)
  : M UaSt unit :=
  ua <- agent ;;
  set_authenticator
    (add_credentials realm username password (authenticator ua)).

(** The hash functions and the random sources of the authenticator. *)
Variable md5 sha256 : string -> string.
Variable entropy uuid_hex : nat -> string.

(** [_handle_authentication_challenge].  The request that comes back is
    compared with [tx.request] by identity ([SIPMessage] defines no
    equality), which is what [AuthResult] records.  The panels written to
    the log are left out. *)
Definition _handle_authentication_challenge (id : string)
    (resp : SIPMessage) : M UaSt unit :=
  ua <- agent ;;
  match get_transaction id (tx_manager ua) with
  | None => ret tt
  | Some tx =>
      match request tx with
      | None => ret tt
      | Some req =>
          let '(r, a') :=
            create_authenticated_request md5 sha256 entropy uuid_hex
              req resp (authenticator ua) in
          set_authenticator a' ;;;
          match r with
          | Raise e => raise e
          | Ok Original =>
              (* authentication failed *)
              emit (warning "Authentication failed")
          | Ok (Fresh authenticated_request) =>
              (* try: ... except Exception: log the error *)
              fun s =>
                match
                  on_manager (create_client_transaction authenticated_request)
                    s
                with
                | (Ok _, s') => (Ok tt, s')
                | (Raise _, s') =>
                    emit (warning "Failed to resend authenticated request") s'
                end
          end
      end
  end.

(** [SIPUserAgent.on_final_response] *)
Definition ua_on_final_response (id : string) (resp : SIPMessage)
  : M UaSt unit :=
  if bool_decide (status_code resp = Some 401)
     || bool_decide (status_code resp = Some 407)
  then _handle_authentication_challenge id resp
  else
    ua <- agent ;;
    match get_transaction id (tx_manager ua) with
    | Some tx =>
        if bool_decide (kind tx = INVITE_CLIENT) then
          match get_dialog id (dialog_manager ua) with
          | Some dialog =>
              on_dialogs
                (update_dialog_from_response (dialog_id dialog) resp) ;;;
              ret tt
          | None => ret tt
          end
        else ret tt
    | None => ret tt
    end.

(** [SIPUserAgent.on_terminated] *)
Definition ua_on_terminated (id : string) : M UaSt unit :=
  on_manager (cleanup_transaction id).

End Transport.

(** ** Sample surroundings and messages *)

(** A transport that always delivers, a constant object identity, clock and
    UUID, and hash functions that only mark their argument. *)
Definition lossless (_ : list Event) (_ : string) (_ : string * Z) : bool :=
  true.
Definition id0 (_ : list Event) : Z := 0.
Definition uuid0 (_ : nat) : string := "123e4567-e89b-42d3-a456-426614174000".
Definition hex0 (_ : nat) : string := "123e4567e89b42d3a456426614174000".
Definition mark (tag s : string) : string := tag +:+ "(" +:+ s +:+ ")".

Definition env0 : Env := mkEnv [] 0.

Definition request_with (m : SIPMethod) (branch cseq : string) : SIPMessage :=
  add_header "Content-Length" "0"
    (add_header "CSeq" cseq
       (add_header "Call-ID" "a84b4c76e66710@pc33.example.org"
          (add_header "To" "<sip:bob@example.org>"
             (add_header "From" "<sip:alice@example.org>;tag=1928301774"
                (add_header "Max-Forwards" "70"
                   (add_header "Via"
                      ("SIP/2.0/UDP pc33.example.org;branch=" +:+ branch)
                      (create_request m "sip:bob@example.org" [] None))))))).

Definition sample_invite : SIPMessage :=
  request_with INVITE "z9hG4bK776asdhds" "1 INVITE".

(** The ACK for a 2xx: a request of its own, on a new branch. *)
Definition sample_ack : SIPMessage :=
  request_with ACK "z9hG4bKnashds9" "1 ACK".

Definition sample_options : SIPMessage :=
  request_with OPTIONS "z9hG4bKhjhs8ass877" "1 OPTIONS".

Definition sample_register : SIPMessage :=
  request_with REGISTER "z9hG4bKnashds7" "1 REGISTER".

(** A response to [req] with the To tag [tag] and extra headers. *)
Definition response_to (req : SIPMessage) (code : Z) (tag : string)
    (extra : list (string * string)) : SIPMessage :=
  create_response 0 code None
    (Some (set_header "To" ("<sip:bob@example.org>;tag=" +:+ tag) req))
    extra None.

(** A 401 challenge for the realm example.org. *)
Definition sample_challenge : SIPMessage :=
  response_to sample_register 401 "a6c85cf"
    [("WWW-Authenticate",
      "Digest realm=" +:+ quoted "example.org" +:+ ", nonce="
        +:+ quoted "84a4cc6f3082121f32b42a2187831a9e" +:+ ", qop="
        +:+ quoted "auth")].

(** The manager after [req] was handed to [create_client_transaction] /
    [process_request], with the default timers. *)
Definition manager0 : TransactionManager :=
  TransactionManager_new (Some SIPTimers_default).

Definition after {S A : Type} (c : M S A) (s : S) : S := (c s).2.

(** A user agent without credentials whose REGISTER is under way. *)
Definition registering_agent : UaSt :=
  after (on_manager (create_client_transaction lossless uuid0 sample_register))
    (SIPUserAgent_new "sip:alice@example.org" (Some SIPTimers_default), env0).

(** The dialog of [sample_invite] after a 180 that carried the To tag
    a6c85cf, and a 200 that carries another tag. *)
Definition early_dialog : SIPDialog :=
  mkSIPDialog "a84b4c76e66710@pc33.example.org-1928301774" EARLY
    "sip:alice@example.org" "sip:bob@example.org" (Some "1928301774")
    (Some "a6c85cf") "a84b4c76e66710@pc33.example.org" 1 None [] false 0.

Definition early_dialogs : DialogManager :=
  mkDialogManager (<[dialog_id early_dialog := early_dialog]> ∅).

Definition ok_from_other_branch : SIPMessage :=
  response_to sample_invite 200 "b7d96e0" [].

(** A non-INVITE client transaction in TRYING, Timers E and F running. *)
Definition trying_options : SIPTransaction :=
  set_active_timers (<[TIMER_E := 500]> (<[TIMER_F := 32000]> ∅))
    (set_state TRYING
       (set_request (Some sample_options)
          (SIPTransaction_new "z9hG4bKhjhs8ass877" NON_INVITE_CLIENT
             (Some SIPTimers_default)))).

(** The messages handed to the transport, among the events. *)
Definition sent (evs : list Event) : list (string * (string * Z)) :=
  omap (fun e => match e with
                 | send_message m d => Some (m, d)
                 | _ => None
                 end) evs.

(** The task of timer [t] running to its end [n] times in a row, the
    retransmission branch starting it again each time. *)
Fixpoint fire_times (transport_ok : list Event -> string -> string * Z -> bool)
    (t : TimerType) (n : nat) : M TxSt unit :=
  match n with
  | O => ret tt
  | S k => _on_timer_fired transport_ok t ;;; fire_times transport_ok t k
  end.
(** An INVITE client transaction in TRYING, Timers A and B running, and an
    INVITE server transaction that has not been started. *)
Definition trying_invite : SIPTransaction :=
  set_active_timers (<[TIMER_A := 500]> (<[TIMER_B := 32000]> ∅))
    (set_state TRYING
       (set_request (Some sample_invite)
          (SIPTransaction_new "z9hG4bK776asdhds" INVITE_CLIENT
             (Some SIPTimers_default)))).

Definition new_invite_server : SIPTransaction :=
  SIPTransaction_new "z9hG4bK776asdhds" INVITE_SERVER
    (Some SIPTimers_default).

Definition ringing : SIPMessage := response_to sample_invite 180 "a6c85cf" [].

(** An INVITE server transaction that has answered 486, and a manager that
    holds it under its branch. *)
Definition busy_server : SIPTransaction :=
  (after (send_final_response lossless id0 486 "Busy Here" None)
     (after (start lossless sample_invite) (new_invite_server, env0))).1.

Definition busy_manager : TransactionManager :=
  mkTransactionManager (<[tx_id busy_server := busy_server]> ∅)
    (Some SIPTimers_default).

End Fsm.

(* ================================================================== *)
(** * Facts about the Python primitives *)
(* ================================================================== *)

Module PyFacts.
Import Py.

Lemma str_app_cons (c : ascii) (s t : string) :
  String c s +:+ t = String c (s +:+ t).
Proof. reflexivity. Qed.

Lemma str_app_nil_l (s : string) : EmptyString +:+ s = s.
Proof. reflexivity. Qed.

Lemma str_app_nil_r (s : string) : s +:+ EmptyString = s.
Proof. induction s as [|c s IH]; [reflexivity|]. now rewrite str_app_cons, IH. Qed.

Lemma str_app_assoc (a b c : string) : (a +:+ b) +:+ c = a +:+ (b +:+ c).
Proof.
  induction a as [|x a IH]; [reflexivity|].
  now rewrite !str_app_cons, IH.
Qed.

Lemma str_eqb_eq (a b : string) : str_eqb a b = true <-> a = b.
Proof. unfold str_eqb. apply bool_decide_eq_true. Qed.

Lemma str_eqb_neq (a b : string) : str_eqb a b = false <-> a <> b.
Proof. unfold str_eqb. apply bool_decide_eq_false. Qed.

Lemma str_eqb_refl (a : string) : str_eqb a a = true.
Proof. now apply str_eqb_eq. Qed.

Lemma chr_eqb_eq (a b : ascii) : chr_eqb a b = true <-> a = b.
Proof. unfold chr_eqb. apply bool_decide_eq_true. Qed.

Lemma chr_eqb_neq (a b : ascii) : chr_eqb a b = false <-> a <> b.
Proof. unfold chr_eqb. apply bool_decide_eq_false. Qed.

(** ** [strip] *)

Lemma rstrip_String (c : ascii) (s : string) :
  rstrip (String c s) =
  match rstrip s with
  | EmptyString => if is_space c then EmptyString else String c EmptyString
  | r => String c r
  end.
Proof. reflexivity. Qed.

Lemma rstrip_cons_fixed (c : ascii) (s : string) :
  rstrip s = s -> s <> EmptyString -> rstrip (String c s) = String c s.
Proof.
  intros H Hne. rewrite rstrip_String, H. destruct s; congruence.
Qed.

Lemma rstrip_app_fixed (a b : string) :
  rstrip b = b -> b <> EmptyString -> rstrip (a +:+ b) = a +:+ b.
Proof.
  intros H Hne. induction a as [|x a IH]; [exact H|].
  rewrite str_app_cons. apply rstrip_cons_fixed; [exact IH|].
  destruct a; [destruct b; [congruence|discriminate]|discriminate].
Qed.

Lemma rstrip_idem (s : string) : rstrip (rstrip s) = rstrip s.
Proof.
  induction s as [|c s IH]; [reflexivity|].
  rewrite rstrip_String. destruct (rstrip s) as [|d r] eqn:E.
  - destruct (is_space c) eqn:Ec; [reflexivity|].
    rewrite rstrip_String. cbn. now rewrite Ec.
  - rewrite rstrip_String, IH. reflexivity.
Qed.

(** ** [contains], [split] and [rsplit1] *)

Lemma prefix_empty (s : string) : String.prefix EmptyString s = true.
Proof. now destruct s. Qed.

Lemma contains_String (sub : string) (c : ascii) (s : string) :
  contains sub (String c s) = String.prefix sub (String c s) || contains sub s.
Proof. reflexivity. Qed.

Lemma split_go_no_more (sep : string) (s : string) :
  split_go sep (Some O) 0 s = [s].
Proof.
  induction s as [|c s IH]; [reflexivity|].
  cbn [split_go may_split andb]. now rewrite IH.
Qed.

Lemma split_nonempty (sep : string) (m : option nat) (k : nat) (s : string) :
  split_go sep m k s <> [].
Proof.
  revert m k. induction s as [|c s IH]; intros m k; [discriminate|].
  cbn [split_go]. destruct k as [|k]; [|apply IH].
  destruct (may_split m && String.prefix sep (String c s)); [discriminate|].
  destruct (split_go sep m 0 s); discriminate.
Qed.

Lemma rsplit1_contains (c : ascii) (s h t : string) :
  rsplit1 c s = Some (h, t) -> contains (String c EmptyString) s = true.
Proof.
  revert h t. induction s as [|a s IH]; intros h t; [discriminate|].
  cbn [rsplit1]. rewrite contains_String.
  destruct (rsplit1 c s) as [[h' t']|] eqn:E.
  - intros _. rewrite (IH _ _ eq_refl). apply orb_true_r.
  - destruct (chr_eqb a c) eqn:Eac; [|discriminate].
    apply chr_eqb_eq in Eac as ->. intros _.
    cbn. destruct (ascii_dec c c); [|congruence]. now destruct s.
Qed.

Lemma prefix_app (p s : string) : String.prefix p (p +:+ s) = true.
Proof.
  induction p as [|c p IH]; [apply prefix_empty|].
  rewrite str_app_cons. cbn. destruct (ascii_dec c c); [exact IH|congruence].
Qed.

Lemma prefix_split (p s : string) :
  String.prefix p s = true -> s = p +:+ str_drop (String.length p) s.
Proof.
  revert s. induction p as [|c p IH]; intros s H; [now destruct s|].
  destruct s as [|x s]; [discriminate|]. cbn in H.
  destruct (ascii_dec c x) as [->|]; [|discriminate].
  rewrite str_app_cons. cbn [String.length str_drop]. f_equal. now apply IH.
Qed.

Lemma prefix_head_neq (c x : ascii) (p s : string) :
  x <> c -> String.prefix (String c p) (String x s) = false.
Proof. intros H. cbn. destruct (ascii_dec c x); congruence. Qed.

Lemma split_go_skip (sep : string) (m : option nat) (a rest : string) :
  split_go sep m (String.length a) (a +:+ rest) = split_go sep m 0 rest.
Proof. induction a as [|x a IH]; [reflexivity|exact IH]. Qed.

Lemma split_go_hit (c : ascii) (sep' : string) (m : option nat)
    (rest : string) :
  may_split m = true ->
  split_go (String c sep') m 0 (String c sep' +:+ rest)
  = EmptyString :: split_go (String c sep') (Nat.pred <$> m) 0 rest.
Proof.
  intros Hm. rewrite str_app_cons. cbn [split_go]. rewrite Hm.
  rewrite <- str_app_cons, prefix_app. cbn [andb String.length Nat.pred].
  now rewrite split_go_skip.
Qed.

Lemma free_of_String (c x : ascii) (s : string) :
  free_of c (String x s) = true <-> x <> c /\ free_of c s = true.
Proof.
  unfold free_of. cbn [str_forall]. rewrite andb_true_iff, negb_true_iff.
  now rewrite chr_eqb_neq.
Qed.

Lemma free_of_app (c : ascii) (a b : string) :
  free_of c (a +:+ b) = free_of c a && free_of c b.
Proof.
  unfold free_of. induction a as [|x a IH]; [reflexivity|].
  rewrite str_app_cons. cbn [str_forall]. now rewrite IH, andb_assoc.
Qed.

Lemma split_go_miss (c : ascii) (sep' : string) (m : option nat)
    (a s : string) :
  free_of c a = true ->
  split_go (String c sep') m 0 (a +:+ s)
  = (a +:+ hd EmptyString (split_go (String c sep') m 0 s))
      :: tl (split_go (String c sep') m 0 s).
Proof.
  induction a as [|x a IH]; intros Ha.
  - rewrite !str_app_nil_l.
    destruct (split_go (String c sep') m 0 s) eqn:E; [|reflexivity].
    now apply split_nonempty in E.
  - apply free_of_String in Ha as [Hx Ha].
    rewrite str_app_cons. cbn [split_go].
    rewrite prefix_head_neq, andb_false_r by exact Hx.
    now rewrite (IH Ha).
Qed.

(** One cut: the text before the first separator holds none of its first
    character. *)
Lemma split_go_cut (c : ascii) (sep' : string) (m : option nat)
    (a rest : string) :
  free_of c a = true -> may_split m = true ->
  split_go (String c sep') m 0 (a +:+ String c sep' +:+ rest)
  = a :: split_go (String c sep') (Nat.pred <$> m) 0 rest.
Proof.
  intros Ha Hm. rewrite (split_go_miss _ _ _ _ _ Ha), split_go_hit by exact Hm.
  cbn [hd tl]. now rewrite str_app_nil_r.
Qed.

Lemma split_go_whole (c : ascii) (sep' : string) (m : option nat)
    (a : string) :
  free_of c a = true -> split_go (String c sep') m 0 a = [a].
Proof.
  intros Ha. rewrite <- (str_app_nil_r a) at 1.
  rewrite (split_go_miss _ _ _ _ _ Ha). cbn. now rewrite str_app_nil_r.
Qed.

(** ** [join] *)

Lemma join_cons (sep x y : string) (l : list string) :
  join sep (x :: y :: l) = x +:+ sep +:+ join sep (y :: l).
Proof. reflexivity. Qed.

Lemma join_head (sep : string) (c : ascii) (h : string) (t : list string) :
  join sep (String c h :: t) = String c (join sep (h :: t)).
Proof. destruct t; reflexivity. Qed.

Lemma join_app_last (sep : string) (l : list string) (x y : string) :
  join sep ((x :: l) ++ [y]) = join sep (x :: l) +:+ sep +:+ y.
Proof.
  revert x. induction l as [|z l IH]; intros x; [reflexivity|].
  change ((x :: z :: l) ++ [y]) with (x :: ((z :: l) ++ [y])).
  cbn [app]. rewrite !join_cons. change (z :: l ++ [y]) with ((z :: l) ++ [y]).
  now rewrite IH, !str_app_assoc.
Qed.

(** Joining what [split] returned gives the text back. *)
Lemma join_split_go (c : ascii) (sep' : string) (s : string) (k : nat) :
  join (String c sep') (split_go (String c sep') None k s) = str_drop k s.
Proof.
  revert k. induction s as [|x s IH]; intros k; [now destruct k|].
  cbn [split_go]. destruct k as [|k]; [|apply IH].
  cbn [may_split andb fmap option_fmap option_map].
  destruct (String.prefix (String c sep') (String x s)) eqn:Hp.
  - pose proof (split_nonempty (String c sep') None
                  (Nat.pred (String.length (String c sep'))) s) as Hne.
    destruct (split_go (String c sep') None
                (Nat.pred (String.length (String c sep'))) s)
      as [|h t] eqn:E; [congruence|].
    rewrite join_cons, <- E, IH, str_app_nil_l.
    apply prefix_split in Hp. cbn [str_drop String.length Nat.pred] in *.
    symmetry. exact Hp.
  - pose proof (split_nonempty (String c sep') None 0 s) as Hne.
    specialize (IH 0%nat).
    destruct (split_go (String c sep') None 0 s) as [|h t]; [congruence|].
    now rewrite join_head, IH.
Qed.

Lemma join_split (c : ascii) (sep' : string) (s : string) :
  join (String c sep') (split (String c sep') None s) = s.
Proof. unfold split. now rewrite join_split_go. Qed.

(** ** More on [strip] *)

Lemma rstrip_empty_iff (s : string) : rstrip s = EmptyString <-> blank s = true.
Proof.
  unfold blank. induction s as [|c s IH]; [easy|].
  rewrite rstrip_String. cbn [str_forall]. rewrite andb_true_iff, <- IH.
  destruct (rstrip s) eqn:E; destruct (is_space c); split; intros H;
    try easy; destruct H; easy.
Qed.

Lemma lstrip_empty_iff (s : string) : lstrip s = EmptyString <-> blank s = true.
Proof.
  unfold blank. induction s as [|c s IH]; [easy|].
  cbn [lstrip str_forall]. destruct (is_space c); [exact IH|easy].
Qed.

Lemma blank_lstrip (s : string) : blank (lstrip s) = blank s.
Proof.
  unfold blank. induction s as [|c s IH]; [reflexivity|].
  cbn [lstrip]. destruct (is_space c) eqn:E; [now cbn; rewrite E|reflexivity].
Qed.

Lemma strip_empty_iff (s : string) : strip s = EmptyString <-> blank s = true.
Proof. unfold strip. now rewrite rstrip_empty_iff, blank_lstrip. Qed.

Lemma blank_app (a b : string) : blank (a +:+ b) = blank a && blank b.
Proof.
  unfold blank. induction a as [|x a IH]; [reflexivity|].
  rewrite str_app_cons. cbn [str_forall]. now rewrite IH, andb_assoc.
Qed.

(** [rstrip] of a concatenation. *)
Lemma rstrip_app (a b : string) :
  rstrip (a +:+ b) =
  match rstrip b with
  | EmptyString => rstrip a
  | String c r => a +:+ String c r
  end.
Proof.
  induction a as [|x a IH].
  - rewrite str_app_nil_l. now destruct (rstrip b).
  - rewrite str_app_cons, rstrip_String, IH.
    destruct (rstrip b) as [|c r]; [now rewrite rstrip_String|].
    rewrite str_app_cons. now destruct a.
Qed.

Lemma rstrip_app_blank (a b : string) :
  blank b = true -> rstrip (a +:+ b) = rstrip a.
Proof. intros H. apply rstrip_empty_iff in H. now rewrite rstrip_app, H. Qed.

Lemma rstrip_fixed_not_blank (s : string) :
  rstrip s = s -> s <> EmptyString -> blank s = false.
Proof.
  intros H Hne. destruct (blank s) eqn:E; [|reflexivity].
  apply rstrip_empty_iff in E. congruence.
Qed.

Lemma lstrip_nonspace (c : ascii) (s : string) :
  is_space c = false -> lstrip (String c s) = String c s.
Proof. intros H. cbn. now rewrite H. Qed.

Lemma no_space_String (c : ascii) (s : string) :
  no_space (String c s) = negb (is_space c) && no_space s.
Proof. reflexivity. Qed.

Lemma no_space_rstrip (s : string) : no_space s = true -> rstrip s = s.
Proof.
  induction s as [|c s IH]; [reflexivity|].
  rewrite no_space_String, andb_true_iff, negb_true_iff. intros [Hc Hs].
  rewrite rstrip_String, (IH Hs), Hc. now destruct s.
Qed.

Lemma no_space_strip (s : string) : no_space s = true -> strip s = s.
Proof.
  intros H. unfold strip. destruct s as [|c s]; [reflexivity|].
  pose proof H as H'. rewrite no_space_String, andb_true_iff, negb_true_iff in H'.
  rewrite lstrip_nonspace by tauto. now apply no_space_rstrip.
Qed.

Lemma strip_idem_fixed (s : string) : strip s = s -> strip (strip s) = s.
Proof. intros H. now rewrite !H. Qed.

Lemma strip_fixed_rstrip (s : string) : strip s = s -> rstrip s = s.
Proof. intros H. rewrite <- H at 1. unfold strip. now rewrite rstrip_idem. Qed.

Lemma rstrip_length (t : string) :
  (String.length (rstrip t) <= String.length t)%nat.
Proof.
  induction t as [|x t IHt]; [cbn; lia|].
  rewrite rstrip_String. destruct (rstrip t); [destruct (is_space x)|];
    cbn in *; lia.
Qed.

Lemma lstrip_length (t : string) :
  (String.length (lstrip t) <= String.length t)%nat.
Proof.
  induction t as [|x t IHt]; [cbn; lia|].
  cbn [lstrip]. destruct (is_space x); cbn in *; lia.
Qed.

Lemma lstrip_fixed_head (c : ascii) (s : string) :
  lstrip (String c s) = String c s -> is_space c = false.
Proof.
  cbn [lstrip]. destruct (is_space c); [|reflexivity].
  intros H. pose proof (lstrip_length s) as Hl. rewrite H in Hl.
  cbn in Hl. lia.
Qed.

Lemma strip_fixed_lstrip (s : string) : strip s = s -> lstrip s = s.
Proof.
  intros H. destruct s as [|c s]; [reflexivity|].
  cbn [lstrip]. destruct (is_space c) eqn:E; [|reflexivity].
  exfalso. unfold strip in H. cbn [lstrip] in H. rewrite E in H.
  pose proof (rstrip_length (lstrip s)). pose proof (lstrip_length s).
  rewrite H in *. cbn in *. lia.
Qed.

Lemma lstrip_rstrip_fixed (s : string) :
  lstrip s = s -> lstrip (rstrip s) = rstrip s.
Proof.
  destruct s as [|c s]; [reflexivity|]. intros H.
  apply lstrip_fixed_head in H. rewrite rstrip_String.
  destruct (rstrip s); rewrite ?H; cbn [lstrip]; now rewrite H.
Qed.

(** ** [str] and [int] *)

Lemma uint_string_digits (d : Decimal.uint) :
  str_forall is_digit (DecimalString.NilEmpty.string_of_uint d) = true.
Proof. induction d; cbn; auto. Qed.

Lemma uint_string_NilZero (d : Decimal.uint) :
  exists c s, DecimalString.NilZero.string_of_uint d = String c s /\
              is_digit c = true /\ str_forall is_digit s = true.
Proof.
  destruct d; cbn;
    try (eexists _, _; split; [reflexivity|];
         split; [reflexivity|apply uint_string_digits]).
  exists "0"%char, EmptyString. auto.
Qed.

Lemma digits_ok_digits (b : bool) (c : ascii) (s : string) :
  is_digit c = true -> str_forall is_digit s = true ->
  digits_ok b (String c s) = true.
Proof.
  intros Hc Hs. cbn [digits_ok]. rewrite Hc. clear Hc c b.
  induction s as [|c s IH]; [reflexivity|].
  cbn in Hs. apply andb_true_iff in Hs as [Hc Hs].
  cbn [digits_ok]. rewrite Hc. auto.
Qed.

Lemma digit_not_underscore (c : ascii) :
  is_digit c = true -> chr_eqb c "_"%char = false.
Proof.
  intros H. apply chr_eqb_neq. intros ->. discriminate.
Qed.

Lemma drop_underscores_digits (s : string) :
  str_forall is_digit s = true -> drop_underscores s = s.
Proof.
  induction s as [|c s IH]; [reflexivity|].
  cbn. intros H. apply andb_true_iff in H as [Hc Hs].
  now rewrite (digit_not_underscore _ Hc), (IH Hs).
Qed.

Lemma py_digits_uint (d : Decimal.uint) :
  py_digits (DecimalString.NilZero.string_of_uint d) = Some (Z.of_uint d).
Proof.
  destruct (uint_string_NilZero d) as (c & s & E & Hc & Hs).
  unfold py_digits. rewrite E, (digits_ok_digits _ _ _ Hc Hs).
  rewrite drop_underscores_digits by (cbn; now rewrite Hc, Hs).
  rewrite <- E.
  destruct d; cbn -[Z.of_uint]; now rewrite ?DecimalString.NilEmpty.usu.
Qed.

Lemma digit_not_space (c : ascii) : is_digit c = true -> is_space c = false.
Proof.
  unfold is_digit, is_space, in_range. intros H.
  apply andb_true_iff in H as [H1 H2].
  apply N.leb_le in H1, H2.
  repeat (apply orb_false_iff; split);
    try (apply andb_false_iff; (left; apply N.leb_gt; lia) || (right; apply N.leb_gt; lia));
    apply N.eqb_neq; lia.
Qed.

Lemma digits_no_space (s : string) :
  str_forall is_digit s = true -> no_space s = true.
Proof.
  induction s as [|c s IH]; [reflexivity|].
  intros H. cbn [str_forall] in H. apply andb_true_iff in H as [Hc Hs].
  rewrite no_space_String, (digit_not_space _ Hc). cbn [negb andb]. auto.
Qed.

(** The text of an integer: an optional minus sign, then digits. *)
Lemma str_of_Z_shape (n : Z) :
  exists c s, str_of_Z n = String c s /\
    digit_or_minus c = true /\ str_forall is_digit s = true.
Proof.
  unfold str_of_Z, digit_or_minus.
  destruct (Z.to_int n) as [d|d]; cbn [DecimalString.NilZero.string_of_int].
  - destruct (uint_string_NilZero d) as (c & s & E & Hc & Hs).
    exists c, s. rewrite E, Hc. auto.
  - destruct (uint_string_NilZero d) as (c & s & E & Hc & Hs).
    exists "-"%char, (String c s). rewrite E. cbn. rewrite Hc, Hs. auto.
Qed.

Lemma str_of_Z_no_space (n : Z) : no_space (str_of_Z n) = true.
Proof.
  destruct (str_of_Z_shape n) as (c & s & E & Hc & Hs). rewrite E.
  rewrite no_space_String, (digits_no_space _ Hs), andb_true_r.
  apply negb_true_iff. unfold digit_or_minus in Hc.
  apply orb_true_iff in Hc as [Hc|Hc]; [now apply digit_not_space|].
  apply chr_eqb_eq in Hc as ->. reflexivity.
Qed.

Lemma str_of_Z_truthy (n : Z) : truthy (str_of_Z n) = true.
Proof.
  destruct (str_of_Z_shape n) as (c & s & E & _). now rewrite E.
Qed.

(** [int(str(n)) == n] *)
Lemma no_space_lstrip_chars (p : ascii -> bool) (s : string) :
  (forall c, p c = true -> is_space c = true) ->
  no_space s = true -> lstrip_chars p s = s.
Proof.
  intros Hp. destruct s as [|c s]; [reflexivity|].
  rewrite no_space_String. intros [Hc _]%andb_true_iff.
  cbn [lstrip_chars]. destruct (p c) eqn:E; [|reflexivity].
  apply Hp in E. rewrite E in Hc. discriminate.
Qed.

Lemma no_space_rstrip_chars (p : ascii -> bool) (s : string) :
  (forall c, p c = true -> is_space c = true) ->
  no_space s = true -> rstrip_chars p s = s.
Proof.
  intros Hp. induction s as [|c s IH]; [reflexivity|].
  rewrite no_space_String. intros [Hc Hs]%andb_true_iff.
  cbn [rstrip_chars]. rewrite (IH Hs).
  destruct s; [|reflexivity].
  destruct (p c) eqn:E; [|reflexivity].
  apply Hp in E. rewrite E in Hc. discriminate.
Qed.

Lemma int_space_is_space (c : ascii) :
  is_int_space c = true -> is_space c = true.
Proof. unfold is_int_space. now intros [H _]%andb_true_iff. Qed.

Lemma no_space_int_strip (s : string) :
  no_space s = true -> strip_chars is_int_space s = s.
Proof.
  intros H. unfold strip_chars.
  rewrite (no_space_lstrip_chars _ _ int_space_is_space H).
  now apply no_space_rstrip_chars; [apply int_space_is_space|].
Qed.

Lemma py_int_str_of_Z (n : Z) : py_int (str_of_Z n) = Some n.
Proof.
  unfold py_int. rewrite no_space_int_strip by apply str_of_Z_no_space.
  unfold str_of_Z. rewrite <- (DecimalZ.of_to n) at 2.
  destruct (Z.to_int n) as [d|d]; cbn [DecimalString.NilZero.string_of_int Z.of_int].
  - destruct (uint_string_NilZero d) as (c & s & E & Hc & Hs).
    rewrite <- py_digits_uint, E.
    destruct (ascii_dec c "-") as [->|]; [discriminate|].
    destruct (ascii_dec c "+") as [->|]; [discriminate|].
    destruct c as [[] [] [] [] [] [] [] []]; try reflexivity; congruence.
  - now rewrite py_digits_uint.
Qed.

End PyFacts.

(* ================================================================== *)
(** * Facts about tinysip/message.py *)
(* ================================================================== *)

Module MessageFacts.
Import Py Message PyFacts.

(** ** URIs *)

(** C10: a URI [sip:host:port] whose text after the last colon is not an
    integer is accepted without an error; the whole [host:port] text is
    stored as the host and the port stays unset. *)
Theorem C10_uri_port_not_integer (hp h p : string) :
  contains "?" hp = false ->
  contains ";" hp = false ->
  contains "@" hp = false ->
  startswith "[" hp = false ->
  rsplit1 ":"%char hp = Some (h, p) ->
  rstrip hp = hp ->
  py_int p = None ->
  host (SIPURI_new ("sip:" +:+ hp)) = hp /\
  port (SIPURI_new ("sip:" +:+ hp)) = None.
Proof.
  intros Hq Hs Ha Hb Hsplit Hstrip Hint.
  assert (Hne : hp <> EmptyString) by (intros ->; discriminate).
  assert (Hcolon : contains ":" hp = true) by (eapply rsplit1_contains; eauto).
  unfold SIPURI_new.
  assert (Hraw : strip ("sip:" +:+ hp) = "sip:" +:+ hp).
  { unfold strip. change (lstrip ("sip:" +:+ hp)) with ("sip:" +:+ hp).
    now apply rstrip_app_fixed. }
  rewrite Hraw.
  change ("sip:" +:+ hp) with (String "s" (String "i" (String "p" (String ":" hp)))).
  assert (Hsp : split ":" (Some 1%nat)
                  (String "s" (String "i" (String "p" (String ":" hp))))
                = ["sip"; hp]).
  { unfold split. cbn. now rewrite prefix_empty, split_go_no_more. }
  rewrite Hsp. cbn [unpack2].
  assert (Hc : contains ":"
                 (String "s" (String "i" (String "p" (String ":" hp)))) = true).
  { rewrite !contains_String. cbn. now rewrite prefix_empty. }
  rewrite Hc.
  change (truthy (String "s" (String "i" (String "p" (String ":" hp)))))
    with true.
  cbn [negb]. rewrite Hq, Hs, Ha, Hcolon, Hb, Hsplit, Hint.
  cbn. split; reflexivity.
Qed.

Lemma C10_uri_port_not_integer_witness :
  host (SIPURI_new "sip:example.com:abc") = "example.com:abc" /\
  port (SIPURI_new "sip:example.com:abc") = None.
Proof.
  apply (C10_uri_port_not_integer "example.com:abc" "example.com" "abc");
    reflexivity.
Defined.

(** ** Header lines *)

Lemma contains_app_r (sub a b : string) : contains sub (a +:+ sub +:+ b) = true.
Proof.
  induction a as [|x a IH].
  - rewrite str_app_nil_l. destruct (sub +:+ b) eqn:E; cbn [contains];
      rewrite <- E, prefix_app; reflexivity.
  - rewrite str_app_cons, contains_String, IH. apply orb_true_r.
Qed.

Lemma token_char_plain (c : ascii) :
  is_token_char c = true -> c <> ":"%char /\ c <> CR /\ is_space c = false.
Proof.
  destruct c as [[] [] [] [] [] [] [] []]; intros H;
    try discriminate H; repeat split; (discriminate || reflexivity).
Qed.

Lemma token_match_free (s : string) :
  token_match s = true ->
  free_of ":" s = true /\ free_of CR s = true /\ s <> EmptyString.
Proof.
  induction s as [|c s IH]; [discriminate|].
  cbn [token_match]. rewrite andb_true_iff, !orb_true_iff, !str_eqb_eq.
  intros [Hc Hs]. apply token_char_plain in Hc as (H1 & H2 & _).
  rewrite !free_of_String.
  destruct Hs as [[->| ->]|Hs]; [easy|easy|].
  destruct (IH Hs) as (? & ? & ?). easy.
Qed.

Lemma not_ctl_not_CR (c : ascii) : is_ctl c = false -> c <> CR.
Proof. intros H ->. discriminate. Qed.

Lemma no_ctl_free_CR (s : string) :
  str_forall (fun c => negb (is_ctl c)) s = true -> free_of CR s = true.
Proof.
  induction s as [|c s IH]; [reflexivity|].
  cbn [str_forall]. rewrite andb_true_iff, negb_true_iff. intros [Hc Hs].
  apply free_of_String. split; [now apply not_ctl_not_CR|auto].
Qed.

Lemma space_CR : is_space CR = true.
Proof. reflexivity. Qed.

Lemma no_space_free_CR (s : string) : no_space s = true -> free_of CR s = true.
Proof.
  induction s as [|c s IH]; [reflexivity|].
  rewrite no_space_String, andb_true_iff, negb_true_iff. intros [Hc Hs].
  apply free_of_String. split; [intros ->; discriminate|auto].
Qed.

Lemma no_space_free_SP (s : string) :
  no_space s = true -> free_of " " s = true.
Proof.
  induction s as [|c s IH]; [reflexivity|].
  rewrite no_space_String, andb_true_iff, negb_true_iff. intros [Hc Hs].
  apply free_of_String. split; [intros ->; discriminate|auto].
Qed.

Lemma free_of_rstrip (c : ascii) (s : string) :
  free_of c s = true -> free_of c (rstrip s) = true.
Proof.
  induction s as [|x s IH]; [easy|].
  rewrite free_of_String, rstrip_String. intros [Hx Hs]. specialize (IH Hs).
  destruct (rstrip s); [destruct (is_space x); [easy|]|];
    apply free_of_String; easy.
Qed.

(** What [header_ok] gives about a header. *)
Lemma header_ok_inv (h : SIPHeader) :
  header_ok h = true ->
  free_of ":" (name h) = true /\ free_of CR (name h) = true /\
  free_of CR (value h) = true /\ value h <> EmptyString /\
  strip (name h) = name h /\ strip (value h) = value h.
Proof.
  unfold header_ok, header_validate.
  rewrite !andb_true_iff, !str_eqb_eq. intros [[Hv Hn] Hval].
  destruct (truthy (name h)) eqn:Tn; [|discriminate].
  destruct (truthy (value h)) eqn:Tv; [|discriminate].
  cbn [negb orb] in Hv.
  destruct (token_match (name h)) eqn:Tm; [|discriminate].
  cbn [negb] in Hv.
  destruct (str_forall (fun c => negb (is_ctl c)) (value h)) eqn:Tc;
    [|discriminate].
  destruct (token_match_free _ Tm) as (? & ? & ?).
  repeat split; auto using no_ctl_free_CR.
  intros E. rewrite E in Tv. discriminate.
Qed.

Lemma header_line_free_CR (h : SIPHeader) :
  header_ok h = true -> free_of CR (header_encode h) = true.
Proof.
  intros H. destruct (header_ok_inv h H) as (_ & Hn & Hv & _).
  unfold header_encode. rewrite !free_of_app, Hn, Hv. reflexivity.
Qed.

Lemma header_line_rstrip (h : SIPHeader) :
  header_ok h = true ->
  rstrip (header_encode h) = header_encode h /\
  blank (header_encode h) = false.
Proof.
  intros H. destruct (header_ok_inv h H) as (_ & _ & _ & Hne & _ & Hs).
  apply strip_fixed_rstrip in Hs. unfold header_encode. split.
  - rewrite <- str_app_assoc. now apply rstrip_app_fixed.
  - rewrite !blank_app. apply andb_false_iff. right. reflexivity.
Qed.

(** Reading back the line of a header gives the header. *)
Lemma header_line_parse (h : SIPHeader) :
  header_ok h = true -> header_of_line (header_encode h) = [h].
Proof.
  intros H. destruct (header_ok_inv h H) as (Hc & _ & _ & _ & Hsn & Hsv).
  unfold header_of_line, header_encode.
  change (name h +:+ ": " +:+ value h)
    with (name h +:+ String ":" EmptyString +:+ String " " (value h)).
  rewrite (contains_app_r ":" (name h) (String " " (value h))).
  unfold split. rewrite split_go_cut by easy.
  cbn [fmap option_fmap option_map Nat.pred]. rewrite split_go_no_more.
  cbn [unpack2]. unfold SIPHeader_new.
  assert (Hv : strip (String " " (value h)) = value h) by exact Hsv.
  rewrite Hv, !Hsn, Hsv. now destruct h.
Qed.

Lemma parse_headers_cons (i : nat) (line : string) (rest : list string) :
  blank line = false ->
  parse_headers i (line :: rest)
  = (header_of_line line ++ (parse_headers (S i) rest).1,
     (parse_headers (S i) rest).2).
Proof.
  intros Hb. cbn [parse_headers].
  assert (E : str_eqb (strip line) EmptyString = false).
  { apply str_eqb_neq. rewrite strip_empty_iff. congruence. }
  rewrite E. unfold header_of_line.
  destruct (parse_headers (S i) rest) as [hs e].
  destruct (contains ":" line); [|reflexivity].
  now destruct (unpack2 (split ":" (Some 1%nat) line)).
Qed.

Lemma parse_headers_blank (i : nat) (line : string) (rest : list string) :
  blank line = true -> parse_headers i (line :: rest) = ([], Some i).
Proof.
  intros Hb. cbn [parse_headers]. apply strip_empty_iff in Hb.
  now rewrite Hb.
Qed.

Lemma parse_headers_encoded (hs : list SIPHeader) (i : nat)
    (rest : list string) :
  forallb header_ok hs = true ->
  parse_headers i (List.map header_encode hs ++ rest)
  = (hs ++ (parse_headers (i + length hs) rest).1,
     (parse_headers (i + length hs) rest).2).
Proof.
  revert i. induction hs as [|h hs IH]; intros i H.
  - cbn [List.map app length]. rewrite Nat.add_0_r.
    now destruct (parse_headers i rest).
  - cbn [forallb] in H. apply andb_true_iff in H as [Hh Hhs].
    cbn [List.map app]. rewrite parse_headers_cons
      by (now apply header_line_rstrip).
    rewrite (header_line_parse h Hh), (IH (S i) Hhs).
    cbn [length fst snd app]. now rewrite Nat.add_succ_r.
Qed.

(** ** The start line *)

Lemma well_formed_inv (m : SIPMessage) :
  well_formed m = true ->
  start_line_ok m = true /\ sip_version m = "SIP/2.0" /\
  forallb header_ok (headers m) = true /\ length_ok m = true.
Proof.
  unfold well_formed. rewrite !andb_true_iff, str_eqb_eq. tauto.
Qed.

Lemma method_value_roundtrip (meth : SIPMethod) :
  SIPMethod_of_value (method_value meth) = Some meth.
Proof. now destruct meth. Qed.

Lemma method_value_plain (meth : SIPMethod) :
  free_of " " (method_value meth) = true /\
  free_of CR (method_value meth) = true.
Proof. now destruct meth. Qed.

(** The start line of a well-formed message, by kind. *)
Lemma start_line_cases (m : SIPMessage) :
  well_formed m = true ->
  (exists meth u,
      method m = Some meth /\ status_code m = None /\
      no_space (raw_uri u) = true /\
      start_line m
      = method_value meth +:+ " " +:+ raw_uri u +:+ " " +:+ "SIP/2.0")
  \/
  (exists n r,
      method m = None /\ status_code m = Some n /\ is_line r = true /\
      start_line m = "SIP/2.0" +:+ " " +:+ str_of_Z n +:+ " " +:+ r).
Proof.
  intros H. apply well_formed_inv in H as (Hs & Hv & _ & _).
  unfold start_line_ok, start_line in *. rewrite Hv.
  destruct (method m) as [meth|], (status_code m) as [n|]; try discriminate.
  - left. destruct (uri m) as [u|]; [|discriminate].
    apply andb_true_iff in Hs as [Hs _]. now exists meth, u.
  - right. destruct (reason_phrase m) as [r|]; [|discriminate].
    now exists n, r.
Qed.

Lemma start_line_free_CR (m : SIPMessage) :
  well_formed m = true -> free_of CR (start_line m) = true.
Proof.
  intros H.
  destruct (start_line_cases m H)
    as [(meth & u & _ & _ & Hu & ->)|(n & r & _ & _ & Hr & ->)].
  - rewrite !free_of_app, (proj2 (method_value_plain meth)).
    now rewrite (no_space_free_CR _ Hu).
  - unfold is_line in Hr. apply andb_true_iff in Hr as [Hr _].
    rewrite !free_of_app, Hr.
    now rewrite (no_space_free_CR _ (str_of_Z_no_space n)).
Qed.

Lemma start_line_lstrip (m : SIPMessage) (rest : string) :
  well_formed m = true ->
  lstrip (start_line m +:+ rest) = start_line m +:+ rest.
Proof.
  intros H.
  destruct (start_line_cases m H)
    as [(meth & u & _ & _ & _ & ->)|(n & r & _ & _ & _ & ->)].
  - now destruct meth.
  - reflexivity.
Qed.

Lemma rstrip_status_line (code r : string) :
  no_space code = true -> code <> EmptyString ->
  rstrip ("SIP/2.0" +:+ " " +:+ code +:+ " " +:+ r)
  = match rstrip r with
    | EmptyString => "SIP/2.0" +:+ " " +:+ code
    | String c r' => "SIP/2.0" +:+ " " +:+ code +:+ " " +:+ String c r'
    end.
Proof.
  intros Hc Hne.
  replace ("SIP/2.0" +:+ " " +:+ code +:+ " " +:+ r)
    with (("SIP/2.0" +:+ " " +:+ code +:+ " ") +:+ r)
    by now rewrite !str_app_assoc.
  rewrite rstrip_app. destruct (rstrip r) as [|c r'].
  - replace ("SIP/2.0" +:+ " " +:+ code +:+ " ")
      with (("SIP/2.0" +:+ " " +:+ code) +:+ " ") by now rewrite !str_app_assoc.
    rewrite rstrip_app_blank by reflexivity.
    replace ("SIP/2.0" +:+ " " +:+ code) with (("SIP/2.0" +:+ " ") +:+ code)
      by now rewrite !str_app_assoc.
    apply rstrip_app_fixed; [now apply no_space_rstrip|exact Hne].
  - now rewrite !str_app_assoc.
Qed.

Lemma str_of_Z_nonempty (n : Z) : str_of_Z n <> EmptyString.
Proof.
  destruct (str_of_Z_shape n) as (c & s & E & _). now rewrite E.
Qed.

(** The start line, trimmed on the right, still is one line, is not blank,
    and starts with a character that is not a blank. *)
Lemma start_line_rstrip_props (m : SIPMessage) :
  well_formed m = true ->
  free_of CR (rstrip (start_line m)) = true /\
  blank (rstrip (start_line m)) = false /\
  strip (rstrip (start_line m)) = rstrip (start_line m) /\
  strip (start_line m) = rstrip (start_line m).
Proof.
  intros H. pose proof (start_line_lstrip m EmptyString H) as Hl.
  rewrite str_app_nil_r in Hl.
  assert (Hb : blank (rstrip (start_line m)) = false).
  { destruct (blank (rstrip (start_line m))) eqn:E; [|reflexivity].
    apply rstrip_empty_iff in E. rewrite rstrip_idem in E.
    apply rstrip_empty_iff, lstrip_empty_iff in E. rewrite Hl in E.
    destruct (start_line_cases m H)
      as [(meth & u & _ & _ & _ & E')|(n & r & _ & _ & _ & E')];
      rewrite E' in E; [now destruct meth|discriminate]. }
  split; [apply free_of_rstrip, start_line_free_CR, H|].
  split; [exact Hb|]. unfold strip. rewrite Hl. split; [|reflexivity].
  now rewrite (lstrip_rstrip_fixed _ Hl), rstrip_idem.
Qed.

(** Reading the start line back gives the method or the status code. *)
Lemma parse_start_line_encoded (m : SIPMessage) :
  well_formed m = true ->
  exists msg,
    parse_start_line (rstrip (start_line m)) = Ok msg /\
    method msg = method m /\ status_code msg = status_code m /\
    headers msg = [] /\ body msg = None.
Proof.
  intros H.
  destruct (start_line_cases m H)
    as [(meth & u & Hm & Hc & Hu & ->)|(n & r & Hm & Hc & Hr & ->)].
  - rewrite Hm, Hc.
    replace (method_value meth +:+ " " +:+ raw_uri u +:+ " " +:+ "SIP/2.0")
      with ((method_value meth +:+ " " +:+ raw_uri u +:+ " ") +:+ "SIP/2.0")
      by now rewrite !str_app_assoc.
    rewrite rstrip_app_fixed by easy. rewrite !str_app_assoc.
    unfold parse_start_line.
    assert (Hp : startswith "SIP/"
              (method_value meth +:+ " " +:+ raw_uri u +:+ " " +:+ "SIP/2.0")
            = false) by now destruct meth.
    rewrite Hp. unfold split.
    rewrite split_go_cut by (apply method_value_plain || reflexivity).
    cbn [fmap option_fmap option_map Nat.pred].
    rewrite split_go_cut by (now apply no_space_free_SP || reflexivity).
    cbn [fmap option_fmap option_map Nat.pred]. rewrite split_go_no_more.
    cbn [length Nat.leb nth]. rewrite method_value_roundtrip.
    eexists. split; [reflexivity|]. now cbn.
  - rewrite Hm, Hc.
    rewrite rstrip_status_line
      by (apply str_of_Z_no_space || apply str_of_Z_nonempty).
    unfold parse_start_line, split.
    destruct (rstrip r) as [|c r'].
    + replace (startswith "SIP/" ("SIP/2.0" +:+ " " +:+ str_of_Z n))
        with true by reflexivity.
      rewrite split_go_cut by reflexivity.
      cbn [fmap option_fmap option_map Nat.pred].
      rewrite split_go_whole
        by apply no_space_free_SP, str_of_Z_no_space.
      cbn [length Nat.leb nth]. rewrite py_int_str_of_Z.
      eexists. split; [reflexivity|]. now cbn.
    + replace (startswith "SIP/" ("SIP/2.0" +:+ " " +:+ str_of_Z n +:+ " "
                 +:+ String c r')) with true by reflexivity.
      rewrite split_go_cut by reflexivity.
      cbn [fmap option_fmap option_map Nat.pred].
      rewrite split_go_cut
        by (apply no_space_free_SP, str_of_Z_no_space || reflexivity).
      cbn [fmap option_fmap option_map Nat.pred]. rewrite split_go_no_more.
      cbn [length Nat.leb nth]. rewrite py_int_str_of_Z.
      eexists. split; [reflexivity|]. now cbn.
Qed.

(** ** Lines *)

Lemma join_head_app (sep x : string) (l : list string) :
  exists r, join sep (x :: l) = x +:+ r.
Proof.
  destruct l; [exists EmptyString; now rewrite str_app_nil_r|].
  eexists. apply join_cons.
Qed.

(** Splitting the joined lines gives the lines back when none of them
    holds a CR. *)
Lemma split_lines (L : list string) (x rest : string) :
  forallb (free_of CR) (x :: L) = true ->
  split_go CRLF None 0 (join CRLF (x :: L) +:+ CRLF +:+ rest)
  = x :: L ++ split_go CRLF None 0 rest.
Proof.
  revert x. induction L as [|y L IH]; intros x H;
    cbn [forallb] in H; apply andb_true_iff in H as [Hx HL].
  - unfold CRLF at 1 3. cbn [join String.concat].
    now rewrite split_go_cut.
  - rewrite join_cons, !str_app_assoc. unfold CRLF at 1 2.
    rewrite split_go_cut by easy. fold CRLF.
    cbn [fmap option_fmap option_map]. now rewrite (IH y HL).
Qed.

Lemma split_lines_end (L : list string) (x : string) :
  forallb (free_of CR) (x :: L) = true ->
  split_go CRLF None 0 (join CRLF (x :: L)) = x :: L.
Proof.
  revert x. induction L as [|y L IH]; intros x H;
    cbn [forallb] in H; apply andb_true_iff in H as [Hx HL].
  - unfold CRLF. cbn [join String.concat]. now apply split_go_whole.
  - rewrite join_cons. unfold CRLF at 1 2.
    rewrite split_go_cut by easy. fold CRLF.
    cbn [fmap option_fmap option_map]. now rewrite (IH y HL).
Qed.

Lemma header_lines_free_CR (hs : list SIPHeader) :
  forallb header_ok hs = true ->
  forallb (free_of CR) (List.map header_encode hs) = true.
Proof.
  induction hs as [|h hs IH]; [reflexivity|].
  cbn [forallb List.map]. rewrite !andb_true_iff. intros [Hh Hhs].
  split; [now apply header_line_free_CR|auto].
Qed.

(** ** Serializing and parsing *)

Lemma encode_lines_wf (m : SIPMessage) :
  well_formed m = true ->
  encode_lines m
  = start_line m :: List.map header_encode (headers m)
      ++ [EmptyString]
      ++ match body m with Some b => [content b] | None => [] end.
Proof.
  intros H. apply well_formed_inv in H as (_ & _ & _ & Hl).
  unfold encode_lines, length_ok in *.
  destruct (body m) as [b|]; [|reflexivity].
  apply bool_decide_eq_true in Hl. rewrite Hl.
  cbn [truthy_opt]. now rewrite str_of_Z_truthy.
Qed.

(** The lines [parse] works on, for a message without body bytes. *)
Lemma lines_without_body (m : SIPMessage) (tail : string) :
  well_formed m = true -> blank tail = true ->
  exists line0,
    split CRLF None
      (strip (join CRLF (start_line m :: List.map header_encode (headers m))
              +:+ tail))
    = line0 :: List.map header_encode (headers m)
    /\ strip line0 = rstrip (start_line m).
Proof.
  intros H Ht.
  pose proof (start_line_rstrip_props m H) as (Hcr & Hb & Hs1 & Hs2).
  pose proof (start_line_free_CR m H) as HF.
  pose proof H as H'. apply well_formed_inv in H' as (_ & _ & Hh & _).
  pose proof (header_lines_free_CR _ Hh) as HL.
  unfold strip at 1.
  destruct (join_head_app CRLF (start_line m)
              (List.map header_encode (headers m))) as [r Er].
  assert (El : lstrip (join CRLF (start_line m
                 :: List.map header_encode (headers m)) +:+ tail)
               = join CRLF (start_line m
                   :: List.map header_encode (headers m)) +:+ tail).
  { rewrite Er, str_app_assoc. now apply start_line_lstrip. }
  rewrite El, rstrip_app_blank by exact Ht. clear El Er r.
  destruct (headers m) as [|h hs _] using rev_ind.
  - exists (rstrip (start_line m)). cbn [List.map join String.concat].
    split; [|exact Hs1]. unfold split, CRLF. now apply split_go_whole.
  - exists (start_line m). split; [|exact Hs2].
    rewrite forallb_app in Hh. apply andb_true_iff in Hh as [_ Hh].
    cbn [forallb] in Hh. rewrite andb_true_r in Hh.
    destruct (header_line_rstrip h Hh) as [Hr Hbl].
    rewrite map_app. cbn [List.map].
    change (start_line m :: List.map header_encode hs ++ [header_encode h])
      with ((start_line m :: List.map header_encode hs)
              ++ [header_encode h]).
    rewrite join_app_last, <- str_app_assoc.
    rewrite rstrip_app_fixed;
      [|exact Hr|intros E; rewrite E in Hbl; discriminate].
    rewrite str_app_assoc, <- join_app_last. unfold split.
    apply split_lines_end. cbn [app forallb]. rewrite HF.
    rewrite map_app in HL. exact HL.
Qed.

(** C4 (amended): a well-formed message whose body bytes do not end in a
    blank character is parsed back from its serialization with the same
    method or status code, the same headers in the same order and the same
    body bytes. *)
Theorem C4_parse_encode_roundtrip (m : SIPMessage) :
  well_formed m = true ->
  rstrip (body_bytes m) = body_bytes m ->
  exists m',
    parse (encode_str m) = Ok m' /\
    method m' = method m /\
    status_code m' = status_code m /\
    headers m' = headers m /\
    body_bytes m' = body_bytes m.
Proof.
  intros H HB.
  pose proof (start_line_rstrip_props m H) as (Hcr & Hb & Hs1 & Hs2).
  pose proof (start_line_free_CR m H) as HF.
  pose proof H as H'. apply well_formed_inv in H' as (_ & _ & Hh & _).
  pose proof (header_lines_free_CR _ Hh) as HL.
  destruct (parse_start_line_encoded m H) as (msg & Hp & Hm & Hc & Hhd & Hbd).
  unfold encode_str. rewrite (encode_lines_wf m H).
  set (F := start_line m) in *.
  set (HLs := List.map header_encode (headers m)) in *.
  assert (Hnobody : forall tail, blank tail = true -> body_bytes m = EmptyString ->
            exists m', parse (join CRLF (F :: HLs) +:+ tail) = Ok m' /\
              method m' = method m /\ status_code m' = status_code m /\
              headers m' = headers m /\ body_bytes m' = body_bytes m).
  { intros tail Ht HB0.
    destruct (lines_without_body m tail H Ht) as (line0 & El & Es).
    unfold parse. fold F HLs in El, Es. rewrite El. cbv beta iota zeta.
    rewrite Es, Hp. cbn [rbind tl].
    replace HLs with (HLs ++ []) by apply app_nil_r.
    unfold HLs. rewrite (parse_headers_encoded _ _ _ Hh).
    cbn [parse_headers fst snd parse_body]. rewrite app_nil_r.
    eexists. split; [reflexivity|]. now rewrite HB0. }
  destruct (body m) as [b|] eqn:Eb.
  - destruct (content b) as [|c0 B0] eqn:EB.
    + (* a body object without bytes *)
      rewrite (List.app_assoc HLs).
      change (F :: (HLs ++ [EmptyString]) ++ [EmptyString])
        with ((F :: HLs ++ [EmptyString]) ++ [EmptyString]).
      rewrite join_app_last.
      change (F :: HLs ++ [EmptyString]) with ((F :: HLs) ++ [EmptyString]).
      rewrite join_app_last, !str_app_assoc.
      apply Hnobody; [reflexivity|].
      unfold body_bytes. now rewrite Eb, EB.
    + (* a body with bytes *)
      assert (EBB : body_bytes m = String c0 B0)
        by (unfold body_bytes; now rewrite Eb, EB).
      rewrite EBB in *. set (B := String c0 B0) in *.
      rewrite (List.app_assoc HLs).
      change (F :: (HLs ++ [EmptyString]) ++ [B])
        with ((F :: HLs ++ [EmptyString]) ++ [B]).
      rewrite join_app_last.
      change (F :: HLs ++ [EmptyString]) with ((F :: HLs) ++ [EmptyString]).
      rewrite join_app_last, !str_app_assoc, str_app_nil_l.
      unfold parse.
      assert (Es : strip (join CRLF (F :: HLs) +:+ CRLF +:+ CRLF +:+ B)
                   = join CRLF (F :: HLs) +:+ CRLF +:+ CRLF +:+ B).
      { unfold strip.
        destruct (join_head_app CRLF F HLs) as [r Er].
        rewrite Er, !str_app_assoc. unfold F.
        rewrite start_line_lstrip by exact H.
        rewrite <- !str_app_assoc. now apply rstrip_app_fixed. }
      assert (El : split CRLF None
                     (join CRLF (F :: HLs) +:+ CRLF +:+ CRLF +:+ B)
                   = F :: HLs ++ EmptyString :: split_go CRLF None 0 B).
      { unfold split.
        rewrite split_lines by (cbn [forallb]; now rewrite HF, HL).
        unfold CRLF at 1. now rewrite split_go_hit. }
      rewrite Es, El. cbv beta iota zeta.
      rewrite Hs2, Hp. cbn [rbind tl].
      unfold HLs at 1. rewrite (parse_headers_encoded _ _ _ Hh).
      rewrite parse_headers_blank by reflexivity.
      cbn [fst snd]. rewrite app_nil_r.
      unfold parse_body.
      replace (0 <? 1 + length (headers m))%nat with true
        by (symmetry; apply Nat.ltb_lt; lia).
      pose proof (split_nonempty CRLF None 0 B) as Hne.
      assert (Elen : length HLs = length (headers m))
        by (unfold HLs; apply length_map).
      replace (1 + length (headers m) + 1
               <? length (F :: HLs ++ EmptyString :: split_go CRLF None 0 B))%nat
        with true.
      2:{ symmetry. apply Nat.ltb_lt. cbn [length].
          rewrite length_app. cbn [length]. rewrite Elen.
          destruct (split_go CRLF None 0 B); [congruence|cbn [length]; lia]. }
      cbn [andb].
      replace (drop (1 + length (headers m) + 1)
                 (F :: HLs ++ EmptyString :: split_go CRLF None 0 B))
        with (split_go CRLF None 0 B).
      2:{ replace (1 + length (headers m) + 1)%nat
            with (S (length HLs + 1))%nat by lia.
          cbn [drop]. rewrite <- drop_drop, drop_app_length. reflexivity. }
      unfold CRLF. rewrite join_split_go. cbn [str_drop]. fold CRLF.
      assert (Ht : truthy (strip B) = true).
      { unfold truthy. apply negb_true_iff, str_eqb_neq.
        rewrite strip_empty_iff.
        rewrite (rstrip_fixed_not_blank B HB); [discriminate|discriminate]. }
      rewrite Ht. eexists. split; [reflexivity|].
      cbn. now rewrite Hm, Hc.
  - rewrite app_nil_r.
    change (F :: HLs ++ [EmptyString]) with ((F :: HLs) ++ [EmptyString]).
    rewrite join_app_last. apply Hnobody; [reflexivity|].
    unfold body_bytes. now rewrite Eb.
Qed.

Lemma C4_parse_encode_roundtrip_witness :
  exists m',
    parse (encode_str (invite_with_body "v=0")) = Ok m' /\
    method m' = Some INVITE /\
    status_code m' = None /\
    headers m' = headers (invite_with_body "v=0") /\
    body_bytes m' = "v=0".
Proof.
  apply (C4_parse_encode_roundtrip (invite_with_body "v=0")); reflexivity.
Defined.

(** C4, as stated, fails: the INVITE [invite_with_sdp] is well formed, and
    parsing its serialization loses the CRLF that ends its body. *)
Lemma C4_counterexample :
  well_formed invite_with_sdp = true /\
  exists m',
    parse (encode_str invite_with_sdp) = Ok m' /\
    body_bytes invite_with_sdp = "v=0" +:+ CRLF /\
    body_bytes m' = "v=0" /\
    body_bytes m' <> body_bytes invite_with_sdp.
Proof.
  split; [reflexivity|]. eexists. split; [reflexivity|].
  repeat split. discriminate.
Qed.

(** ** Header continuation lines *)

(** The header loop over lines that are not blank: each line gives its
    own header, or none, and the loop goes on with the next line. *)
Lemma parse_headers_lines (pre rest : list string) (i : nat) :
  forallb (fun l => negb (blank l)) pre = true ->
  parse_headers i (pre ++ rest)
  = (flat_map header_of_line pre ++ (parse_headers (i + length pre) rest).1,
     (parse_headers (i + length pre) rest).2).
Proof.
  revert i. induction pre as [|l pre IH]; intros i H.
  - cbn [app flat_map length]. rewrite Nat.add_0_r.
    now destruct (parse_headers i rest).
  - cbn [forallb] in H. apply andb_true_iff in H as [Hl Hpre].
    apply negb_true_iff in Hl.
    cbn [app flat_map length]. rewrite parse_headers_cons by exact Hl.
    rewrite (IH (S i) Hpre). cbn [fst snd].
    replace (S i + length pre)%nat with (i + S (length pre))%nat by lia.
    now rewrite <- List.app_assoc.
Qed.

(** [SIPMessage.parse] on a text that is its own lines joined by CRLF. *)
Lemma parse_of_lines (line0 : string) (rest : list string) :
  forallb (free_of CR) (line0 :: rest) = true ->
  strip (join CRLF (line0 :: rest)) = join CRLF (line0 :: rest) ->
  parse (join CRLF (line0 :: rest))
  = rbind (parse_start_line (strip line0))
      (fun msg =>
         let '(hs, e) := parse_headers 1 rest in
         Ok (with_body (parse_body (line0 :: rest) hs e)
               (with_headers hs msg))).
Proof.
  intros H Hs. unfold parse. rewrite Hs. unfold split.
  now rewrite split_lines_end by exact H.
Qed.

(** The same for a whole message: when the text parses, the headers of the
    result are those of the lines before the pair, then the header of the
    first line of the pair, then what the continuation line gives by
    itself, then those of the lines that follow. *)
Lemma parse_continuation_apart (start line cont : string) (c : ascii)
    (pre post : list string) (msg : SIPMessage) :
  forallb (free_of CR) (start :: pre ++ line :: String c cont :: post) = true ->
  strip (join CRLF (start :: pre ++ line :: String c cont :: post))
  = join CRLF (start :: pre ++ line :: String c cont :: post) ->
  forallb (fun l => negb (blank l)) pre = true ->
  blank line = false ->
  is_space c = true ->
  blank (String c cont) = false ->
  parse (join CRLF (start :: pre ++ line :: String c cont :: post)) = Ok msg ->
  headers msg
  = flat_map header_of_line pre ++ header_of_line line
      ++ header_of_line (String c cont)
      ++ (parse_headers (3 + length pre) post).1.
Proof.
  intros HF Hs Hpre Hl _ Hc Hp.
  rewrite (parse_of_lines _ _ HF Hs) in Hp.
  destruct (parse_start_line (strip start)) as [m0|e]; [|discriminate].
  cbn [rbind] in Hp.
  rewrite (parse_headers_lines _ _ _ Hpre) in Hp.
  rewrite !parse_headers_cons in Hp by assumption.
  cbn [fst snd] in Hp. injection Hp as <-.
  cbn [headers with_body with_headers].
  replace (S (S (1 + length pre)))%nat with (3 + length pre)%nat by lia.
  reflexivity.
Qed.

(** An OPTIONS request that ends with a folded Subject is such a text. *)
Lemma folded_subject_headers (msg : SIPMessage) :
  parse ("OPTIONS sip:bob@example.org SIP/2.0" +:+ CRLF
         +:+ "Subject: hello" +:+ CRLF +:+ " world") = Ok msg ->
  headers msg = [mkSIPHeader "Subject" "hello"].
Proof.
  intros H.
  apply (parse_continuation_apart "OPTIONS sip:bob@example.org SIP/2.0"
           "Subject: hello" "world" " " [] [] msg); try reflexivity.
  exact H.
Qed.

(** C9 (amended): a header line followed by a line that begins with a
    blank is not folded.  Each of the two lines is read on its own: the
    header line yields its header with the value it has on that line, and
    the continuation yields a header of its own when it holds a colon and
    nothing otherwise. *)
Theorem C9_continuation_not_folded (i : nat) (line cont : string)
    (c : ascii) (rest : list string) :
  blank line = false ->
  is_space c = true ->
  blank (String c cont) = false ->
  parse_headers i (line :: String c cont :: rest)
  = (header_of_line line ++ header_of_line (String c cont)
       ++ (parse_headers (S (S i)) rest).1,
     (parse_headers (S (S i)) rest).2).
Proof.
  intros Hl _ Hc. now rewrite !parse_headers_cons.
Qed.

Lemma C9_continuation_not_folded_witness :
  parse_headers 1 ["Subject: hello"; " world"; EmptyString]
  = ([mkSIPHeader "Subject" "hello"], Some 3%nat).
Proof.
  apply (C9_continuation_not_folded 1 "Subject: hello" "world" " "
           [EmptyString]); reflexivity.
Defined.

(** C9, as stated, fails: the Subject header of [folded_subject] keeps the
    value of its first line. *)
Lemma C9_counterexample :
  exists m,
    parse folded_subject = Ok m /\
    headers m = [mkSIPHeader "Subject" "hello"] /\
    headers m <> [mkSIPHeader "Subject" "hello world"].
Proof.
  eexists. split; [reflexivity|]. split; [reflexivity|discriminate].
Qed.

(** ** Reading and writing headers *)

Lemma find_header_app (n : string) (hs hs' : list SIPHeader) :
  find_header n (hs ++ hs') =
  match find_header n hs with
  | Some v => Some v
  | None => find_header n hs'
  end.
Proof.
  induction hs as [|h hs IH]; cbn [app find_header]; [reflexivity|].
  now destruct (str_eqb (lower (name h)) n).
Qed.

Lemma replace_header_none (n v : string) (hs : list SIPHeader) :
  find_header n hs = None -> replace_header n v hs = None.
Proof.
  induction hs as [|h hs IH]; cbn [find_header replace_header];
    [reflexivity|].
  destruct (str_eqb (lower (name h)) n); [discriminate|].
  intros H. now rewrite (IH H).
Qed.

Lemma replace_header_some (n v w : string) (hs : list SIPHeader) :
  find_header n hs = Some w -> exists hs', replace_header n v hs = Some hs'.
Proof.
  induction hs as [|h hs IH]; cbn [find_header replace_header];
    [discriminate|].
  destruct (str_eqb (lower (name h)) n); [eauto|].
  intros H. destruct (IH H) as [hs' ->]. cbn. eauto.
Qed.

Lemma find_replace_header (n n' v : string) (hs hs' : list SIPHeader) :
  replace_header n v hs = Some hs' ->
  find_header n' hs' = if str_eqb n' n then Some v else find_header n' hs.
Proof.
  revert hs'. induction hs as [|h hs IH]; intros hs';
    cbn [replace_header]; [discriminate|].
  destruct (str_eqb (lower (name h)) n) eqn:E.
  - intros [= <-]. cbn [find_header name value].
    apply str_eqb_eq in E. rewrite E.
    destruct (str_eqb n' n) eqn:E'.
    + apply str_eqb_eq in E' as ->. now rewrite str_eqb_refl.
    + assert (str_eqb n n' = false) as ->; [|reflexivity].
      apply str_eqb_neq. apply str_eqb_neq in E'. congruence.
  - destruct (replace_header n v hs) as [r|]; [|discriminate].
    cbn. intros [= <-]. cbn [find_header]. rewrite (IH r eq_refl).
    destruct (str_eqb n' n) eqn:E'; [|reflexivity].
    apply str_eqb_eq in E' as ->. now rewrite E.
Qed.

Lemma get_set_header (n n' v : string) (m : SIPMessage) :
  strip n = n ->
  get_header n' (set_header n v m) =
  if str_eqb (lower n') (lower n)
  then Some (match get_header n m with Some _ => v | None => strip v end)
  else get_header n' m.
Proof.
  intros Hn. unfold get_header, set_header.
  destruct (find_header (lower n) (headers m)) as [w|] eqn:E.
  - destruct (replace_header_some _ v _ _ E) as [hs' Hr]. rewrite Hr.
    cbn [headers with_headers]. apply (find_replace_header _ _ _ _ _ Hr).
  - rewrite (replace_header_none _ v _ E).
    unfold add_header. cbn [headers with_headers].
    rewrite find_header_app. unfold SIPHeader_new.
    cbn [find_header name value]. rewrite Hn.
    destruct (str_eqb (lower n') (lower n)) eqn:E'.
    + apply str_eqb_eq in E'. rewrite E', E. now rewrite str_eqb_refl.
    + assert (str_eqb (lower n) (lower n') = false) as ->.
      { apply str_eqb_neq. apply str_eqb_neq in E'. congruence. }
      now destruct (find_header (lower n') (headers m)).
Qed.

Lemma get_add_header (n n' v : string) (m : SIPMessage) :
  get_header n' (add_header n v m) =
  match get_header n' m with
  | Some w => Some w
  | None => if str_eqb (lower (strip n)) (lower n') then Some (strip v)
            else None
  end.
Proof.
  unfold get_header, add_header. cbn [headers with_headers].
  rewrite find_header_app. reflexivity.
Qed.


(** X1: after [set_header n v] a lookup of the same name, in any case,
    gives the new value: as given when a header of that name was there,
    trimmed when the header had to be added.  Other names are read as
    before. *)
Theorem set_header_lookup (n n' v : string) (m : SIPMessage) :
  strip n = n ->
  get_header n' (set_header n v m) =
  if str_eqb (lower n') (lower n)
  then Some (match get_header n m with Some _ => v | None => strip v end)
  else get_header n' m.
Proof. apply get_set_header. Qed.

Lemma set_header_lookup_witness :
  get_header "CSEQ" (set_header "CSeq" " 2 INVITE" invite_with_sdp)
  = (if str_eqb (lower "CSEQ") (lower "CSeq")
     then Some (match get_header "CSeq" invite_with_sdp with
                | Some _ => " 2 INVITE"
                | None => strip " 2 INVITE"
                end)
     else get_header "CSEQ" invite_with_sdp).
Proof.
  apply (set_header_lookup "CSeq" "CSEQ" " 2 INVITE" invite_with_sdp).
  reflexivity.
Defined.

(** X2: [remove_header] removes every header of the name, in any case, and
    no other. *)
Theorem remove_header_lookup (n n' : string) (m : SIPMessage) :
  get_header n' (remove_header n m) =
  if str_eqb (lower n') (lower n) then None else get_header n' m.
Proof.
  unfold get_header, remove_header. cbn [headers with_headers].
  induction (headers m) as [|h hs IH]; cbn [List.filter find_header].
  - now destruct (str_eqb (lower n') (lower n)).
  - destruct (str_eqb (lower (name h)) (lower n)) eqn:E; cbn [negb].
    + rewrite IH. apply str_eqb_eq in E. rewrite E.
      destruct (str_eqb (lower n') (lower n)) eqn:E'; [reflexivity|].
      assert (str_eqb (lower n) (lower n') = false) as ->; [|reflexivity].
      apply str_eqb_neq. apply str_eqb_neq in E'. congruence.
    + cbn [find_header]. rewrite IH.
      destruct (str_eqb (lower n') (lower n)) eqn:E'; [|reflexivity].
      apply str_eqb_eq in E'. rewrite E'. now rewrite E.
Qed.

(** X3: [add_header] appends: a header that is already there keeps being
    the one [get_header] returns, and a new name is found with its trimmed
    value. *)
Theorem add_header_lookup (n n' v : string) (m : SIPMessage) :
  get_header n' (add_header n v m) =
  match get_header n' m with
  | Some w => Some w
  | None => if str_eqb (lower (strip n)) (lower n') then Some (strip v)
            else None
  end.
Proof. apply get_add_header. Qed.

(** X4: [set_body] stores the body and leaves the message with a
    Content-Length header that is the UTF-8 length of the content and a
    Content-Type header that is the given type, whatever these headers
    were before; the serialization then adds no Content-Length line of its
    own. *)
Theorem set_body_headers (c ct : string) (m : SIPMessage) :
  body (set_body c ct m) = Some (mkSIPBody c ct) /\
  get_header "Content-Length" (set_body c ct m)
  = Some (str_of_Z (utf8_len c)) /\
  get_header "Content-Type" (set_body c ct m)
  = Some (match get_header "Content-Type" m with
          | Some _ => ct
          | None => strip ct
          end) /\
  encode_lines (set_body c ct m)
  = start_line (set_body c ct m)
      :: List.map header_encode (headers (set_body c ct m))
      ++ [EmptyString; c].
Proof.
  assert (HL : get_header "Content-Length" (set_body c ct m)
               = Some (str_of_Z (utf8_len c))).
  { unfold set_body, set_body_obj. rewrite get_set_header by reflexivity.
    rewrite str_eqb_refl. cbn [content_length content].
    rewrite (no_space_strip _ (str_of_Z_no_space _)).
    now destruct (get_header _ _). }
  assert (HB : body (set_body c ct m) = Some (mkSIPBody c ct)).
  { unfold set_body, set_body_obj, set_header.
    destruct (replace_header _ _ _); destruct (replace_header _ _ _);
      reflexivity. }
  split; [exact HB|]. split; [exact HL|]. split.
  - unfold set_body, set_body_obj.
    rewrite get_set_header by reflexivity.
    replace (str_eqb (lower "Content-Type") (lower "Content-Length"))
      with false by reflexivity.
    rewrite get_set_header by reflexivity. rewrite str_eqb_refl.
    reflexivity.
  - unfold encode_lines. rewrite HB.
    change (get_header "content-length" (set_body c ct m))
      with (get_header "Content-Length" (set_body c ct m)).
    rewrite HL. cbn [truthy_opt]. rewrite str_of_Z_truthy.
    reflexivity.
Qed.

(** X5: a text that is, once trimmed, free of blanks (an empty text, blank
    lines, a single word) parses without error into the empty message,
    which is neither a request nor a response. *)
Theorem parse_single_word (s : string) :
  no_space (strip s) = true -> parse s = Ok SIPMessage_new.
Proof.
  intros H. unfold parse, split, CRLF.
  rewrite split_go_whole by now apply no_space_free_CR.
  cbv beta iota zeta. rewrite (no_space_strip _ H).
  unfold parse_start_line, split.
  rewrite split_go_whole by now apply no_space_free_SP.
  cbn [length Nat.leb]. now destruct (startswith "SIP/" (strip s)).
Qed.

Lemma parse_single_word_witness : parse "OPTIONS" = Ok SIPMessage_new.
Proof. apply (parse_single_word "OPTIONS"). reflexivity. Defined.

(** X6: [SIPMessage.parse] fails in two ways only, with the [ValueError] of
    [int] on the status code and with that of [SIPMethod] on the method;
    the error it has for an empty message is never raised. *)
Theorem parse_errors (s : string) :
  (exists m, parse s = Ok m) \/
  parse s = Raise (ValueError "invalid literal for int()") \/
  parse s = Raise (ValueError "not a valid SIPMethod").
Proof.
  unfold parse.
  pose proof (split_nonempty CRLF None 0 (strip s)) as Hne.
  unfold split. destruct (split_go CRLF None 0 (strip s)) as [|l0 ls];
    [congruence|].
  unfold parse_start_line.
  destruct (startswith "SIP/" (strip l0));
    destruct (2 <=? length (split " " (Some 2%nat) (strip l0)))%nat;
    cbn [rbind].
  - destruct (py_int _); cbn [rbind]; [left|right; left; reflexivity].
    destruct (parse_headers 1 (tl (l0 :: ls))). eauto.
  - left. destruct (parse_headers 1 (tl (l0 :: ls))). eauto.
  - destruct (SIPMethod_of_value _); cbn [rbind];
      [left|right; right; reflexivity].
    destruct (parse_headers 1 (tl (l0 :: ls))). eauto.
  - left. destruct (parse_headers 1 (tl (l0 :: ls))). eauto.
Qed.

Lemma copy_step (n : string) (f : string -> string) (o : option string)
    (acc : SIPMessage) :
  headers (match o with
           | Some v => if truthy v then add_header n (f v) acc else acc
           | None => acc
           end)
  = headers acc ++ option_list (mkSIPHeader (strip n) <$> copied f o).
Proof.
  destruct o as [v|]; cbn; [|now rewrite app_nil_r].
  destruct (truthy v); cbn; [reflexivity|now rewrite app_nil_r].
Qed.

Lemma create_response_headers (obj_id code : Z) (reason : option string)
    (req : SIPMessage) (b : option SIPBody) :
  is_request req = true ->
  headers (create_response obj_id code reason (Some req) [] b)
  = option_list (mkSIPHeader "Call-Id"
                   <$> copied (fun v => v) (get_header "call-id" req))
    ++ option_list (mkSIPHeader "Cseq"
                      <$> copied (fun v => v) (get_header "cseq" req))
    ++ option_list (mkSIPHeader "From"
                      <$> copied (fun v => v) (get_header "from" req))
    ++ option_list (mkSIPHeader "Via"
                      <$> copied (fun v => v) (get_header "via" req))
    ++ option_list (mkSIPHeader "To"
                      <$> copied (with_tag obj_id) (get_header "to" req)).
Proof.
  intros Hr. unfold create_response. rewrite Hr.
  cbn [fold_left].
  set (m0 := mkSIPMessage [] None None None (Some code) _ "SIP/2.0").
  match goal with
  | |- headers (match b with Some b' => with_body (Some b') ?m | None => ?m end) = _ =>
      transitivity (headers m); [now destruct b|]
  end.
  pose proof (copy_step "To" (with_tag obj_id) (get_header "to" req)) as H5.
  unfold with_tag in H5 at 1. rewrite H5. clear H5.
  rewrite (copy_step "Via" (fun v => v)).
  rewrite (copy_step (title "from") (fun v => v)).
  rewrite (copy_step (title "cseq") (fun v => v)).
  rewrite (copy_step (title "call-id") (fun v => v)).
  subst m0. cbn [headers app]. rewrite <- !List.app_assoc. reflexivity.
Qed.

Lemma create_response_kind (obj_id code : Z) (reason : option string)
    (req : SIPMessage) (b : option SIPBody) :
  status_code (create_response obj_id code reason (Some req) [] b)
  = Some code /\
  method (create_response obj_id code reason (Some req) [] b) = None.
Proof.
  unfold create_response. cbn [fold_left].
  destruct (is_request req), b;
    repeat match goal with
           | |- context [get_header ?n req] => destruct (get_header n req)
           end;
    repeat match goal with
           | |- context [truthy ?v] => destruct (truthy v)
           end;
    split; reflexivity.
Qed.

Lemma find_option_list (n n' : string) (o : option string) :
  find_header n (option_list (mkSIPHeader n' <$> o))
  = if str_eqb (lower n') n then o else None.
Proof.
  destruct o as [v|]; cbn; [reflexivity|].
  now destruct (str_eqb (lower n') n).
Qed.

(** X7: a response made from a request carries, in this order, the
    Call-ID, CSeq, From and Via of the request, each trimmed, and its To
    with a tag added when it has none; a header that is absent or empty in
    the request is left out, and no other header of the request is
    copied. *)
Theorem create_response_copies (obj_id code : Z) (reason : option string)
    (req : SIPMessage) (b : option SIPBody) :
  is_request req = true ->
  status_code (create_response obj_id code reason (Some req) [] b)
  = Some code /\
  method (create_response obj_id code reason (Some req) [] b) = None /\
  get_header "Call-ID" (create_response obj_id code reason (Some req) [] b)
  = copied (fun v => v) (get_header "Call-ID" req) /\
  get_header "CSeq" (create_response obj_id code reason (Some req) [] b)
  = copied (fun v => v) (get_header "CSeq" req) /\
  get_header "From" (create_response obj_id code reason (Some req) [] b)
  = copied (fun v => v) (get_header "From" req) /\
  get_header "Via" (create_response obj_id code reason (Some req) [] b)
  = copied (fun v => v) (get_header "Via" req) /\
  get_header "To" (create_response obj_id code reason (Some req) [] b)
  = copied (with_tag obj_id) (get_header "To" req) /\
  List.map name
    (headers (create_response obj_id code reason (Some req) [] b))
  `sublist_of` ["Call-Id"; "Cseq"; "From"; "Via"; "To"].
Proof.
  intros Hr.
  split; [apply create_response_kind|].
  split; [apply create_response_kind|].
  unfold get_header at 1 3 5 7 9.
  rewrite (create_response_headers _ _ _ _ _ Hr).
  change (get_header "Call-ID" req) with (get_header "call-id" req).
  change (get_header "CSeq" req) with (get_header "cseq" req).
  change (get_header "From" req) with (get_header "from" req).
  change (get_header "Via" req) with (get_header "via" req).
  change (get_header "To" req) with (get_header "to" req).
  destruct (copied (fun v => v) (get_header "call-id" req)) as [v1|];
  destruct (copied (fun v => v) (get_header "cseq" req)) as [v2|];
  destruct (copied (fun v => v) (get_header "from" req)) as [v3|];
  destruct (copied (fun v => v) (get_header "via" req)) as [v4|];
  destruct (copied (with_tag obj_id) (get_header "to" req)) as [v5|];
  (repeat split; [reflexivity..|]);
  cbn [option_list fmap option_fmap option_map app List.map name];
  repeat first [apply sublist_nil | apply sublist_skip | apply sublist_cons].
Qed.

Lemma create_response_copies_witness :
  status_code (create_response 7 180 None (Some invite_with_sdp) [] None)
  = Some 180 /\
  method (create_response 7 180 None (Some invite_with_sdp) [] None) = None /\
  get_header "Call-ID"
    (create_response 7 180 None (Some invite_with_sdp) [] None)
  = copied (fun v => v) (get_header "Call-ID" invite_with_sdp) /\
  get_header "CSeq" (create_response 7 180 None (Some invite_with_sdp) [] None)
  = copied (fun v => v) (get_header "CSeq" invite_with_sdp) /\
  get_header "From" (create_response 7 180 None (Some invite_with_sdp) [] None)
  = copied (fun v => v) (get_header "From" invite_with_sdp) /\
  get_header "Via" (create_response 7 180 None (Some invite_with_sdp) [] None)
  = copied (fun v => v) (get_header "Via" invite_with_sdp) /\
  get_header "To" (create_response 7 180 None (Some invite_with_sdp) [] None)
  = copied (with_tag 7) (get_header "To" invite_with_sdp) /\
  List.map name
    (headers (create_response 7 180 None (Some invite_with_sdp) [] None))
  `sublist_of` ["Call-Id"; "Cseq"; "From"; "Via"; "To"].
Proof.
  apply (create_response_copies 7 180 None invite_with_sdp None).
  reflexivity.
Defined.

(** ** URIs *)

Lemma contains_char (c : ascii) (s : string) :
  contains (String c EmptyString) s = negb (free_of c s).
Proof.
  induction s as [|x s IH]; [reflexivity|].
  rewrite contains_String, IH. unfold free_of. cbn [str_forall String.prefix].
  destruct (ascii_dec c x) as [->|Hne].
  - rewrite prefix_empty. cbn.
    now rewrite (proj2 (chr_eqb_eq x x) eq_refl).
  - assert (chr_eqb x c = false) as -> by (apply chr_eqb_neq; congruence).
    reflexivity.
Qed.

Lemma contains_char_free (c : ascii) (s : string) :
  free_of c s = true -> contains (String c EmptyString) s = false.
Proof. intros H. now rewrite contains_char, H. Qed.

Lemma rsplit1_free (c : ascii) (s : string) :
  free_of c s = true -> rsplit1 c s = None.
Proof.
  induction s as [|x s IH]; [reflexivity|].
  intros [Hx Hs]%free_of_String. cbn [rsplit1]. rewrite (IH Hs).
  now rewrite (proj2 (chr_eqb_neq x c) Hx).
Qed.

Lemma rsplit1_app (c : ascii) (a b : string) :
  free_of c b = true -> rsplit1 c (a +:+ String c b) = Some (a, b).
Proof.
  intros Hb. induction a as [|x a IH].
  - rewrite str_app_nil_l. cbn [rsplit1]. rewrite (rsplit1_free _ _ Hb).
    now rewrite (proj2 (chr_eqb_eq c c) eq_refl).
  - rewrite str_app_cons. cbn [rsplit1]. now rewrite IH.
Qed.

Lemma str_forall_app (p : ascii -> bool) (a b : string) :
  str_forall p (a +:+ b) = str_forall p a && str_forall p b.
Proof.
  induction a as [|x a IH]; [now rewrite str_app_nil_l|].
  rewrite str_app_cons. cbn [str_forall]. now rewrite IH, andb_assoc.
Qed.

Lemma str_forall_impl (p q : ascii -> bool) (s : string) :
  (forall c, p c = true -> q c = true) ->
  str_forall p s = true -> str_forall q s = true.
Proof.
  intros Hpq. induction s as [|x s IH]; [reflexivity|].
  cbn [str_forall]. intros [Hx Hs]%andb_true_iff.
  now rewrite (Hpq _ Hx), (IH Hs).
Qed.

(** The text of an integer holds digits and a minus sign only. *)
Lemma str_of_Z_free (c : ascii) (n : Z) :
  digit_or_minus c = false -> free_of c (str_of_Z n) = true.
Proof.
  intros Hc. destruct (str_of_Z_shape n) as (x & s & -> & Hx & Hs).
  assert (Hq : forall y, digit_or_minus y = true ->
                         negb (chr_eqb y c) = true).
  { intros y Hy. apply negb_true_iff, chr_eqb_neq. intros ->. congruence. }
  unfold free_of. cbn [str_forall]. rewrite (Hq _ Hx). cbn [andb].
  apply (str_forall_impl is_digit); [|exact Hs].
  intros y Hy. apply Hq. unfold digit_or_minus. now rewrite Hy.
Qed.

Lemma startswith_app_false (c : ascii) (h x : string) (y : ascii) :
  startswith (String c EmptyString) h = false -> y <> c ->
  startswith (String c EmptyString) (h +:+ String y x) = false.
Proof.
  unfold startswith. destruct h as [|a h].
  - intros _ Hy. rewrite str_app_nil_l. now apply prefix_head_neq.
  - rewrite str_app_cons. cbn [String.prefix].
    destruct (ascii_dec c a); [|reflexivity].
    now rewrite !prefix_empty.
Qed.

(** X8: a URI of the form sip:user@host:port is taken apart into its user,
    host and port; nothing else is set. *)
Theorem SIPURI_user_host_port (u h : string) (p : Z) :
  free_of "?" u = true -> free_of ";" u = true -> free_of ":" u = true ->
  free_of "?" h = true -> free_of ";" h = true -> free_of "@" h = true ->
  startswith "[" h = false ->
  SIPURI_new ("sip:" +:+ u +:+ "@" +:+ h +:+ ":" +:+ str_of_Z p)
  = mkSIPURI ("sip:" +:+ u +:+ "@" +:+ h +:+ ":" +:+ str_of_Z p)
      "sip" (Some u) None h (Some p) [] [].
Proof.
  intros Hu1 Hu2 Hu3 Hh1 Hh2 Hh3 Hb.
  set (P := str_of_Z p).
  assert (HP : forall c, digit_or_minus c = false -> free_of c P = true)
    by (intros c Hc; now apply str_of_Z_free).
  set (hp := h +:+ ":" +:+ P).
  set (rest := u +:+ "@" +:+ hp).
  unfold SIPURI_new.
  assert (Hraw : strip ("sip:" +:+ rest) = "sip:" +:+ rest).
  { unfold strip. change (lstrip ("sip:" +:+ rest)) with ("sip:" +:+ rest).
    unfold rest, hp. rewrite <- !str_app_assoc.
    apply rstrip_app_fixed.
    - apply no_space_rstrip, str_of_Z_no_space.
    - apply str_of_Z_nonempty. }
  rewrite Hraw.
  change ("sip:" +:+ rest)
    with (String "s" (String "i" (String "p" (String ":" rest)))).
  assert (Hsp : split ":" (Some 1%nat)
                  (String "s" (String "i" (String "p" (String ":" rest))))
                = ["sip"; rest]).
  { unfold split. cbn. now rewrite prefix_empty, split_go_no_more. }
  rewrite Hsp. cbn [unpack2].
  assert (Hc : contains ":"
                 (String "s" (String "i" (String "p" (String ":" rest))))
               = true).
  { rewrite !contains_String. cbn. now rewrite prefix_empty. }
  rewrite Hc.
  change (truthy (String "s" (String "i" (String "p" (String ":" rest)))))
    with true.
  cbn [negb].
  assert (Hq : contains "?" rest = false).
  { apply contains_char_free. unfold rest, hp.
    rewrite !free_of_app, Hu1, Hh1, HP by reflexivity. reflexivity. }
  assert (Hs : contains ";" rest = false).
  { apply contains_char_free. unfold rest, hp.
    rewrite !free_of_app, Hu2, Hh2, HP by reflexivity. reflexivity. }
  assert (Ha : contains "@" rest = true) by apply contains_app_r.
  assert (Hr : rsplit1 "@"%char rest = Some (u, hp)).
  { unfold rest. change ("@" +:+ hp) with (String "@" hp).
    apply rsplit1_app. unfold hp.
    rewrite !free_of_app, Hh3, HP by reflexivity. reflexivity. }
  assert (Hcu : contains ":" u = false) by now apply contains_char_free.
  assert (Hch : contains ":" hp = true) by apply contains_app_r.
  assert (Hbh : startswith "[" hp = false).
  { unfold hp. change (":" +:+ P) with (String ":" P).
    now apply startswith_app_false. }
  assert (Hrh : rsplit1 ":"%char hp = Some (h, P)).
  { unfold hp. change (":" +:+ P) with (String ":" P).
    apply rsplit1_app. now apply HP. }
  rewrite Hq, Hs, Ha, Hr, Hcu, Hch, Hbh. cbn [negb andb].
  rewrite Hrh. unfold P. rewrite py_int_str_of_Z.
  reflexivity.
Qed.

Lemma SIPURI_user_host_port_witness :
  SIPURI_new ("sip:" +:+ "alice" +:+ "@" +:+ "example.org" +:+ ":"
              +:+ str_of_Z 5070)
  = mkSIPURI ("sip:" +:+ "alice" +:+ "@" +:+ "example.org" +:+ ":"
              +:+ str_of_Z 5070)
      "sip" (Some "alice") None "example.org" (Some 5070) [] [].
Proof.
  apply (SIPURI_user_host_port "alice" "example.org" 5070); reflexivity.
Defined.

(** X9: the port of a bracketed (IPv6) host is never read: the whole text
    after the scheme, port included, becomes the host and the port stays
    unset. *)
Theorem SIPURI_bracketed_host (hp : string) :
  contains "?" hp = false ->
  contains ";" hp = false ->
  contains "@" hp = false ->
  startswith "[" hp = true ->
  rstrip hp = hp ->
  host (SIPURI_new ("sip:" +:+ hp)) = hp /\
  port (SIPURI_new ("sip:" +:+ hp)) = None.
Proof.
  intros Hq Hs Ha Hb Hstrip.
  assert (Hne : hp <> EmptyString) by (intros ->; discriminate).
  unfold SIPURI_new.
  assert (Hraw : strip ("sip:" +:+ hp) = "sip:" +:+ hp).
  { unfold strip. change (lstrip ("sip:" +:+ hp)) with ("sip:" +:+ hp).
    now apply rstrip_app_fixed. }
  rewrite Hraw.
  change ("sip:" +:+ hp)
    with (String "s" (String "i" (String "p" (String ":" hp)))).
  assert (Hsp : split ":" (Some 1%nat)
                  (String "s" (String "i" (String "p" (String ":" hp))))
                = ["sip"; hp]).
  { unfold split. cbn. now rewrite prefix_empty, split_go_no_more. }
  rewrite Hsp. cbn [unpack2].
  assert (Hc : contains ":"
                 (String "s" (String "i" (String "p" (String ":" hp)))) = true).
  { rewrite !contains_String. cbn. now rewrite prefix_empty. }
  rewrite Hc.
  change (truthy (String "s" (String "i" (String "p" (String ":" hp)))))
    with true.
  cbn [negb]. rewrite Hq, Hs, Ha, Hb.
  rewrite andb_false_r. split; reflexivity.
Qed.

Lemma SIPURI_bracketed_host_witness :
  host (SIPURI_new ("sip:" +:+ "[2001:db8::1]:5060")) = "[2001:db8::1]:5060" /\
  port (SIPURI_new ("sip:" +:+ "[2001:db8::1]:5060")) = None.
Proof.
  apply (SIPURI_bracketed_host "[2001:db8::1]:5060"); reflexivity.
Defined.

Lemma split_join (c : ascii) (sep' : string) (x : string) (L : list string) :
  forallb (free_of c) (x :: L) = true ->
  split_go (String c sep') None 0 (join (String c sep') (x :: L)) = x :: L.
Proof.
  revert x. induction L as [|y L IH]; intros x H;
    cbn [forallb] in H; apply andb_true_iff in H as [Hx HL].
  - cbn [join String.concat]. now apply split_go_whole.
  - rewrite join_cons. rewrite split_go_cut by easy.
    cbn [fmap option_fmap option_map]. now rewrite (IH y HL).
Qed.

Lemma free_of_join (c : ascii) (sep : string) (l : list string) :
  free_of c sep = true -> forallb (free_of c) l = true ->
  free_of c (join sep l) = true.
Proof.
  intros Hs. induction l as [|x l IH]; [reflexivity|].
  cbn [forallb]. intros [Hx Hl]%andb_true_iff.
  destruct l as [|y l]; [exact Hx|].
  rewrite join_cons, !free_of_app, Hx, Hs. now rewrite (IH Hl).
Qed.

Lemma parse_uri_params_texts (ps acc : list (string * ParamValue)) :
  forallb (fun kv => free_of "=" kv.1) ps = true ->
  parse_uri_params (List.map param_text ps) acc
  = fold_left (fun d kv => dict_set kv.1 kv.2 d) ps acc.
Proof.
  revert acc. induction ps as [|[k v] ps IH]; intros acc; [reflexivity|].
  cbn [forallb fst]. intros [Hk Hps]%andb_true_iff.
  cbn [List.map parse_uri_params fold_left fst snd].
  unfold param_text at 1 2 3. cbn [fst snd]. destruct v as [|v].
  - rewrite (contains_char_free _ _ Hk). now apply IH.
  - rewrite contains_app_r. unfold split.
    rewrite split_go_cut by easy. cbn [fmap option_fmap option_map Nat.pred].
    rewrite split_go_no_more. cbn [unpack2]. now apply IH.
Qed.

(** X10: the parameters written after the host of a URI, separated by
    semicolons, are all read: [key=value] as a string and a bare [key] as
    the flag True, a later one replacing an earlier one of the same key. *)
Theorem SIPURI_parameters (h : string) (p : string * ParamValue)
    (ps : list (string * ParamValue)) :
  free_of "?" h = true -> free_of ";" h = true -> free_of "@" h = true ->
  free_of ":" h = true ->
  forallb (fun kv => free_of "?" (param_text kv) && free_of ";" (param_text kv)
                     && free_of "=" kv.1) (p :: ps) = true ->
  rstrip (join ";" (List.map param_text (p :: ps)))
  = join ";" (List.map param_text (p :: ps)) ->
  SIPURI_new ("sip:" +:+ h +:+ ";" +:+ join ";" (List.map param_text (p :: ps)))
  = mkSIPURI
      ("sip:" +:+ h +:+ ";" +:+ join ";" (List.map param_text (p :: ps)))
      "sip" None None h None
      (fold_left (fun d kv => dict_set kv.1 kv.2 d) (p :: ps) []) [].
Proof.
  intros Hh1 Hh2 Hh3 Hh4 Hps HJ.
  assert (Hq : forallb (free_of "?") (List.map param_text (p :: ps)) = true).
  { rewrite forallb_forall in *. intros x [kv [<- Hin]]%in_map_iff.
    specialize (Hps kv Hin).
    now apply andb_true_iff in Hps as [[? ?]%andb_true_iff ?]. }
  assert (Hs : forallb (free_of ";") (List.map param_text (p :: ps)) = true).
  { rewrite forallb_forall in *. intros x [kv [<- Hin]]%in_map_iff.
    specialize (Hps kv Hin).
    now apply andb_true_iff in Hps as [[? ?]%andb_true_iff ?]. }
  assert (He : forallb (fun kv => free_of "=" kv.1) (p :: ps) = true).
  { rewrite forallb_forall in *. intros kv Hin. specialize (Hps kv Hin).
    now apply andb_true_iff in Hps as [_ ?]. }
  set (J := join ";" (List.map param_text (p :: ps))) in *.
  set (rest := h +:+ ";" +:+ J).
  unfold SIPURI_new.
  assert (Hraw : strip ("sip:" +:+ rest) = "sip:" +:+ rest).
  { unfold strip. change (lstrip ("sip:" +:+ rest)) with ("sip:" +:+ rest).
    unfold rest. rewrite <- !str_app_assoc.
    rewrite rstrip_app, HJ. destruct J; [|reflexivity].
    rewrite str_app_nil_r. now apply rstrip_app_fixed. }
  rewrite Hraw.
  change ("sip:" +:+ rest)
    with (String "s" (String "i" (String "p" (String ":" rest)))).
  assert (Hsp : split ":" (Some 1%nat)
                  (String "s" (String "i" (String "p" (String ":" rest))))
                = ["sip"; rest]).
  { unfold split. cbn. now rewrite prefix_empty, split_go_no_more. }
  rewrite Hsp. cbn [unpack2].
  assert (Hc : contains ":"
                 (String "s" (String "i" (String "p" (String ":" rest))))
               = true).
  { rewrite !contains_String. cbn. now rewrite prefix_empty. }
  rewrite Hc.
  change (truthy (String "s" (String "i" (String "p" (String ":" rest)))))
    with true.
  cbn [negb].
  assert (Hrq : contains "?" rest = false).
  { apply contains_char_free. unfold rest, J.
    rewrite !free_of_app, Hh1, free_of_join by easy. reflexivity. }
  assert (Hrs : contains ";" rest = true) by apply contains_app_r.
  assert (Hsplit : split ";" (Some 1%nat) rest = [h; J]).
  { unfold split, rest. rewrite split_go_cut by easy.
    cbn [fmap option_fmap option_map Nat.pred].
    now rewrite split_go_no_more. }
  assert (HsJ : split ";" None J = List.map param_text (p :: ps)).
  { unfold split, J. cbn [List.map]. apply split_join. exact Hs. }
  rewrite Hrq, Hrs, Hsplit. cbn [unpack2].
  rewrite HsJ, (parse_uri_params_texts _ _ He).
  rewrite (contains_char_free _ _ Hh3), (contains_char_free _ _ Hh4).
  reflexivity.
Qed.

Lemma SIPURI_parameters_witness :
  SIPURI_new
    ("sip:" +:+ "example.org" +:+ ";"
     +:+ join ";" (List.map param_text
                     [("transport", PStr "tcp"); ("lr", PTrue);
                      ("transport", PStr "udp")]))
  = mkSIPURI
      ("sip:" +:+ "example.org" +:+ ";"
       +:+ join ";" (List.map param_text
                       [("transport", PStr "tcp"); ("lr", PTrue);
                        ("transport", PStr "udp")]))
      "sip" None None "example.org" None
      (fold_left (fun d kv => dict_set kv.1 kv.2 d)
         [("transport", PStr "tcp"); ("lr", PTrue);
          ("transport", PStr "udp")] []) [].
Proof.
  apply (SIPURI_parameters "example.org" ("transport", PStr "tcp")
           [("lr", PTrue); ("transport", PStr "udp")]); reflexivity.
Defined.

End MessageFacts.

(* ================================================================== *)
(** * Facts about tinysip/auth.py *)
(* ================================================================== *)

Module AuthFacts.
Import Py Message Auth PyFacts.

(** ** The scan of a challenge *)

Lemma span_length (p : ascii -> bool) (s a b : string) :
  span p s = (a, b) ->
  String.length s = (String.length a + String.length b)%nat.
Proof.
  revert a b. induction s as [|c s IH]; intros a b; cbn [span].
  - now intros [= <- <-].
  - destruct (p c).
    + destruct (span p s) as [a' b'] eqn:E. intros [= <- <-].
      cbn [String.length]. now rewrite (IH a' b' eq_refl).
    + now intros [= <- <-].
Qed.

Lemma bare_value_shorter (key s k v rest : string) :
  bare_value key s = Some (k, v, rest) ->
  (String.length rest <= String.length s)%nat.
Proof.
  unfold bare_value.
  destruct (span _ s) as [v' r] eqn:E. apply span_length in E.
  destruct (truthy v'); [|discriminate]. intros [= _ _ <-]. lia.
Qed.

(** A match consumes at least the key and the equals sign. *)
Lemma match_auth_param_shorter (s k v rest : string) :
  match_auth_param s = Some (k, v, rest) ->
  (String.length rest < String.length s)%nat.
Proof.
  unfold match_auth_param.
  destruct (span is_word s) as [key r1] eqn:E1. apply span_length in E1.
  destruct (truthy key); cbn [negb]; [|discriminate].
  destruct r1 as [|c r2]; [discriminate|].
  destruct (chr_eqb c "="); [|discriminate].
  cbn [String.length] in E1.
  assert (Hb : bare_value key r2 = Some (k, v, rest) ->
               (String.length rest < String.length s)%nat).
  { intros H%bare_value_shorter. lia. }
  destruct r2 as [|q r3]; [exact Hb|].
  destruct (chr_eqb q DQ); [|exact Hb].
  destruct (span _ r3) as [v' r4] eqn:E2. apply span_length in E2.
  destruct r4 as [|q' r5]; [exact Hb|].
  destruct (truthy v' && chr_eqb q' DQ); [|exact Hb].
  intros [= _ _ <-]. cbn [String.length] in *. lia.
Qed.

(** The scan ends within as many steps as the text has characters: more
    fuel changes nothing. *)
Lemma finditer_auth_fuel (fuel : nat) (s : string)
    (params : gmap string string) :
  (String.length s <= fuel)%nat ->
  finditer_auth fuel s params = finditer_auth (String.length s) s params.
Proof.
  revert s params.
  induction (lt_wf fuel) as [fuel _ IH]. intros s params Hle.
  destruct s as [|c s']; [now destruct fuel|].
  destruct fuel as [|fuel']; [cbn [String.length] in Hle; lia|].
  cbn [String.length] in *. cbn [finditer_auth].
  destruct (match_auth_param (String c s')) as [[[k v] rest]|] eqn:E.
  - apply match_auth_param_shorter in E. cbn [String.length] in E.
    rewrite (IH fuel') by lia.
    symmetry. apply (IH (String.length s')); lia.
  - apply (IH fuel'); lia.
Qed.

(** ** The session variant of HA1 *)

Lemma upper_char_no_s (c : ascii) : free_of "s" (upper_char c) = true.
Proof. destruct c as [[] [] [] [] [] [] [] []]; reflexivity. Qed.

Lemma upper_no_s (s : string) : free_of "s" (upper s) = true.
Proof.
  induction s as [|c s IH]; [reflexivity|].
  cbn [upper]. now rewrite free_of_app, upper_char_no_s, IH.
Qed.

Lemma endswith_app (suf s : string) :
  endswith suf s = true -> exists x, s = x +:+ suf.
Proof.
  induction s as [|c s IH]; cbn [endswith];
    rewrite orb_true_iff, str_eqb_eq.
  - intros [<-|H]; [now exists EmptyString|discriminate].
  - intros [<-|H]; [now exists EmptyString|].
    destruct (IH H) as [x ->]. now exists (String c x).
Qed.

(** An upper-cased algorithm name never ends in the lower-case suffix the
    session test looks for. *)
Lemma upper_not_sess (alg : string) : endswith "-sess" (upper alg) = false.
Proof.
  destruct (endswith "-sess" (upper alg)) eqn:E; [|reflexivity].
  apply endswith_app in E as [x E].
  pose proof (upper_no_s alg) as H. rewrite E, free_of_app in H.
  apply andb_true_iff in H as [_ H]. discriminate.
Qed.

(** C5: on the path of a challenge the algorithm is upper-cased before HA1
    is computed, so HA1 is the plain hash of user:realm:password for every
    algorithm parameter, the session variants included. *)
Theorem C5_challenge_ha1_never_sess (md5 sha256 : string -> string)
    (username realm password nonce cnonce alg : string) :
  _calculate_ha1 md5 sha256 username realm password nonce cnonce (upper alg)
  = _hash_function md5 sha256
      (username +:+ ":" +:+ realm +:+ ":" +:+ password) (upper alg).
Proof.
  unfold _calculate_ha1. rewrite upper_not_sess.
  now destruct (_hash_function md5 sha256 _ (upper alg)).
Qed.

(** The header generated for the MD5-sess challenge [sess_challenge]: its
    response hashes HA1 = MD5(u:r:p), not MD5(HA1:nonce:cnonce). *)
Lemma md5_sess_challenge_header (md5 sha256 : string -> string)
    (entropy : nat -> string) :
  (generate_authorization_header md5 sha256 entropy "REGISTER" "sip:r"
     sess_challenge None
     (add_credentials "r" "u" "p" SIPDigestAuthentication_new)).1
  = Ok ("Digest username=" +:+ quoted "u" +:+ ", realm=" +:+ quoted "r"
          +:+ ", nonce=" +:+ quoted "n1" +:+ ", uri=" +:+ quoted "sip:r"
          +:+ ", response="
          +:+ quoted (md5 (md5 "u:r:p" +:+ ":n1:" +:+ md5 "REGISTER:sip:r"))
          +:+ ", algorithm=MD5-SESS").
Proof. reflexivity. Qed.

(** ** Challenges without credentials *)

Lemma generate_without_credentials (md5 sha256 : string -> string)
    (entropy : nat -> string) (method uri : string)
    (params : gmap string string) (body : option string)
    (a : SIPDigestAuthentication) :
  credentials a !! default EmptyString (params !! "realm") = None ->
  exists e,
    generate_authorization_header md5 sha256 entropy method uri params body a
    = (Raise e, a).
Proof.
  intros H. unfold generate_authorization_header. rewrite H. eauto.
Qed.

(** A 401 or 407 whose realm has no credentials: no Authorization header
    is made, and the request that comes back is the original one. *)
Lemma challenge_without_credentials (md5 sha256 : string -> string)
    (entropy uuid_hex : nat -> string) (req resp : SIPMessage)
    (a : SIPDigestAuthentication) (realm : string) :
  status_code resp = Some 401 \/ status_code resp = Some 407 ->
  challenge_realm resp = Some realm ->
  credentials a !! realm = None ->
  handle_authentication_challenge md5 sha256 entropy resp req a = (None, a) /\
  create_authenticated_request md5 sha256 entropy uuid_hex req resp a
  = (Ok Original, a).
Proof.
  intros Hs Hr Hc.
  assert (H1 : handle_authentication_challenge md5 sha256 entropy resp req a
               = (None, a)).
  { unfold handle_authentication_challenge, challenge_realm in *.
    assert (Hst : bool_decide (status_code resp = Some 401)
                  || bool_decide (status_code resp = Some 407) = true).
    { destruct Hs as [-> | ->]; reflexivity. }
    rewrite Hst. cbn [negb].
    assert (Hh : get_header
                   (lower (if bool_decide (status_code resp = Some 401)
                           then "WWW-Authenticate" else "Proxy-Authenticate"))
                   resp
                 = get_header
                     (if bool_decide (status_code resp = Some 401)
                      then "www-authenticate" else "proxy-authenticate")
                     resp).
    { now destruct (bool_decide (status_code resp = Some 401)). }
    rewrite Hh.
    destruct (get_header _ resp) as [hv|]; [|discriminate].
    destruct (truthy hv); [|discriminate]. cbn [negb].
    injection Hr as Hr. destruct (method req) as [meth|]; [|reflexivity].
    rewrite <- Hr in Hc.
    destruct (generate_without_credentials md5 sha256 entropy
                (method_value meth) (fmt_opt SIPURI_str (uri req))
                (parse_www_authenticate hv) (content <$> body req) a Hc)
      as [e ->].
    reflexivity. }
  split; [exact H1|].
  unfold create_authenticated_request. now rewrite H1.
Qed.


Import MessageFacts.

(** ** What a generated header costs *)

Lemma hash_supported (md5 sha256 : string -> string) (alg data : string) :
  startswith "MD5" alg || startswith "SHA-256" alg = true ->
  exists h, _hash_function md5 sha256 data alg = Ok h.
Proof.
  unfold _hash_function.
  destruct (startswith "MD5" alg); [eauto|].
  destruct (startswith "SHA-256" alg); [eauto|discriminate].
Qed.

Lemma hash_unsupported (md5 sha256 : string -> string) (alg data : string) :
  startswith "MD5" alg || startswith "SHA-256" alg = false ->
  _hash_function md5 sha256 data alg
  = Raise (ValueError "Algoritmo nao suportado").
Proof.
  unfold _hash_function.
  destruct (startswith "MD5" alg); [discriminate|].
  destruct (startswith "SHA-256" alg); [discriminate|reflexivity].
Qed.

Lemma response_supported (md5 sha256 : string -> string)
    (u r p m uri nonce : string) (nc : Z) (cnonce : string)
    (qop : option string) (alg : string) (body : option string) :
  startswith "MD5" alg || startswith "SHA-256" alg = true ->
  exists h,
    _calculate_response md5 sha256 u r p m uri nonce nc cnonce qop alg body
    = Ok h.
Proof.
  intros H. unfold _calculate_response, _calculate_ha1, _calculate_ha2.
  destruct (hash_supported md5 sha256 alg
              (u +:+ ":" +:+ r +:+ ":" +:+ p) H) as [h1 ->].
  cbn [rbind].
  assert (H1 : exists ha1,
             (if endswith "-sess" alg
              then _hash_function md5 sha256
                     (h1 +:+ ":" +:+ nonce +:+ ":" +:+ cnonce) alg
              else Ok h1) = Ok ha1).
  { destruct (endswith "-sess" alg); [|eauto].
    apply hash_supported, H. }
  destruct H1 as [ha1 ->]. cbn [rbind].
  assert (H2 : exists ha2,
             match body with
             | Some b =>
                 if bool_decide (qop = Some "auth-int")
                 then rbind (_hash_function md5 sha256 b alg)
                        (fun body_hash =>
                           _hash_function md5 sha256
                             (m +:+ ":" +:+ uri +:+ ":" +:+ body_hash) alg)
                 else _hash_function md5 sha256 (m +:+ ":" +:+ uri) alg
             | None => _hash_function md5 sha256 (m +:+ ":" +:+ uri) alg
             end = Ok ha2).
  { destruct body as [b|]; [|apply hash_supported, H].
    destruct (bool_decide (qop = Some "auth-int"));
      [|apply hash_supported, H].
    destruct (hash_supported md5 sha256 alg b H) as [hb ->]. cbn [rbind].
    apply hash_supported, H. }
  destruct H2 as [ha2 ->]. cbn [rbind].
  apply hash_supported, H.
Qed.

Lemma response_unsupported (md5 sha256 : string -> string)
    (u r p m uri nonce : string) (nc : Z) (cnonce : string)
    (qop : option string) (alg : string) (body : option string) :
  startswith "MD5" alg || startswith "SHA-256" alg = false ->
  _calculate_response md5 sha256 u r p m uri nonce nc cnonce qop alg body
  = Raise (ValueError "Algoritmo nao suportado").
Proof.
  intros H. unfold _calculate_response, _calculate_ha1.
  now rewrite (hash_unsupported md5 sha256 alg _ H).
Qed.

(** X11: when the realm of the challenge has credentials,
    [generate_authorization_header] draws a client nonce and counts the
    nonce once, whether it returns a header or not: it returns one exactly
    when the algorithm, in upper case, starts with MD5 or SHA-256, and
    raises the [ValueError] of [_hash_function] otherwise. *)
Theorem authorization_counts_the_nonce (md5 sha256 : string -> string)
    (entropy : nat -> string) (method uri : string)
    (params : gmap string string) (body : option string)
    (a : SIPDigestAuthentication) (u p : string) :
  credentials a !! default EmptyString (params !! "realm") = Some (u, p) ->
  (generate_authorization_header md5 sha256 entropy method uri params body
     a).2
  = mkAuth (credentials a)
      (<[default EmptyString (params !! "nonce")
         := default 0 (nonce_count a
                         !! default EmptyString (params !! "nonce")) + 1]>
         (nonce_count a))
      (S (draws a)) /\
  (if startswith "MD5" (upper (default "MD5" (params !! "algorithm")))
      || startswith "SHA-256"
           (upper (default "MD5" (params !! "algorithm")))
   then exists h,
       (generate_authorization_header md5 sha256 entropy method uri params
          body a).1 = Ok h
   else (generate_authorization_header md5 sha256 entropy method uri params
           body a).1 = Raise (ValueError "Algoritmo nao suportado")).
Proof.
  intros Hc. unfold generate_authorization_header. rewrite Hc.
  unfold _generate_cnonce, _get_nonce_count.
  cbn [credentials nonce_count draws].
  destruct (startswith "MD5" _ || startswith "SHA-256" _) eqn:E.
  - destruct (response_supported md5 sha256 u
                (default EmptyString (params !! "realm")) p method uri
                (default EmptyString (params !! "nonce"))
                (default 0 (nonce_count a
                              !! default EmptyString (params !! "nonce")) + 1)
                (str_take 16 (md5 (entropy (draws a))))
                (params !! "qop") _ body E) as [h ->].
    split; [reflexivity|]. eauto.
  - rewrite response_unsupported by exact E. split; reflexivity.
Qed.

Lemma authorization_counts_the_nonce_witness :
  (generate_authorization_header (Fsm.mark "md5") (Fsm.mark "sha256") Fsm.hex0
     "REGISTER" "sip:r" sess_challenge None
     (add_credentials "r" "u" "p" SIPDigestAuthentication_new)).2
  = mkAuth (credentials (add_credentials "r" "u" "p"
                           SIPDigestAuthentication_new))
      (<[default EmptyString (sess_challenge !! "nonce")
         := default 0
              (nonce_count (add_credentials "r" "u" "p"
                              SIPDigestAuthentication_new)
                 !! default EmptyString (sess_challenge !! "nonce")) + 1]>
         (nonce_count (add_credentials "r" "u" "p"
                         SIPDigestAuthentication_new)))
      (S (draws (add_credentials "r" "u" "p" SIPDigestAuthentication_new)))
  /\
  (if startswith "MD5" (upper (default "MD5" (sess_challenge !! "algorithm")))
      || startswith "SHA-256"
           (upper (default "MD5" (sess_challenge !! "algorithm")))
   then exists h,
       (generate_authorization_header (Fsm.mark "md5") (Fsm.mark "sha256") Fsm.hex0
          "REGISTER" "sip:r" sess_challenge None
          (add_credentials "r" "u" "p" SIPDigestAuthentication_new)).1 = Ok h
   else (generate_authorization_header (Fsm.mark "md5") (Fsm.mark "sha256") Fsm.hex0
           "REGISTER" "sip:r" sess_challenge None
           (add_credentials "r" "u" "p" SIPDigestAuthentication_new)).1
        = Raise (ValueError "Algoritmo nao suportado")).
Proof.
  apply (authorization_counts_the_nonce (Fsm.mark "md5") (Fsm.mark "sha256") Fsm.hex0
           "REGISTER" "sip:r" sess_challenge None
           (add_credentials "r" "u" "p" SIPDigestAuthentication_new)
           "u" "p").
  reflexivity.
Defined.

(** ** The request that answers a challenge *)

Lemma words_go_rstrip (s : string) : words_go (rstrip s) = words_go s.
Proof.
  induction s as [|c s IH]; [reflexivity|].
  cbn [rstrip words_go]. rewrite <- IH.
  destruct (rstrip s) as [|x r] eqn:E.
  - cbn [words_go]. destruct (is_space c) eqn:Ec; cbn [words_go].
    + reflexivity.
    + now rewrite Ec.
  - reflexivity.
Qed.

Lemma split_ws_lstrip (s : string) : split_ws (lstrip s) = split_ws s.
Proof.
  unfold split_ws. induction s as [|c s IH]; [reflexivity|].
  cbn [lstrip]. destruct (is_space c) eqn:Ec; [|reflexivity].
  rewrite IH. cbn [words_go]. rewrite Ec.
  destruct (words_go s) as [w ws]. reflexivity.
Qed.

Lemma split_ws_strip (s : string) : split_ws (strip s) = split_ws s.
Proof.
  unfold strip. unfold split_ws at 1. rewrite words_go_rstrip.
  apply split_ws_lstrip.
Qed.

Lemma truthy_app_l (a b : string) : truthy a = true -> truthy (a +:+ b) = true.
Proof. destruct a; [discriminate|reflexivity]. Qed.

Lemma generated_header_truthy (md5 sha256 : string -> string)
    (entropy : nat -> string) (method uri : string)
    (params : gmap string string) (body : option string)
    (a a' : SIPDigestAuthentication) (h : string) :
  generate_authorization_header md5 sha256 entropy method uri params body a
  = (Ok h, a') ->
  truthy h = true.
Proof.
  unfold generate_authorization_header.
  destruct (credentials a !! _) as [[u p]|]; [|discriminate].
  unfold _generate_cnonce, _get_nonce_count.
  destruct (_calculate_response _ _ _ _ _ _ _ _ _ _ _ _ _) as [r|];
    [|discriminate].
  intros [= <- _].
  destruct (params !! "qop") as [q|]; [destruct (truthy q)|];
    (destruct (params !! "opaque") as [o|]; [destruct (truthy o)|]);
    destruct (truthy (upper _));
    repeat (apply truthy_app_l); reflexivity.
Qed.

Lemma challenge_header_truthy (md5 sha256 : string -> string)
    (entropy : nat -> string) (req resp : SIPMessage)
    (a a' : SIPDigestAuthentication) (h : string) :
  handle_authentication_challenge md5 sha256 entropy resp req a
  = (Some h, a') ->
  truthy h = true.
Proof.
  unfold handle_authentication_challenge.
  destruct (negb _); [discriminate|].
  destruct (get_header _ resp) as [hv|]; [|discriminate].
  destruct (negb (truthy hv)); [discriminate|].
  destruct (method req) as [meth|]; [|discriminate].
  destruct (generate_authorization_header _ _ _ _ _ _ _ _)
    as [[h0|e] a0] eqn:E; [|discriminate].
  intros [= <- _]. exact (generated_header_truthy _ _ _ _ _ _ _ _ _ _ E).
Qed.


Lemma copy_but_via_lookup (n' : string) (hs : list SIPHeader)
    (m0 : SIPMessage) :
  Forall (fun h => strip (name h) = name h) hs ->
  get_header n' (fold_left copy_but_via hs m0)
  = match get_header n' m0 with
    | Some w => Some w
    | None => if str_eqb (lower n') "via" then None
              else strip <$> find_header (lower n') hs
    end.
Proof.
  intros H. revert m0. induction H as [|h hs Hh _ IH]; intros m0.
  - cbn [fold_left find_header].
    destruct (get_header n' m0); [reflexivity|].
    now destruct (str_eqb (lower n') "via").
  - cbn [fold_left find_header]. rewrite IH. unfold copy_but_via.
    destruct (str_eqb (lower (name h)) "via") eqn:Ev; cbn [negb].
    + destruct (get_header n' m0); [reflexivity|].
      destruct (str_eqb (lower n') "via") eqn:En; [reflexivity|].
      assert (str_eqb (lower (name h)) (lower n') = false) as ->;
        [|reflexivity].
      apply str_eqb_neq. apply str_eqb_eq in Ev. apply str_eqb_neq in En.
      congruence.
    + rewrite get_add_header, Hh.
      destruct (get_header n' m0); [reflexivity|].
      destruct (str_eqb (lower (name h)) (lower n')) eqn:E; [|reflexivity].
      apply str_eqb_eq in E. rewrite <- E, Ev. reflexivity.
Qed.

Lemma copy_but_via_fields (hs : list SIPHeader) (m0 : SIPMessage) :
  method (fold_left copy_but_via hs m0) = method m0 /\
  body (fold_left copy_but_via hs m0) = body m0.
Proof.
  revert m0. induction hs as [|h hs IH]; intros m0; [easy|].
  cbn [fold_left]. destruct (IH (copy_but_via m0 h)) as [-> ->].
  unfold copy_but_via. now destruct (negb _).
Qed.

Lemma set_header_fields (n v : string) (m : SIPMessage) :
  method (set_header n v m) = method m /\
  body (set_header n v m) = body m.
Proof. unfold set_header. now destruct (replace_header _ _ _). Qed.

(** X12: the request that answers a challenge.  When the challenge yields
    an Authorization header and the CSeq of the request starts with a
    number, [create_authenticated_request] returns a new request of the
    same method and body whose CSeq number is one higher, whose
    Authorization header (Proxy-Authorization for a 407) is the generated
    one, whose Via is the one of the request with a new branch, and whose
    other headers are those of the request, trimmed. *)
Theorem authenticated_request_headers (md5 sha256 : string -> string)
    (entropy uuid_hex : nat -> string) (req resp : SIPMessage)
    (a a' : SIPDigestAuthentication) (h cs p0 p1 : string)
    (rest : list string) (n : Z) :
  Forall (fun x => strip (name x) = name x) (headers req) ->
  handle_authentication_challenge md5 sha256 entropy resp req a
  = (Some h, a') ->
  get_header "CSeq" req = Some cs ->
  split_ws cs = p0 :: p1 :: rest ->
  py_int p0 = Some n ->
  exists m,
    create_authenticated_request md5 sha256 entropy uuid_hex req resp a
    = (Ok (Fresh m),
       mkAuth (credentials a') (nonce_count a') (S (draws a'))) /\
    method m = method req /\
    body m = body req /\
    forall n',
      get_header n' m
      = if str_eqb (lower n') "cseq"
        then Some (str_of_Z (n + 1) +:+ " " +:+ p1)
        else if str_eqb (lower n')
                  (if bool_decide (status_code resp = Some 401)
                   then "authorization" else "proxy-authorization")
        then Some (match get_header
                           (if bool_decide (status_code resp = Some 401)
                            then "Authorization" else "Proxy-Authorization")
                           req with
                   | Some _ => h
                   | None => strip h
                   end)
        else if str_eqb (lower n') "via"
        then Some (strip
                     (match get_header "via" req with
                      | Some via_header =>
                          if truthy via_header
                          then sub_branch
                                 ("branch=z9hG4bK"
                                    +:+ str_take 16 (uuid_hex (draws a')))
                                 0 via_header
                          else "SIP/2.0/UDP 0.0.0.0;branch=z9hG4bK"
                                 +:+ str_take 16 (uuid_hex (draws a'))
                      | None =>
                          "SIP/2.0/UDP 0.0.0.0;branch=z9hG4bK"
                            +:+ str_take 16 (uuid_hex (draws a'))
                      end))
        else strip <$> get_header n' req.
Proof.
  intros Hnames Hh Hcs Hsp Hint.
  pose proof (challenge_header_truthy _ _ _ _ _ _ _ _ Hh) as Hth.
  assert (Hm : exists meth, method req = Some meth).
  { revert Hh. unfold handle_authentication_challenge.
    destruct (negb _); [discriminate|].
    destruct (get_header _ resp) as [hv|]; [|discriminate].
    destruct (negb (truthy hv)); [discriminate|].
    destruct (method req); [eauto|discriminate]. }
  destruct Hm as [meth Hm].
  unfold create_authenticated_request. rewrite Hh.
  cbn [truthy_opt]. rewrite Hth. cbn [negb]. rewrite Hm.
  cbn [credentials nonce_count draws default]. change (id h) with h.
  fold copy_but_via.
  set (m0 := create_request meth (fmt_opt SIPURI_str (uri req)) []
               (body req)).
  set (m1 := fold_left copy_but_via (headers req) m0).
  set (nb := "z9hG4bK" +:+ str_take 16 (uuid_hex (draws a'))).
  set (via := match get_header "via" req with
              | Some via_header =>
                  if truthy via_header
                  then sub_branch ("branch=" +:+ nb) 0 via_header
                  else "SIP/2.0/UDP 0.0.0.0;branch=" +:+ nb
              | None => "SIP/2.0/UDP 0.0.0.0;branch=" +:+ nb
              end).
  set (hn := if bool_decide (status_code resp = Some 401)
             then "Authorization" else "Proxy-Authorization").
  assert (Hm0 : forall n', get_header n' m0 = None).
  { intros n'. unfold m0, create_request. cbn [fold_left].
    now destruct (body req). }
  assert (Hf0 : method m0 = Some meth /\ body m0 = body req).
  { unfold m0, create_request. cbn [fold_left]. now destruct (body req). }
  assert (H1 : forall n', get_header n' m1
                 = if str_eqb (lower n') "via" then None
                   else strip <$> get_header n' req).
  { intros n'. unfold m1. rewrite copy_but_via_lookup by exact Hnames.
    now rewrite Hm0. }
  assert (Hvia_eq :
            match get_header "via" req with
            | Some via_header =>
                if truthy via_header
                then set_header "Via"
                       (sub_branch ("branch=" +:+ nb) 0 via_header) m1
                else set_header "Via"
                       ("SIP/2.0/UDP 0.0.0.0;branch=" +:+ nb) m1
            | None =>
                set_header "Via" ("SIP/2.0/UDP 0.0.0.0;branch=" +:+ nb) m1
            end = set_header "Via" via m1).
  { unfold via. destruct (get_header "via" req) as [v|]; [|reflexivity].
    now destruct (truthy v). }
  rewrite Hvia_eq. clear Hvia_eq.
  set (m2 := set_header "Via" via m1).
  set (m3 := set_header hn h m2).
  assert (Hhn : strip hn = hn /\ str_eqb (lower hn) "via" = false /\
                str_eqb "cseq" (lower hn) = false /\
                lower hn = (if bool_decide (status_code resp = Some 401)
                            then "authorization" else "proxy-authorization")).
  { unfold hn. now destruct (bool_decide _). }
  destruct Hhn as (Hhn1 & Hhn2 & Hhn3 & Hhn4).
  assert (H2 : forall n', get_header n' m2
                 = if str_eqb (lower n') "via" then Some (strip via)
                   else strip <$> get_header n' req).
  { intros n'. unfold m2. rewrite get_set_header by reflexivity.
    change (lower "Via") with "via". rewrite !H1.
    change (str_eqb (lower "Via") "via") with true. cbv beta iota.
    now destruct (str_eqb (lower n') "via"). }
  assert (H3 : forall n', get_header n' m3
                 = if str_eqb (lower n') (lower hn)
                   then Some (match get_header hn req with
                              | Some _ => h
                              | None => strip h
                              end)
                   else get_header n' m2).
  { intros n'. unfold m3. rewrite get_set_header by exact Hhn1.
    rewrite (H2 hn), Hhn2.
    now destruct (get_header hn req). }
  assert (Hc3 : get_header "cseq" m3 = Some (strip cs)).
  { rewrite H3. change (lower "cseq") with "cseq". rewrite Hhn3.
    rewrite H2. change (str_eqb (lower "cseq") "via") with false.
    cbv beta iota.
    change (get_header "cseq" req) with (get_header "CSeq" req).
    now rewrite Hcs. }
  rewrite Hc3, split_ws_strip, Hsp, Hint.
  assert (Hts : truthy (strip cs) = true).
  { destruct (strip cs) eqn:E; [|reflexivity].
    pose proof (split_ws_strip cs) as Hx. rewrite E, Hsp in Hx.
    discriminate. }
  rewrite Hts.
  eexists. split; [reflexivity|].
  destruct (set_header_fields "CSeq" (str_of_Z (n + 1) +:+ " " +:+ p1) m3)
    as [-> ->].
  destruct (set_header_fields hn h m2) as [Ea Eb]. fold m3 in Ea, Eb.
  rewrite Ea, Eb.
  destruct (set_header_fields "Via" via m1) as [Ec Ed]. fold m2 in Ec, Ed.
  rewrite Ec, Ed.
  destruct (copy_but_via_fields (headers req) m0) as [Ee Ef].
  fold m1 in Ee, Ef. rewrite Ee, Ef.
  destruct Hf0 as [-> ->]. split; [reflexivity|]. split; [reflexivity|].
  intros n'. rewrite get_set_header by reflexivity.
  change (lower "CSeq") with "cseq".
  change (get_header "CSeq" m3) with (get_header "cseq" m3). rewrite Hc3.
  destruct (str_eqb (lower n') "cseq"); [reflexivity|].
  rewrite H3, Hhn4.
  destruct (str_eqb (lower n') _); [reflexivity|].
  rewrite H2. reflexivity.
Qed.

(** ** Reading a challenge *)

Lemma span_stop (p : ascii -> bool) (a b : string) (c : ascii) :
  str_forall p a = true -> p c = false ->
  span p (a +:+ String c b) = (a, String c b).
Proof.
  intros Ha Hc. induction a as [|x a IH].
  - rewrite str_app_nil_l. cbn [span]. now rewrite Hc.
  - cbn [str_forall] in Ha. apply andb_true_iff in Ha as [Hx Ha].
    rewrite str_app_cons. cbn [span]. now rewrite Hx, (IH Ha).
Qed.

Lemma match_quoted_param (k v rest : string) :
  quotable (k, v) = true ->
  match_auth_param (challenge_param (k, v) +:+ rest) = Some (k, v, rest).
Proof.
  unfold quotable. cbn [fst snd].
  rewrite !andb_true_iff. intros [[[Hk Hw] Hv] Hq].
  unfold match_auth_param, challenge_param, quoted. cbn [fst snd].
  rewrite !str_app_assoc.
  change ("=" +:+ ?x) with (String "=" x).
  rewrite (span_stop is_word k _ "=" Hw eq_refl). rewrite Hk. cbn [negb].
  change (chr_eqb "=" "=") with true. cbv beta iota.
  rewrite str_app_cons.
  change (chr_eqb DQ DQ) with true. cbv beta iota.
  rewrite !str_app_assoc. rewrite str_app_cons, str_app_nil_l.
  rewrite (span_stop (fun c => negb (chr_eqb c DQ)) v rest DQ).
  - rewrite Hv. reflexivity.
  - exact Hq.
  - reflexivity.
Qed.

Lemma finditer_auth_step (c : ascii) (s : string)
    (params : gmap string string) :
  finditer_auth (String.length (String c s)) (String c s) params
  = match match_auth_param (String c s) with
    | Some (key, v, rest) =>
        finditer_auth (String.length rest) rest (<[lower key := v]> params)
    | None => finditer_auth (String.length s) s params
    end.
Proof.
  cbn [String.length finditer_auth].
  destruct (match_auth_param (String c s)) as [[[k v] rest]|] eqn:E;
    [|reflexivity].
  apply match_auth_param_shorter in E. cbn [String.length] in E.
  apply finditer_auth_fuel. lia.
Qed.

Lemma finditer_auth_separator (s : string) (params : gmap string string) :
  finditer_auth (String.length (", " +:+ s)) (", " +:+ s) params
  = finditer_auth (String.length s) s params.
Proof.
  change (", " +:+ s) with (String "," (String " " s)).
  rewrite finditer_auth_step.
  change (match_auth_param (String "," (String " " s))) with
    (@None (string * string * string)).
  cbv beta iota. rewrite finditer_auth_step.
  change (match_auth_param (String " " s)) with
    (@None (string * string * string)).
  reflexivity.
Qed.

Lemma challenge_param_cons (kv : string * string) (rest : string) :
  quotable kv = true ->
  exists c s, challenge_param kv +:+ rest = String c s.
Proof.
  destruct kv as [k v]. unfold quotable, challenge_param. cbn [fst snd].
  destruct k as [|c k]; [discriminate|]. intros _.
  rewrite !str_app_cons. eauto.
Qed.

Lemma finditer_auth_params (kvs : list (string * string))
    (params : gmap string string) :
  forallb quotable kvs = true ->
  finditer_auth (String.length (join ", " (List.map challenge_param kvs)))
    (join ", " (List.map challenge_param kvs)) params
  = fold_left (fun m kv => <[lower kv.1 := kv.2]> m) kvs params.
Proof.
  revert params. induction kvs as [|kv kvs IH]; intros params;
    [reflexivity|].
  cbn [forallb]. rewrite andb_true_iff. intros [Hkv Hkvs].
  cbn [List.map fold_left].
  destruct kvs as [|kv' kvs].
  - cbn [List.map fold_left]. unfold join. cbn [String.concat].
    rewrite <- (str_app_nil_r (challenge_param kv)).
    destruct (challenge_param_cons kv EmptyString Hkv) as (c & s & E).
    rewrite E, finditer_auth_step, <- E.
    destruct kv as [k v]. rewrite (match_quoted_param k v _ Hkv).
    reflexivity.
  - cbn [List.map]. rewrite join_cons.
    destruct (challenge_param_cons kv
                (", " +:+ join ", "
                            (challenge_param kv'
                               :: List.map challenge_param kvs)) Hkv)
      as (c & s & E).
    rewrite E, finditer_auth_step, <- E.
    destruct kv as [k v]. rewrite (match_quoted_param k v _ Hkv).
    rewrite finditer_auth_separator.
    apply (IH _ Hkvs).
Qed.

(** X13: [parse_www_authenticate] reads a challenge of the documented form,
    Digest key="value", key="value", ..., as the map from the keys in
    lower case to the values without their quotes; of two parameters with
    the same key the later one stays. *)
Theorem parse_www_authenticate_quoted (kvs : list (string * string)) :
  forallb quotable kvs = true ->
  parse_www_authenticate (challenge_text kvs)
  = fold_left (fun m kv => <[lower kv.1 := kv.2]> m) kvs ∅.
Proof.
  intros H. unfold parse_www_authenticate, challenge_text, startswith.
  rewrite prefix_app.
  change (str_drop 7 ("Digest " +:+ ?x)) with x.
  apply finditer_auth_params, H.
Qed.

Lemma parse_www_authenticate_quoted_witness :
  parse_www_authenticate
    (challenge_text [("realm", "example.org"); ("Nonce", "84a4cc6f");
                     ("realm", "example.net")])
  = fold_left (fun m kv => <[lower kv.1 := kv.2]> m)
      [("realm", "example.org"); ("Nonce", "84a4cc6f");
       ("realm", "example.net")] ∅.
Proof.
  apply (parse_www_authenticate_quoted
           [("realm", "example.org"); ("Nonce", "84a4cc6f");
            ("realm", "example.net")]).
  reflexivity.
Defined.

Lemma authenticated_request_headers_witness :
  let out := handle_authentication_challenge (Fsm.mark "md5") (Fsm.mark "sha256")
               Fsm.hex0 Fsm.sample_challenge Fsm.sample_register alice_auth in
  let h := default EmptyString out.1 in
  exists m,
    create_authenticated_request (Fsm.mark "md5") (Fsm.mark "sha256") Fsm.hex0 Fsm.hex0
      Fsm.sample_register Fsm.sample_challenge alice_auth
    = (Ok (Fresh m),
       mkAuth (credentials out.2) (nonce_count out.2) (S (draws out.2))) /\
    method m = method Fsm.sample_register /\
    body m = body Fsm.sample_register /\
    forall n',
      get_header n' m
      = if str_eqb (lower n') "cseq"
        then Some (str_of_Z (1 + 1) +:+ " " +:+ "REGISTER")
        else if str_eqb (lower n')
                  (if bool_decide (status_code Fsm.sample_challenge = Some 401)
                   then "authorization" else "proxy-authorization")
        then Some (match get_header
                           (if bool_decide
                                 (status_code Fsm.sample_challenge = Some 401)
                            then "Authorization" else "Proxy-Authorization")
                           Fsm.sample_register with
                   | Some _ => h
                   | None => strip h
                   end)
        else if str_eqb (lower n') "via"
        then Some (strip
                     (match get_header "via" Fsm.sample_register with
                      | Some via_header =>
                          if truthy via_header
                          then sub_branch
                                 ("branch=z9hG4bK"
                                    +:+ str_take 16 (Fsm.hex0 (draws out.2)))
                                 0 via_header
                          else "SIP/2.0/UDP 0.0.0.0;branch=z9hG4bK"
                                 +:+ str_take 16 (Fsm.hex0 (draws out.2))
                      | None =>
                          "SIP/2.0/UDP 0.0.0.0;branch=z9hG4bK"
                            +:+ str_take 16 (Fsm.hex0 (draws out.2))
                      end))
        else strip <$> get_header n' Fsm.sample_register.
Proof.
  apply (authenticated_request_headers (Fsm.mark "md5") (Fsm.mark "sha256") Fsm.hex0
           Fsm.hex0 Fsm.sample_register Fsm.sample_challenge alice_auth _ _
           "1 REGISTER" "1" "REGISTER" [] 1).
  - repeat constructor.
  - reflexivity.
  - reflexivity.
  - reflexivity.
  - reflexivity.
Defined.

End AuthFacts.

(* ================================================================== *)
(** * Facts about tinysip/sdp.py *)
(* ================================================================== *)

Module SdpFacts.
Import Py Sdp PyFacts.

Lemma str_or_truthy (s d : string) :
  truthy s = true -> str_or (Some s) d = s.
Proof. intros H. unfold str_or. now rewrite H. Qed.

(** The direction the builder computes is the one the specification gives,
    wherever the specification gives one. *)
Lemma answer_direction_spec (md : MediaDesc) (mcap : MediaCapability)
    (d : string) :
  truthy (cap_direction mcap) = true ->
  spec_direction (md_direction md) (cap_direction mcap) = Some d ->
  answer_direction md mcap = d.
Proof.
  intros Ht. unfold spec_direction, answer_direction.
  destruct (md_direction md) as [off|].
  - destruct (str_eqb off "sendonly") eqn:E1.
    { apply str_eqb_eq in E1 as ->. now intros [= <-]. }
    destruct (str_eqb off "recvonly") eqn:E2.
    { apply str_eqb_eq in E2 as ->. now intros [= <-]. }
    destruct (str_eqb off "inactive") eqn:E3.
    { apply str_eqb_eq in E3 as ->. now intros [= <-]. }
    destruct (str_eqb off "sendrecv") eqn:E4; [|discriminate].
    apply str_eqb_eq in E4 as ->. intros [= <-].
    cbn. now rewrite Ht.
  - intros [= <-]. cbn. now rewrite Ht.
Qed.

(** An answer for one medium is either the rejecting m-line alone, or an
    m-line followed by the direction attribute. *)
Lemma answer_media_shape (md : MediaDesc) (local : SessionCapability)
    (mcap : MediaCapability) (lines : list string) :
  local_capability md local = Some mcap ->
  answer_media md local = Ok lines ->
  lines = [reject_line md] \/
  exists mline rest,
    lines = mline :: ("a=" +:+ answer_direction md mcap) :: rest.
Proof.
  intros Hc. unfold answer_media. rewrite Hc.
  destruct (answer_codecs _ _ _ _) as [acc|e]; [|discriminate].
  cbn [rbind]. destruct (chosen_any acc); cbn [negb].
  - intros [= <-]. right. eauto.
  - intros [= <-]. now left.
Qed.

(** A local capability whose direction is the empty string answers an
    offered sendrecv, or an offer without direction, with sendrecv. *)
Lemma answer_direction_default (md : MediaDesc) (mcap : MediaCapability) :
  cap_direction mcap = EmptyString ->
  md_direction md = None \/ md_direction md = Some "sendrecv" ->
  answer_direction md mcap = "sendrecv".
Proof.
  intros Hd [H|H]; unfold answer_direction; rewrite H, Hd; reflexivity.
Qed.

(** The media lines of an answer are the lines of each offered medium, one
    block after the other in the order of the offer. *)
Lemma answer_all_blocks (media : list MediaDesc) (local : SessionCapability)
    (lines : list string) :
  answer_all media local = Ok lines ->
  exists blocks,
    Forall2 (fun md b => answer_media md local = Ok b) media blocks /\
    lines = concat blocks.
Proof.
  revert lines. induction media as [|md rest IH]; intros lines; cbn [answer_all].
  - intros [= <-]. exists []. split; [constructor|reflexivity].
  - destruct (answer_media md local) as [b|e] eqn:Eb; [|discriminate].
    cbn [rbind].
    destruct (answer_all rest local) as [ls|e]; [|discriminate].
    cbn [rbind]. intros [= <-].
    destruct (IH ls eq_refl) as (blocks & HF & ->).
    exists (b :: blocks). split; [now constructor|reflexivity].
Qed.

(** The text [build_answer] returns: the five session lines, then the
    block of every offered medium, every line ended by CRLF. *)
Lemma build_answer_blocks (now : Z) (offer : SDPParsed)
    (local : SessionCapability) (text : string) :
  build_answer now offer local = Ok text ->
  exists blocks,
    Forall2 (fun md b => answer_media md local = Ok b)
      (sdp_media offer) blocks /\
    text = join CRLF
             (["v=0";
               _origin now (sess_origin_user local) (sess_ip local)
                 (sess_version local);
               "s=" +:+ sess_session_name local;
               "c=IN IP4 " +:+ sess_ip local;
               "t=" +:+ sdp_timing offer] ++ concat blocks) +:+ CRLF.
Proof.
  unfold build_answer.
  destruct (answer_all (sdp_media offer) local) as [ls|e] eqn:E;
    [|discriminate].
  cbn [rbind]. intros [= <-].
  destruct (answer_all_blocks _ _ _ E) as (blocks & HF & ->).
  now exists blocks.
Qed.

(** C8: for an offered media line that the answer accepts, the direction
    attribute of the answer is recvonly for an offered sendonly, sendonly
    for an offered recvonly, inactive for an offered inactive, and the
    configured direction of the local capability for an offered sendrecv or
    an absent direction. *)
Theorem C8_answer_direction (md : MediaDesc) (local : SessionCapability)
    (mcap : MediaCapability) (lines : list string) (d : string) :
  local_capability md local = Some mcap ->
  truthy (cap_direction mcap) = true ->
  spec_direction (md_direction md) (cap_direction mcap) = Some d ->
  answer_media md local = Ok lines ->
  lines = [reject_line md] \/
  exists mline rest, lines = mline :: ("a=" +:+ d) :: rest.
Proof.
  intros Hc Ht Hd Ha.
  rewrite <- (answer_direction_spec md mcap d Ht Hd).
  eapply answer_media_shape; eauto.
Qed.

Lemma C8_answer_direction_witness :
  ["m=audio 5004 RTP/AVP 101 0 8"; "a=recvonly"; "a=rtcp-mux";
   "a=rtpmap:101 telephone-event/8000"; "a=rtpmap:0 PCMU/8000";
   "a=rtpmap:8 PCMA/8000"; "a=fmtp:101 events=0-16"]
  = [reject_line sample_offer_media] \/
  exists mline rest,
    ["m=audio 5004 RTP/AVP 101 0 8"; "a=recvonly"; "a=rtcp-mux";
     "a=rtpmap:101 telephone-event/8000"; "a=rtpmap:0 PCMU/8000";
     "a=rtpmap:8 PCMA/8000"; "a=fmtp:101 events=0-16"]
    = mline :: ("a=" +:+ "recvonly") :: rest.
Proof.
  apply (C8_answer_direction sample_offer_media sample_local sample_audio);
    reflexivity.
Defined.

(** ** The payload types of an answer *)

Lemma length_insert_by {A : Type} (key : A -> Z) (x : A) (l : list A) :
  length (insert_by key x l) = S (length l).
Proof.
  induction l as [|y l IH]; [reflexivity|].
  cbn [insert_by]. destruct (key x <=? key y); cbn [length]; congruence.
Qed.

Lemma length_sort_by {A : Type} (key : A -> Z) (l : list A) :
  length (sort_by key l) = length l.
Proof.
  unfold sort_by. induction l as [|x l IH]; [reflexivity|].
  cbn [fold_right]. rewrite length_insert_by. cbn [length]. congruence.
Qed.

Lemma length_remote_codecs_of (md : MediaDesc) (fmts : list Z) :
  (length (remote_codecs_of md fmts) <= length fmts)%nat.
Proof.
  induction fmts as [|pt fmts IH]; [reflexivity|].
  cbn [remote_codecs_of].
  destruct (md_rtpmap md !! pt); [cbn [length]; lia|].
  destruct (pt =? 0); [cbn [length]; lia|].
  destruct (pt =? 8); cbn [length]; lia.
Qed.

Lemma local_codecs_from (codecs : list SDPCodec)
    (d : gmap codec_key SDPCodec) (k : codec_key) (c : SDPCodec) :
  fold_left (fun d c => <[key_of_codec c := c]> d) codecs d !! k = Some c ->
  In c codecs \/ d !! k = Some c.
Proof.
  revert d. induction codecs as [|x codecs IH]; intros d; cbn [fold_left].
  - now right.
  - intros H. destruct (IH _ H) as [Hin|Hd]; [left; now right|].
    destruct (decide (key_of_codec x = k)) as [<-|Hne].
    + rewrite lookup_insert_eq in Hd. injection Hd as ->. left. now left.
    + rewrite lookup_insert_ne in Hd by exact Hne. now right.
Qed.

Lemma local_codecs_in (codecs : list SDPCodec) (k : codec_key)
    (c : SDPCodec) :
  local_codecs_of codecs !! k = Some c -> In c codecs.
Proof.
  intros H. destruct (local_codecs_from codecs ∅ k c H) as [Hin|Hd];
    [exact Hin|]. now rewrite lookup_empty in Hd.
Qed.

Lemma forallb_snoc {A : Type} (p : A -> bool) (l : list A) (x : A) :
  forallb p (l ++ [x]) = forallb p l && p x.
Proof. rewrite forallb_app. cbn. now rewrite andb_true_r. Qed.

Lemma acc_ok_add (mcap : MediaCapability) (acc : answer_acc) (pt d : Z)
    (rl fl : list string) :
  acc_ok mcap acc -> pt ∉ answer_fmts acc -> known_pt mcap pt = true ->
  dyn_next acc <= d ->
  acc_ok mcap (mkAcc d (answer_fmts acc ++ [pt]) rl fl true).
Proof.
  intros (Hn & Hk & Hd & Hc) Hnot Hpt Hle. unfold acc_ok.
  cbn [answer_fmts dyn_next chosen_any]. repeat split.
  - apply NoDup_app. split; [exact Hn|]. split; [|apply NoDup_singleton].
    intros x Hx Hx'. apply list_elem_of_singleton in Hx'. now subst.
  - now rewrite forallb_snoc, Hk, Hpt.
  - lia.
  - intros _. now destruct (answer_fmts acc).
Qed.

Lemma acc_ok_next (mcap : MediaCapability) (acc acc' : answer_acc) (pt : Z) :
  acc_ok mcap acc -> next_dyn acc = Ok (pt, acc') ->
  acc_ok mcap acc' /\ answer_fmts acc' = answer_fmts acc /\
  96 <= pt < 128 /\ dyn_next acc' = pt + 1 /\ pt = dyn_next acc.
Proof.
  intros (Hn & Hk & Hd & Hc). unfold next_dyn.
  destruct (dyn_next acc <? 128) eqn:E; [|discriminate].
  apply Z.ltb_lt in E. intros [= <- <-].
  unfold acc_ok. cbn [answer_fmts dyn_next chosen_any].
  repeat split; try assumption; lia.
Qed.

Lemma known_static (mcap : MediaCapability) (c : SDPCodec) (pt : Z) :
  In c (cap_codecs mcap) -> codec_static_pt c = Some pt ->
  known_pt mcap pt = true.
Proof.
  intros Hin Hs. unfold known_pt.
  assert (existsb (fun c => bool_decide (codec_static_pt c = Some pt))
            (cap_codecs mcap) = true) as ->.
  { apply existsb_exists. exists c. split; [exact Hin|].
    now apply bool_decide_eq_true_2. }
  apply orb_true_r.
Qed.

Lemma known_dynamic (mcap : MediaCapability) (pt : Z) :
  96 <= pt < 128 -> known_pt mcap pt = true.
Proof.
  intros H. unfold known_pt.
  assert ((96 <=? pt) && (pt <? 128) = true) as ->.
  { apply andb_true_iff. split; [apply Z.leb_le|apply Z.ltb_lt]; lia. }
  now rewrite orb_true_r.
Qed.

Lemma known_preferred (mcap : MediaCapability) :
  known_pt mcap (cap_telephone_event_pt_pref mcap) = true.
Proof. unfold known_pt. now rewrite Z.eqb_refl. Qed.

Lemma acc_ok_choose (mcap : MediaCapability) (acc : answer_acc) (apt : Z)
    (rl fl : list string) :
  acc_ok mcap acc -> known_pt mcap apt = true ->
  acc_ok mcap
    (if bool_decide (apt ∈ answer_fmts acc) then acc
     else mkAcc (dyn_next acc) (answer_fmts acc ++ [apt]) rl fl true).
Proof.
  intros Hok Hk. destruct (bool_decide (apt ∈ answer_fmts acc)) eqn:E;
    [exact Hok|].
  apply bool_decide_eq_false in E. apply acc_ok_add; try assumption. lia.
Qed.

Lemma answer_codec_ok (mcap : MediaCapability) (rc : remote_codec)
    (acc acc' : answer_acc) :
  acc_ok mcap acc ->
  answer_codec mcap (local_codecs_of (cap_codecs mcap)) rc acc = Ok acc' ->
  acc_ok mcap acc'.
Proof.
  intros Hok. unfold answer_codec.
  destruct (local_codecs_of (cap_codecs mcap) !! rc.1.2) as [lc|] eqn:El;
    [|now intros [= <-]].
  apply local_codecs_in in El.
  destruct (bool_decide (rc.1.2 = te_key)); [now intros [= <-]|].
  destruct (codec_static_pt lc) as [spt|] eqn:Es; cbn [rbind].
  { destruct (bool_decide (spt ∈ answer_fmts acc)) eqn:E;
      intros [= <-]; [exact Hok|].
    apply bool_decide_eq_false in E.
    apply acc_ok_add; try assumption; [|lia].
    exact (known_static mcap lc spt El Es). }
  destruct (str_eqb (lower (codec_name lc)) "telephone-event");
    cbn [rbind negb].
  { rewrite andb_false_r. cbn [rbind].
    destruct (bool_decide (_ ∈ answer_fmts acc)) eqn:E;
      intros [= <-]; [exact Hok|].
    apply bool_decide_eq_false in E.
    apply acc_ok_add; try assumption; [|lia]. apply known_preferred. }
  destruct (next_dyn acc) as [[pt acc1]|e] eqn:E1; [|discriminate].
  cbn [rbind negb]. rewrite andb_true_r.
  destruct (acc_ok_next mcap acc acc1 pt Hok E1) as (Hok1 & Hf1 & Hpt & _).
  destruct (pt =? cap_telephone_event_pt_pref mcap).
  - destruct (next_dyn acc1) as [[pt2 acc2]|e] eqn:E2; [|discriminate].
    cbn [rbind].
    destruct (acc_ok_next mcap acc1 acc2 pt2 Hok1 E2)
      as (Hok2 & Hf2 & Hpt2 & _).
    destruct (bool_decide (pt2 ∈ answer_fmts acc2)) eqn:E;
      intros [= <-]; [exact Hok2|].
    apply bool_decide_eq_false in E.
    apply acc_ok_add; try assumption; [|lia]. now apply known_dynamic.
  - cbn [rbind].
    destruct (bool_decide (pt ∈ answer_fmts acc1)) eqn:E;
      intros [= <-]; [exact Hok1|].
    apply bool_decide_eq_false in E.
    apply acc_ok_add; try assumption; [|lia]. now apply known_dynamic.
Qed.

Lemma answer_codecs_ok (mcap : MediaCapability) (remote : list remote_codec)
    (acc acc' : answer_acc) :
  acc_ok mcap acc ->
  answer_codecs mcap (local_codecs_of (cap_codecs mcap)) remote acc = Ok acc' ->
  acc_ok mcap acc'.
Proof.
  revert acc. induction remote as [|rc remote IH]; intros acc Hok;
    cbn [answer_codecs]; [now intros [= <-]|].
  destruct (answer_codec _ _ rc acc) as [acc1|e] eqn:E; [|discriminate].
  cbn [rbind]. apply IH. exact (answer_codec_ok mcap rc acc acc1 Hok E).
Qed.

Lemma answer_telephone_event_ok (mcap : MediaCapability)
    (remote : list remote_codec) :
  acc_ok mcap
    (answer_telephone_event mcap (local_codecs_of (cap_codecs mcap)) remote
       (mkAcc 96 [] [] [] false)) /\
  dyn_next
    (answer_telephone_event mcap (local_codecs_of (cap_codecs mcap)) remote
       (mkAcc 96 [] [] [] false)) = 96.
Proof.
  assert (H0 : acc_ok mcap (mkAcc 96 [] [] [] false)).
  { unfold acc_ok. cbn. repeat split; try easy. constructor. }
  unfold answer_telephone_event.
  destruct (local_codecs_of (cap_codecs mcap) !! te_key); [|now split].
  match goal with
  | |- context [List.find ?f remote] =>
      destruct (List.find f remote) as [[[a b] rfmtp]|]; [|now split]
  end.
  split; [|reflexivity].
  apply (acc_ok_add mcap (mkAcc 96 [] [] [] false));
    cbn [answer_fmts dyn_next].
  - exact H0.
  - apply not_elem_of_nil.
  - apply known_preferred.
  - lia.
Qed.

(** X14: the payload types of an accepted medium.  The m-line of an
    answer that accepts a medium lists at least one payload type, none of
    them twice, and every one of them is the preferred type for
    telephone-event, a dynamic type from 96 to 127, or the static type of a
    codec of the local capability. *)
Theorem answer_formats_distinct (md : MediaDesc) (local : SessionCapability)
    (mcap : MediaCapability) (lines : list string) :
  local_capability md local = Some mcap ->
  answer_media md local = Ok lines ->
  lines = [reject_line md] \/
  exists fmts rest,
    lines = ("m=" +:+ md_media md +:+ " " +:+ str_of_Z (cap_port mcap)
               +:+ " " +:+ cap_profile mcap +:+ " "
               +:+ join " " (List.map str_of_Z fmts)) :: rest /\
    fmts <> [] /\ NoDup fmts /\ forallb (known_pt mcap) fmts = true.
Proof.
  intros Hc. unfold answer_media. rewrite Hc.
  destruct (answer_telephone_event_ok mcap
              (sort_by (fun rc : remote_codec =>
                          default 9999
                            (local_order_of (cap_codecs mcap) !! rc.1.2))
                 (remote_codecs_of md (md_fmts md)))) as [H0 _].
  destruct (answer_codecs _ _ _ _) as [acc|e] eqn:E; [|discriminate].
  cbn [rbind].
  destruct (answer_codecs_ok mcap _ _ acc H0 E) as (Hn & Hk & _ & Hne).
  destruct (chosen_any acc); cbn [negb]; intros [= <-]; [|now left].
  right. exists (answer_fmts acc). eexists. split; [reflexivity|].
  repeat split; try assumption. now apply Hne.
Qed.

Lemma answer_formats_distinct_witness :
  ["m=audio 5004 RTP/AVP 101 0 8"; "a=recvonly"; "a=rtcp-mux";
   "a=rtpmap:101 telephone-event/8000"; "a=rtpmap:0 PCMU/8000";
   "a=rtpmap:8 PCMA/8000"; "a=fmtp:101 events=0-16"]
  = [reject_line sample_offer_media] \/
  exists fmts rest,
    ["m=audio 5004 RTP/AVP 101 0 8"; "a=recvonly"; "a=rtcp-mux";
     "a=rtpmap:101 telephone-event/8000"; "a=rtpmap:0 PCMU/8000";
     "a=rtpmap:8 PCMA/8000"; "a=fmtp:101 events=0-16"]
    = ("m=" +:+ md_media sample_offer_media +:+ " "
         +:+ str_of_Z (cap_port sample_audio) +:+ " "
         +:+ cap_profile sample_audio +:+ " "
         +:+ join " " (List.map str_of_Z fmts)) :: rest /\
    fmts <> [] /\ NoDup fmts /\ forallb (known_pt sample_audio) fmts = true.
Proof.
  apply (answer_formats_distinct sample_offer_media sample_local
           sample_audio); reflexivity.
Defined.

(** ** Answers that cannot fail *)

Lemma drawn_within_S (mcap : MediaCapability) (k : nat) (acc : answer_acc) :
  drawn_within mcap k acc -> drawn_within mcap (S k) acc.
Proof. unfold drawn_within. lia. Qed.

Lemma answer_codec_returns (mcap : MediaCapability)
    (lcs : gmap codec_key SDPCodec) (rc : remote_codec) (k : nat)
    (acc : answer_acc) :
  drawn_within mcap k acc -> (k <= 30)%nat ->
  exists acc',
    answer_codec mcap lcs rc acc = Ok acc' /\ drawn_within mcap (S k) acc'.
Proof.
  intros Hd Hk. pose proof (drawn_within_S mcap k acc Hd) as HdS.
  unfold answer_codec.
  destruct (lcs !! rc.1.2) as [lc|]; [|eauto].
  destruct (bool_decide (rc.1.2 = te_key)); [eauto|].
  destruct (codec_static_pt lc) as [spt|]; cbn [rbind].
  { destruct (bool_decide (spt ∈ answer_fmts acc)); eauto. }
  destruct (str_eqb (lower (codec_name lc)) "telephone-event");
    cbn [rbind negb].
  { rewrite andb_false_r. cbn [rbind].
    destruct (bool_decide (_ ∈ answer_fmts acc)); eauto. }
  unfold next_dyn at 1.
  assert (E1 : (dyn_next acc <? 128) = true).
  { apply Z.ltb_lt. unfold drawn_within in Hd. lia. }
  rewrite E1. cbn [rbind negb]. rewrite andb_true_r.
  destruct (dyn_next acc =? cap_telephone_event_pt_pref mcap) eqn:Ete.
  - apply Z.eqb_eq in Ete. unfold next_dyn.
    cbn [dyn_next answer_fmts rtpmap_lines fmtp_lines chosen_any].
    assert (E2 : (dyn_next acc + 1 <? 128) = true).
    { apply Z.ltb_lt. unfold drawn_within in Hd. lia. }
    rewrite E2. cbn [rbind answer_fmts dyn_next].
    destruct (bool_decide (_ ∈ answer_fmts acc)); eexists;
      (split; [reflexivity|]); unfold drawn_within in *;
      cbn [dyn_next]; lia.
  - cbn [rbind answer_fmts dyn_next].
    destruct (bool_decide (_ ∈ answer_fmts acc)); eexists;
      (split; [reflexivity|]); unfold drawn_within in *;
      cbn [dyn_next]; lia.
Qed.

Lemma answer_codecs_return (mcap : MediaCapability)
    (lcs : gmap codec_key SDPCodec) (remote : list remote_codec) (k : nat)
    (acc : answer_acc) :
  drawn_within mcap k acc -> (k + length remote <= 31)%nat ->
  exists acc', answer_codecs mcap lcs remote acc = Ok acc'.
Proof.
  revert k acc. induction remote as [|rc remote IH]; intros k acc Hd Hk;
    cbn [answer_codecs]; [eauto|].
  cbn [length] in Hk.
  destruct (answer_codec_returns mcap lcs rc k acc Hd) as (acc1 & -> & Hd1);
    [lia|].
  cbn [rbind]. apply (IH (S k)); [exact Hd1|lia].
Qed.

Lemma answer_media_returns (md : MediaDesc) (local : SessionCapability) :
  (length (md_fmts md) <= 31)%nat ->
  exists lines, answer_media md local = Ok lines.
Proof.
  intros Hlen. unfold answer_media.
  destruct (local_capability md local) as [mcap|]; [|eauto].
  set (remote := sort_by _ (remote_codecs_of md (md_fmts md))).
  destruct (answer_telephone_event_ok mcap remote) as [_ H96].
  destruct (answer_codecs_return mcap (local_codecs_of (cap_codecs mcap))
              remote 0
              (answer_telephone_event mcap
                 (local_codecs_of (cap_codecs mcap)) remote
                 (mkAcc 96 [] [] [] false))) as [acc ->].
  - unfold drawn_within. rewrite H96. lia.
  - unfold remote. rewrite length_sort_by.
    pose proof (length_remote_codecs_of md (md_fmts md)). lia.
  - cbn [rbind]. destruct (negb (chosen_any acc)); eauto.
Qed.

(** X15: [build_answer] returns an answer for every offer whose media
    lines name at most 31 formats each: the iterator over the dynamic
    payload types 96 to 127, from which a round of the loop over the codecs
    draws at most twice, and twice only once, cannot run out. *)
Theorem build_answer_returns (now : Z) (offer : SDPParsed)
    (local : SessionCapability) :
  Forall (fun md => (length (md_fmts md) <= 31)%nat) (sdp_media offer) ->
  exists text, build_answer now offer local = Ok text.
Proof.
  intros H. unfold build_answer.
  assert (Ha : exists ls, answer_all (sdp_media offer) local = Ok ls).
  { induction H as [|md media Hmd _ IH]; cbn [answer_all]; [eauto|].
    destruct (answer_media_returns md local Hmd) as [ls ->].
    destruct IH as [ls' ->]. cbn [rbind]. eauto. }
  destruct Ha as [ls ->]. cbn [rbind]. eauto.
Qed.

Lemma build_answer_returns_witness :
  exists text,
    build_answer 0
      (mkSDPParsed "alice 0 0 IN IP4 192.0.2.7" "call" None "0 0"
         [sample_offer_media]) sample_local = Ok text.
Proof.
  apply (build_answer_returns 0
           (mkSDPParsed "alice 0 0 IN IP4 192.0.2.7" "call" None "0 0"
              [sample_offer_media]) sample_local).
  repeat constructor.
Defined.

(** ** The version of a new offer *)

Lemma words_go_word (w rest : string) :
  no_space w = true ->
  words_go (w +:+ String " " rest) = (w, split_ws rest).
Proof.
  unfold no_space. induction w as [|c w IH]; intros H.
  - rewrite str_app_nil_l. cbn [words_go]. unfold split_ws.
    destruct (words_go rest) as [x xs].
    change (is_space " ") with true. reflexivity.
  - cbn [str_forall] in H. apply andb_true_iff in H as [Hc Hw].
    rewrite str_app_cons. cbn [words_go]. rewrite (IH Hw).
    apply negb_true_iff in Hc. now rewrite Hc.
Qed.

Lemma split_ws_word (w rest : string) :
  no_space w = true -> truthy w = true ->
  split_ws (w +:+ String " " rest) = w :: split_ws rest.
Proof.
  intros Hw Ht. unfold split_ws at 1. rewrite words_go_word by exact Hw.
  unfold truthy in Ht. apply negb_true_iff in Ht. now rewrite Ht.
Qed.

(** X16: the version after an origin line.  For the o= line [_origin]
    writes for a user name without blanks, [next_reoffer_version] is the
    version of that line plus one, whatever the clock says. *)
Theorem reoffer_version_follows_origin (now now' version : Z)
    (user ip : string) :
  no_space user = true ->
  next_reoffer_version now' (_origin now user ip version) = version + 1.
Proof.
  intros Hu. unfold next_reoffer_version.
  assert (E : _origin now user ip version
              = ("o=" +:+ user)
                  +:+ String " "
                        (str_of_Z now
                           +:+ String " "
                                 (str_of_Z version
                                    +:+ String " " ("IN IP4 " +:+ ip)))).
  { unfold _origin. rewrite str_app_assoc. reflexivity. }
  rewrite E.
  rewrite split_ws_word; [|exact Hu|reflexivity].
  rewrite split_ws_word;
    [|apply str_of_Z_no_space|apply str_of_Z_truthy].
  rewrite split_ws_word;
    [|apply str_of_Z_no_space|apply str_of_Z_truthy].
  cbn [lookup list_lookup]. now rewrite py_int_str_of_Z.
Qed.

Lemma reoffer_version_follows_origin_witness :
  next_reoffer_version 1700000100 (_origin 1700000000 "tinysip" "192.0.2.1" 4)
  = 4 + 1.
Proof.
  apply (reoffer_version_follows_origin 1700000000 1700000100 4 "tinysip"
           "192.0.2.1").
  reflexivity.
Defined.

End SdpFacts.

(* ================================================================== *)
(** * Facts about tinysip/fsm.py *)
(* ================================================================== *)

Module FsmFacts.
Import Py Message Auth Fsm PyFacts AuthFacts.

(** ** Timers *)

Section Timers.

Variable transport_ok : list Event -> string -> string * Z -> bool.

(** Timers B and F end the transaction: the timeout is surfaced, the state
    is TERMINATED and the cleanup is handed to the event loop. *)
Lemma timer_B_F_terminates (t : TimerType) (tx : SIPTransaction) (env : Env) :
  t = TIMER_B \/ t = TIMER_F ->
  _on_timer_fired transport_ok t (tx, env)
  = (Ok tt,
     (set_terminated_event (set_state TERMINATED tx),
      mkEnv (trace env ++ [on_timeout (tx_id tx) t;
                           create_task_cleanup (tx_id tx)])
        (uuid_draws env))).
Proof.
  intros Ht.
  replace (trace env ++ [on_timeout (tx_id tx) t;
                         create_task_cleanup (tx_id tx)])
    with ((trace env ++ [on_timeout (tx_id tx) t])
            ++ [create_task_cleanup (tx_id tx)])
    by now rewrite <- List.app_assoc.
  now destruct Ht as [-> | ->].
Qed.

(** C2, for Timer H: the timeout is surfaced, and that is all.  The
    transaction stays as it is, in whatever state it was. *)
Theorem C2_timer_H_leaves_the_state (tx : SIPTransaction) (env : Env) :
  _on_timer_fired transport_ok TIMER_H (tx, env)
  = (Ok tt,
     (tx, mkEnv (trace env ++ [on_timeout (tx_id tx) TIMER_H])
            (uuid_draws env))).
Proof. reflexivity. Qed.

End Timers.

(** The same on the way a server reaches Timer H: an INVITE is received,
    answered with 486, and Timer H fires. *)
Lemma timer_H_after_busy_here :
  let s1 := after (process_request lossless uuid0 sample_invite)
              (manager0, env0) in
  let s2 := after (send_response lossless id0 "z9hG4bK776asdhds" 486
                     "Busy Here" None) s1 in
  let s3 := after (fire_timer lossless "z9hG4bK776asdhds" TIMER_H) s2 in
  (state <$> _transactions s2.1 !! "z9hG4bK776asdhds") = Some COMPLETED /\
  (_active_timers <$> _transactions s2.1 !! "z9hG4bK776asdhds")
    = Some (<[TIMER_G := 500]> (<[TIMER_H := 32000]> ∅)) /\
  (state <$> _transactions s3.1 !! "z9hG4bK776asdhds") = Some COMPLETED /\
  last (trace s3.2) = Some (on_timeout "z9hG4bK776asdhds" TIMER_H).
Proof. vm_compute. repeat split. Qed.

(** ** Requests at the transaction manager *)

Section Manager.

Variable transport_ok : list Event -> string -> string * Z -> bool.
Variable uuid_text : nat -> string.

Lemma generate_transaction_id_branch (m : SIPMessage) (st : MgrSt) :
  truthy (via_branch m) = true ->
  generate_transaction_id uuid_text m st = (Ok (via_branch m), st).
Proof.
  intros H. unfold generate_transaction_id. now rewrite H.
Qed.

(** An ACK on the branch of a transaction in the table is handed to that
    transaction, and the table keeps its keys. *)
Lemma ack_routed_to_transaction (req : SIPMessage) (mgr : TransactionManager)
    (env : Env) (tx : SIPTransaction) :
  method req = Some ACK ->
  truthy (via_branch req) = true ->
  _transactions mgr !! via_branch req = Some tx ->
  process_request transport_ok uuid_text req (mgr, env)
  = (on_tx tx (process_message transport_ok req) ;;; ret (via_branch req))
      (mgr, env).
Proof.
  intros Hm Hb Ht. unfold process_request. rewrite Hm.
  rewrite bool_decide_eq_true_2 by reflexivity.
  unfold bind at 1. rewrite generate_transaction_id_branch by exact Hb.
  unfold bind at 1, manager. cbn [fst]. now rewrite Ht.
Qed.

(** C1, where it fails: an ACK on a branch that no transaction has makes
    the manager create a transaction for it, a non-INVITE server
    transaction in state TRYING, and surface the ACK as a new request. *)
Theorem C1_ack_without_transaction_creates_one (req : SIPMessage)
    (mgr : TransactionManager) (env : Env) :
  method req = Some ACK ->
  truthy (via_branch req) = true ->
  _transactions mgr !! via_branch req = None ->
  exists tx mgr',
    process_request transport_ok uuid_text req (mgr, env)
    = (Ok (via_branch req),
       (mgr', mkEnv (trace env ++ [on_request_received (via_branch req) req])
                (uuid_draws env))) /\
    _transactions mgr' = <[via_branch req := tx]> (_transactions mgr) /\
    tx_id tx = via_branch req /\
    kind tx = NON_INVITE_SERVER /\
    state tx = TRYING /\
    request tx = Some req.
Proof.
  intros Hm Hb Ht.
  exists (set_state TRYING
            (set_request (Some req)
               (SIPTransaction_new (via_branch req) NON_INVITE_SERVER
                  (tm_timers mgr)))).
  eexists. split; [|split; [|repeat split]].
  - unfold process_request. rewrite Hm.
    rewrite bool_decide_eq_true_2 by reflexivity.
    unfold bind at 1. rewrite generate_transaction_id_branch by exact Hb.
    unfold bind at 1, manager. cbn [fst]. rewrite Ht.
    unfold create_server_transaction.
    unfold bind at 1. rewrite generate_transaction_id_branch by exact Hb.
    unfold bind at 1, manager. cbn [fst]. rewrite Ht, Hm.
    rewrite bool_decide_eq_false_2 by discriminate.
    reflexivity.
  - cbn. apply insert_insert_eq.
Qed.

(** ** Final responses at a non-INVITE client *)

(** C3 (amended): a final response moves a non-INVITE client transaction
    in TRYING or PROCEEDING straight to TERMINATED.  The response is
    surfaced, the cleanup is handed to the event loop, no timer is started
    (Timer K is never set), Timers E and F are cancelled at once in TRYING,
    and the cleanup cancels whatever timer is left. *)
Theorem C3_final_response_terminates (tx : SIPTransaction) (env : Env)
    (resp : SIPMessage) (code : Z) :
  kind tx = NON_INVITE_CLIENT ->
  state tx = TRYING \/ state tx = PROCEEDING ->
  status_code resp = Some code ->
  200 <= code ->
  exists tx',
    process_message transport_ok resp (tx, env)
    = (Ok tt,
       (tx', mkEnv (trace env ++ [create_task_cleanup (tx_id tx);
                                  on_final_response (tx_id tx) resp])
               (uuid_draws env))) /\
    state tx' = TERMINATED /\
    state tx' <> COMPLETED /\
    _terminated_event tx' = true /\
    _active_timers tx' !! TIMER_K = _active_timers tx !! TIMER_K /\
    (forall t, is_Some (_active_timers tx' !! t) ->
               is_Some (_active_timers tx !! t)) /\
    (state tx = TRYING ->
     _active_timers tx' !! TIMER_E = None /\
     _active_timers tx' !! TIMER_F = None) /\
    _active_timers (after _cleanup (tx', env)).1 = ∅.
Proof.
  intros Hk Hs Hc Hge.
  assert (H200 : (200 <=? code) = true) by (apply Z.leb_le; lia).
  assert (Htr : trace env ++ [create_task_cleanup (tx_id tx);
                              on_final_response (tx_id tx) resp]
                = (trace env ++ [create_task_cleanup (tx_id tx)])
                    ++ [on_final_response (tx_id tx) resp])
    by now rewrite <- List.app_assoc.
  rewrite Htr.
  unfold process_message, bind at 1, self. cbn [fst]. rewrite Hk.
  unfold NonInviteClient_process_message. rewrite Hc.
  unfold bind at 1, self. cbn [fst].
  destruct Hs as [Hs|Hs]; rewrite Hs.
  - assert (H1xx : (100 <=? code) && (code <=? 199) = false).
    { apply andb_false_iff. right. apply Z.leb_gt. lia. }
    cbn [bool_decide decide_rel]. rewrite H1xx, H200.
    eexists. split; [reflexivity|]. cbn.
    repeat split; try discriminate.
    + now rewrite lookup_delete_ne, lookup_delete_ne by discriminate.
    + intros t [d Hd].
      destruct (decide (t = TIMER_F)) as [->|Hf];
        [now rewrite lookup_delete_eq in Hd|].
      rewrite lookup_delete_ne in Hd by congruence.
      destruct (decide (t = TIMER_E)) as [->|He];
        [now rewrite lookup_delete_eq in Hd|].
      rewrite lookup_delete_ne in Hd by congruence. eauto.
    + rewrite lookup_delete_ne by discriminate. apply lookup_delete_eq.
    + apply lookup_delete_eq.
  - cbn [bool_decide decide_rel]. rewrite H200.
    eexists. split; [reflexivity|]. cbn.
    repeat split; try discriminate; auto.
Qed.

End Manager.

Lemma C1_ack_without_transaction_creates_one_witness :
  exists tx mgr',
    process_request lossless uuid0 sample_ack
      (after (process_request lossless uuid0 sample_invite) (manager0, env0))
    = (Ok (via_branch sample_ack),
       (mgr',
        mkEnv
          (trace (after (process_request lossless uuid0 sample_invite)
                    (manager0, env0)).2
             ++ [on_request_received (via_branch sample_ack) sample_ack])
          (uuid_draws (after (process_request lossless uuid0 sample_invite)
                         (manager0, env0)).2))) /\
    _transactions mgr'
    = <[via_branch sample_ack := tx]>
        (_transactions (after (process_request lossless uuid0 sample_invite)
                          (manager0, env0)).1) /\
    tx_id tx = via_branch sample_ack /\
    kind tx = NON_INVITE_SERVER /\
    state tx = TRYING /\
    request tx = Some sample_ack.
Proof.
  apply (C1_ack_without_transaction_creates_one lossless uuid0 sample_ack
           (after (process_request lossless uuid0 sample_invite)
              (manager0, env0)).1
           (after (process_request lossless uuid0 sample_invite)
              (manager0, env0)).2);
    reflexivity.
Defined.

Lemma C3_final_response_terminates_witness :
  exists tx',
    process_message lossless (response_to sample_options 200 "a6c85cf" [])
      (trying_options, env0)
    = (Ok tt,
       (tx',
        mkEnv
          (trace env0 ++
             [create_task_cleanup (tx_id trying_options);
              on_final_response (tx_id trying_options)
                (response_to sample_options 200 "a6c85cf" [])])
          (uuid_draws env0))) /\
    state tx' = TERMINATED /\
    state tx' <> COMPLETED /\
    _terminated_event tx' = true /\
    _active_timers tx' !! TIMER_K = _active_timers trying_options !! TIMER_K /\
    (forall t, is_Some (_active_timers tx' !! t) ->
               is_Some (_active_timers trying_options !! t)) /\
    (state trying_options = TRYING ->
     _active_timers tx' !! TIMER_E = None /\
     _active_timers tx' !! TIMER_F = None) /\
    _active_timers (after _cleanup (tx', env0)).1 = ∅.
Proof.
  apply (C3_final_response_terminates lossless trying_options env0
           (response_to sample_options 200 "a6c85cf" []) 200);
    [reflexivity|now left|reflexivity|lia].
Defined.

(** C3, as stated, fails: the OPTIONS transaction of [sample_options] is in
    TRYING with Timers E and F; after the 200 it is TERMINATED, not
    COMPLETED, and no Timer K runs. *)
Lemma C3_counterexample :
  exists tx tx',
    _transactions
      (after (create_client_transaction lossless uuid0 sample_options)
         (manager0, env0)).1 !! "z9hG4bKhjhs8ass877" = Some tx /\
    kind tx = NON_INVITE_CLIENT /\
    state tx = TRYING /\
    _transactions
      (after (process_response lossless uuid0
                (response_to sample_options 200 "a6c85cf" []))
         (after (create_client_transaction lossless uuid0 sample_options)
            (manager0, env0))).1 !! "z9hG4bKhjhs8ass877" = Some tx' /\
    state tx' = TERMINATED /\
    state tx' <> COMPLETED /\
    _active_timers tx' !! TIMER_K = None.
Proof.
  eexists _, _. split; [vm_compute; reflexivity|].
  split; [reflexivity|]. split; [reflexivity|].
  split; [vm_compute; reflexivity|].
  split; [reflexivity|]. split; [discriminate|reflexivity].
Qed.

(** ** Challenges at the user agent *)

Section Challenge.

Variable transport_ok : list Event -> string -> string * Z -> bool.
Variable uuid_text : nat -> string.
Variable md5 sha256 : string -> string.
Variable entropy uuid_hex : nat -> string.

(** C6: a 401 or 407 whose realm has no credentials produces no
    authenticated request.  The user agent, with its transaction table and
    its authenticator, is left as it was, nothing is sent, and the failure
    is reported by a warning when the challenged transaction is known. *)
Theorem C6_challenge_without_credentials (ua : SIPUserAgent) (env : Env)
    (id : string) (resp : SIPMessage) (realm : string) :
  status_code resp = Some 401 \/ status_code resp = Some 407 ->
  challenge_realm resp = Some realm ->
  credentials (authenticator ua) !! realm = None ->
  (forall req,
     create_authenticated_request md5 sha256 entropy uuid_hex req resp
       (authenticator ua) = (Ok Original, authenticator ua)) /\
  exists events,
    _handle_authentication_challenge transport_ok uuid_text md5 sha256
      entropy uuid_hex id resp (ua, env)
    = (Ok tt, (ua, mkEnv (trace env ++ events) (uuid_draws env))) /\
    (events = [] \/ events = [warning "Authentication failed"]) /\
    (forall tx req,
       get_transaction id (tx_manager ua) = Some tx ->
       request tx = Some req ->
       events = [warning "Authentication failed"]).
Proof.
  intros Hs Hr Hc.
  assert (Hcar : forall req,
            create_authenticated_request md5 sha256 entropy uuid_hex req resp
              (authenticator ua) = (Ok Original, authenticator ua)).
  { intros req.
    now apply (challenge_without_credentials md5 sha256 entropy uuid_hex
                 req resp (authenticator ua) realm). }
  split; [exact Hcar|].
  unfold _handle_authentication_challenge, bind at 1, agent. cbn [fst].
  destruct (get_transaction id (tx_manager ua)) as [tx|] eqn:Etx.
  - destruct (request tx) as [req|] eqn:Ereq.
    + exists [warning "Authentication failed"]. rewrite (Hcar req).
      split; [|split; [now right|reflexivity]].
      destruct ua, env. reflexivity.
    + exists []. rewrite List.app_nil_r.
      split; [|split; [now left|congruence]].
      destruct env. reflexivity.
  - exists []. rewrite List.app_nil_r.
    split; [|split; [now left|congruence]].
    destruct env. reflexivity.
Qed.

End Challenge.

Lemma C6_challenge_without_credentials_witness :
  (forall req,
     create_authenticated_request (mark "md5") (mark "sha256") hex0 hex0
       req sample_challenge (authenticator registering_agent.1)
     = (Ok Original, authenticator registering_agent.1)) /\
  exists events,
    _handle_authentication_challenge lossless uuid0 (mark "md5")
      (mark "sha256") hex0 hex0 "z9hG4bKnashds7" sample_challenge
      (registering_agent.1, registering_agent.2)
    = (Ok tt,
       (registering_agent.1,
        mkEnv (trace registering_agent.2 ++ events)
          (uuid_draws registering_agent.2))) /\
    (events = [] \/ events = [warning "Authentication failed"]) /\
    (forall tx req,
       get_transaction "z9hG4bKnashds7" (tx_manager registering_agent.1)
       = Some tx ->
       request tx = Some req ->
       events = [warning "Authentication failed"]).
Proof.
  apply (C6_challenge_without_credentials lossless uuid0 (mark "md5")
           (mark "sha256") hex0 hex0 registering_agent.1 registering_agent.2
           "z9hG4bKnashds7" sample_challenge "example.org");
    [now left|reflexivity|reflexivity].
Defined.

(** ** The remote tag of a dialog *)

Lemma search_param_truthy (key s tag : string) :
  search_param key s = Some tag -> truthy tag = true.
Proof.
  induction s as [|c s IH]; cbn [search_param].
  - destruct (span _ _) as [run r]. destruct (startswith key EmptyString);
      cbn [andb]; [|discriminate].
    destruct (truthy run) eqn:E; [now intros [= <-]|discriminate].
  - destruct (span _ _) as [run r].
    destruct (startswith key (String c s) && truthy run) eqn:E; [|exact IH].
    apply andb_true_iff in E as [_ E]. now intros [= <-].
Qed.

(** A provisional response leaves a remote tag that is set as it is. *)
Lemma provisional_keeps_remote_tag (dm : DialogManager) (env : Env)
    (id : string) (dialog : SIPDialog) (resp : SIPMessage) (code : Z) :
  _dialogs dm !! id = Some dialog ->
  truthy_opt (remote_tag dialog) = true ->
  status_code resp = Some code ->
  100 <= code <= 199 ->
  update_dialog_from_response id resp (dm, env)
  = (Ok (Some dialog), (dm, env)).
Proof.
  intros Hd Ht Hc Hr.
  unfold update_dialog_from_response, bind at 1. cbn [fst]. rewrite Hd, Hc.
  replace ((100 <=? code) && (code <=? 199)) with true
    by (symmetry; apply andb_true_iff; split; apply Z.leb_le; lia).
  now rewrite Ht, andb_false_r.
Qed.

(** C7, where it fails: a 2xx that carries a To tag sets the remote tag of
    the dialog to that tag, whatever the remote tag was before. *)
Theorem C7_success_response_overwrites_remote_tag (dm : DialogManager)
    (env : Env) (id : string) (dialog : SIPDialog) (resp : SIPMessage)
    (code : Z) (tag : string) :
  _dialogs dm !! id = Some dialog ->
  status_code resp = Some code ->
  200 <= code <= 299 ->
  _extract_tag (header_or_empty "to" resp) = Some tag ->
  exists d' dm',
    update_dialog_from_response id resp (dm, env)
    = (Ok (Some d'),
       (dm', mkEnv (trace env ++ [on_dialog_confirmed id]) (uuid_draws env)))
    /\ _dialogs dm' !! id = Some d'
    /\ remote_tag d' = Some tag
    /\ dialog_state d' = DIALOG_CONFIRMED.
Proof.
  intros Hd Hc Hr Ht.
  pose proof (search_param_truthy _ _ _ Ht) as Htr.
  exists (set_remote (Some tag) DIALOG_CONFIRMED dialog). eexists.
  split; [|split; [|split; reflexivity]].
  - unfold update_dialog_from_response, bind at 1. cbn [fst]. rewrite Hd, Hc.
    replace ((100 <=? code) && (code <=? 199)) with false
      by (symmetry; apply andb_false_iff; right; apply Z.leb_gt; lia).
    replace ((200 <=? code) && (code <=? 299)) with true
      by (symmetry; apply andb_true_iff; split; apply Z.leb_le; lia).
    rewrite Ht. cbn [truthy_opt]. rewrite Htr. reflexivity.
  - cbn. apply lookup_insert_eq.
Qed.

Lemma C7_success_response_overwrites_remote_tag_witness :
  exists d' dm',
    update_dialog_from_response (dialog_id early_dialog) ok_from_other_branch
      (early_dialogs, env0)
    = (Ok (Some d'),
       (dm',
        mkEnv (trace env0 ++ [on_dialog_confirmed (dialog_id early_dialog)])
          (uuid_draws env0)))
    /\ _dialogs dm' !! dialog_id early_dialog = Some d'
    /\ remote_tag d' = Some "b7d96e0"
    /\ dialog_state d' = DIALOG_CONFIRMED.
Proof.
  apply (C7_success_response_overwrites_remote_tag early_dialogs env0
           (dialog_id early_dialog) early_dialog ok_from_other_branch 200
           "b7d96e0");
    [reflexivity|reflexivity|lia|reflexivity].
Defined.

(** The remote tag a6c85cf learned from the 180 is replaced by the tag of
    the 200. *)
Lemma remote_tag_overwritten :
  remote_tag early_dialog = Some "a6c85cf" /\
  (remote_tag <$>
     _dialogs (after (update_dialog_from_response (dialog_id early_dialog)
                        ok_from_other_branch) (early_dialogs, env0)).1
       !! dialog_id early_dialog) = Some (Some "b7d96e0").
Proof. split; [reflexivity|vm_compute; reflexivity]. Qed.

Ltac mred :=
  cbv beta iota zeta delta
    [_on_timer_fired _handle_retransmission _send_request _send_response
     the_timers _start_timer _cancel_timer _transition_to _cleanup
     InviteClient_start InviteClient_process_message NonInviteClient_start
     NonInviteClient_process_message _send_response_internal
     InviteServer_start InviteServer_send_provisional_response
     InviteServer_send_final_response InviteServer_process_message
     NonInviteServer_start NonInviteServer_send_provisional_response
     NonInviteServer_send_final_response NonInviteServer_process_message
     _create_response start process_message send_final_response
     is_request update_tx emit ask_env self modify bind ret raise get after
     fst snd
     trace uuid_draws tx_id kind state timers request response
     _active_timers _terminated_event _retransmission_count
     _max_retransmissions set_state set_request set_response
     set_active_timers set_terminated_event set_retransmission_count].

Ltac mknown :=
  match goal with
  | H : ?c = true |- context [if ?c then _ else _] => rewrite H
  | H : ?c = false |- context [if ?c then _ else _] => rewrite H
  | H : ?o = Some _
    |- context [match ?o with Some _ => _ | None => _ end] => rewrite H
  | H : ?o = None
    |- context [match ?o with Some _ => _ | None => _ end] => rewrite H
  | |- context [if ?c then _ else _] =>
      lazymatch c with context [bool_decide _] => idtac end;
      let v := eval vm_compute in c in
      lazymatch v with
      | true => change c with true
      | false => change c with false
      end
  end.

Ltac mrun := repeat (mred; mknown); mred.

Ltac mcases :=
  repeat (mred;
          first
            [ mknown
            | match goal with
              | |- context [if ?c then _ else _] => destruct c eqn:?
              | |- context [match ?o with Some _ => _ | None => _ end] =>
                  destruct o eqn:?
              end ]);
  mred.

Section Transactions.

Variable transport_ok : list Event -> string -> string * Z -> bool.

Lemma sent_app (a b : list Event) : sent (a ++ b) = sent a ++ sent b.
Proof. apply omap_app. Qed.

Lemma retransmission_step (t : TimerType) (tx : SIPTransaction) (env : Env)
    (ts : SIPTimers) :
  bool_decide (t ∈ [TIMER_A; TIMER_E; TIMER_G]) = true ->
  timers tx = Some ts ->
  _retransmission_count tx < _max_retransmissions tx ->
  exists evs,
    _on_timer_fired transport_ok t (tx, env)
    = (Ok tt,
       (set_active_timers
          (<[t := Z.min (T2 ts)
                    (2 ^ (_retransmission_count tx + 1) * T1 ts)]>
             (_active_timers tx))
          (set_retransmission_count (_retransmission_count tx + 1) tx),
        mkEnv (trace env ++ on_timeout (tx_id tx) t :: evs)
          (uuid_draws env))) /\
    (length (sent evs) <= 1)%nat.
Proof.
  intros Ht Hts Hlt.
  assert (Hle : (_max_retransmissions tx <=? _retransmission_count tx) = false)
    by (apply Z.leb_gt; lia).
  assert (HBF : bool_decide (t ∈ [TIMER_B; TIMER_F]) = false)
    by (destruct t; try reflexivity; discriminate).
  assert (HD : bool_decide (t ∈ [TIMER_D; TIMER_I; TIMER_J; TIMER_K]) = false)
    by (destruct t; try reflexivity; discriminate).
  destruct tx as [id k st tm rq rs at_ te rc mx], env as [tr dr].
  cbn [timers _retransmission_count _max_retransmissions] in *. subst tm.
  mred. rewrite HBF, HD, Ht, Hle.
  mcases; eexists;
    (split; [rewrite <- ?List.app_assoc; reflexivity|cbn; lia]).
Qed.

Lemma retransmission_end (t : TimerType) (tx : SIPTransaction) (env : Env) :
  bool_decide (t ∈ [TIMER_A; TIMER_E; TIMER_G]) = true ->
  _max_retransmissions tx <= _retransmission_count tx ->
  _on_timer_fired transport_ok t (tx, env)
  = (Ok tt,
     (set_terminated_event (set_state TERMINATED tx),
      mkEnv (trace env ++ [on_timeout (tx_id tx) t;
                           create_task_cleanup (tx_id tx)])
        (uuid_draws env))).
Proof.
  intros Ht Hle. apply Z.leb_le in Hle.
  assert (HBF : bool_decide (t ∈ [TIMER_B; TIMER_F]) = false)
    by (destruct t; try reflexivity; discriminate).
  assert (HD : bool_decide (t ∈ [TIMER_D; TIMER_I; TIMER_J; TIMER_K]) = false)
    by (destruct t; try reflexivity; discriminate).
  destruct tx as [id k st tm rq rs at_ te rc mx], env as [tr dr].
  cbn [_retransmission_count _max_retransmissions] in *.
  mred. rewrite HBF, HD, Ht, Hle. mred.
  rewrite bool_decide_eq_true_2 by reflexivity. mred.
  now rewrite <- List.app_assoc.
Qed.

Lemma fire_times_retransmits (t : TimerType) (ts : SIPTimers) (n : nat) :
  bool_decide (t ∈ [TIMER_A; TIMER_E; TIMER_G]) = true ->
  forall (tx : SIPTransaction) (env : Env),
    timers tx = Some ts ->
    _retransmission_count tx + Z.of_nat n <= _max_retransmissions tx ->
    exists tx' evs,
      fire_times transport_ok t n (tx, env)
      = (Ok tt, (tx', mkEnv (trace env ++ evs) (uuid_draws env))) /\
      state tx' = state tx /\
      _retransmission_count tx' = _retransmission_count tx + Z.of_nat n /\
      _max_retransmissions tx' = _max_retransmissions tx /\
      tx_id tx' = tx_id tx /\
      timers tx' = Some ts /\
      (length (sent evs) <= n)%nat.
Proof.
  intros Ht. induction n as [|n IH]; intros tx env Hts Hle.
  - exists tx, []. cbn [fire_times]. unfold ret.
    rewrite app_nil_r, Z.add_0_r. destruct env.
    repeat split; try assumption; cbn; lia.
  - cbn [fire_times]. unfold bind at 1.
    destruct (retransmission_step t tx env ts Ht Hts) as (evs1 & -> & Hs1);
      [lia|].
    match goal with
    | |- context [fire_times _ _ _ (?tx1, ?env1)] =>
        destruct (IH tx1 env1) as (tx' & evs & -> & H1 & H2 & H3 & H4 & H5 & H6)
    end; [exact Hts|cbn [_retransmission_count _max_retransmissions
                          set_active_timers set_retransmission_count]; lia|].
    exists tx', (on_timeout (tx_id tx) t :: evs1 ++ evs).
    cbn [trace uuid_draws]. rewrite <- List.app_assoc.
    cbn [app]. split; [reflexivity|].
    cbn in H1, H2, H3, H4. repeat split; try assumption; try lia.
    change (on_timeout (tx_id tx) t :: evs1 ++ evs)
      with ([on_timeout (tx_id tx) t] ++ evs1 ++ evs).
    rewrite !sent_app, !length_app. cbn. lia.
Qed.

(** X17: a retransmission timer (A, E or G) that keeps firing retransmits
    until the count reaches the maximum, one transmission at most per
    firing, the state staying as it is; the firing after that sends nothing
    and ends the transaction. *)
Theorem retransmissions_are_bounded (t : TimerType) (n : nat)
    (tx : SIPTransaction) (env : Env) (ts : SIPTimers) :
  bool_decide (t ∈ [TIMER_A; TIMER_E; TIMER_G]) = true ->
  timers tx = Some ts ->
  _retransmission_count tx + Z.of_nat n = _max_retransmissions tx ->
  state (after (fire_times transport_ok t n) (tx, env)).1 = state tx /\
  _retransmission_count (after (fire_times transport_ok t n) (tx, env)).1
  = _max_retransmissions tx /\
  (length (sent (trace (after (fire_times transport_ok t n) (tx, env)).2))
   <= length (sent (trace env)) + n)%nat /\
  state (after (_on_timer_fired transport_ok t)
           (after (fire_times transport_ok t n) (tx, env))).1 = TERMINATED /\
  sent (trace (after (_on_timer_fired transport_ok t)
                 (after (fire_times transport_ok t n) (tx, env))).2)
  = sent (trace (after (fire_times transport_ok t n) (tx, env)).2).
Proof.
  intros Ht Hts Hn.
  destruct (fire_times_retransmits t ts n Ht tx env Hts)
    as (tx' & evs & E & H1 & H2 & H3 & H4 & H5 & H6); [lia|].
  unfold after. rewrite !E. cbn [fst snd trace].
  split; [exact H1|]. split; [lia|].
  split; [rewrite sent_app, length_app; lia|].
  rewrite retransmission_end by (try exact Ht; lia).
  cbn [fst snd trace state set_state set_terminated_event].
  split; [reflexivity|]. rewrite sent_app. apply app_nil_r.
Qed.

(** What a client transaction does when it is started without timers. *)
Lemma client_start_without_timers (req : SIPMessage) (tx : SIPTransaction)
    (env : Env) :
  timers tx = None -> is_client (kind tx) = true ->
  exists evs,
    start transport_ok req (tx, env)
    = (Raise (AttributeError "NoneType has no timer attributes"),
       (set_state TRYING (set_request (Some req) tx),
        mkEnv (trace env ++ evs) (uuid_draws env))) /\
    (length (sent evs) <= 1)%nat.
Proof.
  intros Hts Hk.
  destruct tx as [id k st tm rq rs at_ te rc mx], env as [tr dr].
  cbn [timers kind] in *. subst tm.
  destruct k; try discriminate; mred;
    rewrite bool_decide_eq_false_2 by discriminate;
    mcases; eexists;
    (split; [rewrite <- ?List.app_assoc; try reflexivity;
             try (rewrite app_nil_r; reflexivity)|cbn; lia]).
Qed.

(** X18: a client transaction never transmits anything when a response
    comes in: no ACK follows a final response to an INVITE.  And in every
    state but TRYING and PROCEEDING the response is dropped without a
    trace. *)
Theorem client_sends_nothing_on_a_response (resp : SIPMessage)
    (tx : SIPTransaction) (env : Env) :
  is_client (kind tx) = true ->
  sent (trace (after (process_message transport_ok resp) (tx, env)).2)
  = sent (trace env) /\
  (state tx = TRYING \/ state tx = PROCEEDING \/
   process_message transport_ok resp (tx, env) = (Ok tt, (tx, env))).
Proof.
  intros Hk.
  destruct tx as [id k st tm rq rs at_ te rc mx], env as [tr dr].
  cbn [kind state] in *.
  destruct k; try discriminate; destruct st;
    (split; [|auto; right; right; mred; now destruct (status_code resp)]);
    mcases; rewrite ?sent_app;
    repeat match goal with
           | |- context [sent [?e]] =>
               change (sent [e]) with (@nil (string * (string * Z)))
           end;
    rewrite ?app_nil_r; reflexivity.
Qed.

(** X19: a final response cancels Timer B only in TRYING.  After a
    provisional response a 2xx leaves Timer B running beside Timer L, and
    when it fires the accepted INVITE is reported as timed out and ended;
    a 2xx received in TRYING leaves Timer L alone, which ends nothing. *)
Theorem timer_B_outlives_a_provisional_response (r1 r2 : SIPMessage)
    (c1 c2 : Z) (tx : SIPTransaction) (env : Env) (ts : SIPTimers) :
  kind tx = INVITE_CLIENT ->
  state tx = TRYING ->
  timers tx = Some ts ->
  status_code r1 = Some c1 -> 100 <= c1 <= 199 ->
  status_code r2 = Some c2 -> 200 <= c2 <= 299 ->
  state (after (process_message transport_ok r2)
           (after (process_message transport_ok r1) (tx, env))).1
  = ACCEPTED /\
  _active_timers (after (process_message transport_ok r2)
                    (after (process_message transport_ok r1) (tx, env))).1
  = <[TIMER_L := 64 * T1 ts]> (delete TIMER_A (_active_timers tx)) /\
  state (after (_on_timer_fired transport_ok TIMER_B)
           (after (process_message transport_ok r2)
              (after (process_message transport_ok r1) (tx, env)))).1
  = TERMINATED /\
  _active_timers (after (process_message transport_ok r2) (tx, env)).1
  = <[TIMER_L := 64 * T1 ts]>
      (delete TIMER_B (delete TIMER_A (_active_timers tx))) /\
  state (after (_on_timer_fired transport_ok TIMER_L)
           (after (process_message transport_ok r2) (tx, env))).1
  = ACCEPTED.
Proof.
  intros Hk Hs Hts H1 [Ha Hb] H2 [Hc Hd].
  destruct tx as [id k st tm rq rs at_ te rc mx], env as [tr dr].
  cbn [kind state timers] in *. subst k st tm.
  assert (E1 : (100 <=? c1) && (c1 <=? 199) = true)
    by (apply andb_true_iff; split; apply Z.leb_le; lia).
  assert (E2 : (200 <=? c2) && (c2 <=? 299) = true)
    by (apply andb_true_iff; split; apply Z.leb_le; lia).
  assert (E3 : (100 <=? c2) && (c2 <=? 199) = false)
    by (apply andb_false_iff; right; apply Z.leb_gt; lia).
  mrun. repeat split; reflexivity.
Qed.

(** X20: an INVITE server transaction from the request to its end: the
    request is surfaced in PROCEEDING; a final response is transmitted once
    and leaves the transaction in ACCEPTED with Timer L (2xx) or in
    COMPLETED with Timers G and H (any other code); the ACK confirms it,
    stops these timers and starts Timer I; Timer I ends it. *)
Theorem invite_server_lifecycle (object_id : list Event -> Z)
    (req ack : SIPMessage) (code : Z) (reason : string)
    (tx : SIPTransaction) (env : Env) (ts : SIPTimers) :
  kind tx = INVITE_SERVER ->
  timers tx = Some ts ->
  method ack = Some ACK ->
  state (after (start transport_ok req) (tx, env)).1 = PROCEEDING /\
  state (after (send_final_response transport_ok object_id code reason None)
           (after (start transport_ok req) (tx, env))).1
  = (if (200 <=? code) && (code <=? 299) then ACCEPTED else COMPLETED) /\
  _active_timers
    (after (send_final_response transport_ok object_id code reason None)
       (after (start transport_ok req) (tx, env))).1
  = (if (200 <=? code) && (code <=? 299)
     then <[TIMER_L := 64 * T1 ts]> (_active_timers tx)
     else <[TIMER_G := T1 ts]> (<[TIMER_H := 64 * T1 ts]> (_active_timers tx)))
  /\
  (length (sent (trace
     (after (send_final_response transport_ok object_id code reason None)
        (after (start transport_ok req) (tx, env))).2))
   <= length (sent (trace env)) + 1)%nat /\
  state (after (process_message transport_ok ack)
           (after (send_final_response transport_ok object_id code reason None)
              (after (start transport_ok req) (tx, env)))).1 = CONFIRMED /\
  _active_timers
    (after (process_message transport_ok ack)
       (after (send_final_response transport_ok object_id code reason None)
          (after (start transport_ok req) (tx, env)))).1
  = <[TIMER_I := T4 ts]>
      (if (200 <=? code) && (code <=? 299)
       then delete TIMER_L (<[TIMER_L := 64 * T1 ts]> (_active_timers tx))
       else delete TIMER_H
              (delete TIMER_G
                 (<[TIMER_G := T1 ts]>
                    (<[TIMER_H := 64 * T1 ts]> (_active_timers tx))))) /\
  state (after (_on_timer_fired transport_ok TIMER_I)
           (after (process_message transport_ok ack)
              (after (send_final_response transport_ok object_id code reason
                        None)
                 (after (start transport_ok req) (tx, env))))).1
  = TERMINATED.
Proof.
  intros Hk Hts Hack.
  assert (E : bool_decide (method ack = Some ACK) = true)
    by now apply bool_decide_eq_true_2.
  destruct tx as [id k st tm rq rs at_ te rc mx], env as [tr dr].
  cbn [kind timers] in *. subst k tm.
  destruct ((200 <=? code) && (code <=? 299)) eqn:E2;
    mcases; rewrite ?sent_app, ?length_app;
    repeat split; try reflexivity; cbn; lia.
Qed.

End Transactions.

Section Managers.

Variable transport_ok : list Event -> string -> string * Z -> bool.
Variable uuid_text : nat -> string.

(** X21: a manager built without timers (the default) hands its
    transactions no timers either.  A client transaction it creates is
    stored and transmits its request once, then fails with the
    AttributeError of the missing timers: it stays in TRYING with no timer
    running, so that it is never retransmitted and never times out. *)
Theorem client_transaction_without_timers (req : SIPMessage)
    (mgr : TransactionManager) (env : Env) :
  tm_timers mgr = None ->
  truthy (via_branch req) = true ->
  _transactions mgr !! via_branch req = None ->
  exists tx evs,
    create_client_transaction transport_ok uuid_text req (mgr, env)
    = (Raise (AttributeError "NoneType has no timer attributes"),
       (mkTransactionManager
          (<[via_branch req := tx]> (_transactions mgr)) None,
        mkEnv (trace env ++ evs) (uuid_draws env))) /\
    state tx = TRYING /\
    request tx = Some req /\
    _active_timers tx = ∅ /\
    (length (sent evs) <= 1)%nat.
Proof.
  intros Hts Hb Hnone.
  unfold create_client_transaction, bind at 1.
  rewrite generate_transaction_id_branch by exact Hb.
  unfold bind at 1, manager. cbn [fst]. rewrite Hnone, Hts.
  set (tx0 := if bool_decide (method req = Some INVITE)
              then SIPTransaction_new (via_branch req) INVITE_CLIENT None
              else SIPTransaction_new (via_branch req) NON_INVITE_CLIENT None).
  assert (H0 : timers tx0 = None /\ is_client (kind tx0) = true /\
               tx_id tx0 = via_branch req /\ _active_timers tx0 = ∅).
  { unfold tx0. destruct (bool_decide _); repeat split. }
  destruct H0 as (Ht0 & Hk0 & Hid & Hat).
  destruct (client_start_without_timers transport_ok req tx0 env Ht0 Hk0)
    as (evs & E & Hs).
  exists (set_state TRYING (set_request (Some req) tx0)), evs.
  split; [|repeat split; assumption].
  unfold bind at 1, modify. unfold bind at 1, on_tx. rewrite E.
  unfold put_tx. cbn [_transactions tm_timers tx_id set_state set_request].
  rewrite Hid, Hts, insert_insert_eq. reflexivity.
Qed.

End Managers.

Lemma client_transaction_without_timers_witness :
  exists tx evs,
    create_client_transaction lossless uuid0 sample_options
      (TransactionManager_new None, env0)
    = (Raise (AttributeError "NoneType has no timer attributes"),
       (mkTransactionManager
          (<[via_branch sample_options := tx]>
             (_transactions (TransactionManager_new None))) None,
        mkEnv (trace env0 ++ evs) (uuid_draws env0))) /\
    state tx = TRYING /\
    request tx = Some sample_options /\
    _active_timers tx = ∅ /\
    (length (sent evs) <= 1)%nat.
Proof.
  apply (client_transaction_without_timers lossless uuid0 sample_options
           (TransactionManager_new None) env0); reflexivity.
Defined.

Lemma client_sends_nothing_on_a_response_witness :
  sent (trace (after (process_message lossless
                        (response_to sample_options 200 "a6c85cf" []))
                 (trying_options, env0)).2)
  = sent (trace env0) /\
  (state trying_options = TRYING \/ state trying_options = PROCEEDING \/
   process_message lossless
     (response_to sample_options 200 "a6c85cf" []) (trying_options, env0)
   = (Ok tt, (trying_options, env0))).
Proof.
  apply (client_sends_nothing_on_a_response lossless
           (response_to sample_options 200 "a6c85cf" []) trying_options env0).
  reflexivity.
Defined.

(** ** Where a request is sent *)

Lemma str_of_N_digits (n : N) :
  str_forall is_digit (str_of_Z (Z.of_N n)) = true.
Proof.
  unfold str_of_Z. destruct n as [|q]; [reflexivity|].
  cbn [Z.of_N Z.to_int DecimalString.NilZero.string_of_int].
  destruct (uint_string_NilZero (Pos.to_uint q)) as (c & s & -> & Hc & Hs).
  cbn [str_forall]. now rewrite Hc, Hs.
Qed.

(** X22: a request is sent to the host and port its own topmost Via names,
    port 5060 when the Via names none, whatever its Request-URI is. *)
Theorem request_goes_to_its_via (req : SIPMessage) (w h rest : string)
    (p : option N) :
  get_header "via" req
  = Some ("SIP/2.0/" +:+ w +:+ " " +:+ h
          +:+ match p with
              | Some n => ":" +:+ str_of_Z (Z.of_N n)
              | None => EmptyString
              end +:+ ";" +:+ rest) ->
  truthy w = true -> str_forall is_word w = true ->
  truthy h = true ->
  str_forall (fun c => negb (chr_eqb c ";"%char) && negb (chr_eqb c ":"%char)
                       && negb (is_space c)) h = true ->
  _extract_destination req
  = (h, match p with Some n => Z.of_N n | None => 5060 end).
Proof.
  intros Hv Hw1 Hw2 Hh1 Hh2.
  unfold _extract_destination, via_destination. rewrite Hv.
  replace (truthy ("SIP/2.0/" +:+ w +:+ " " +:+ h
                   +:+ match p with
                       | Some n => ":" +:+ str_of_Z (Z.of_N n)
                       | None => EmptyString
                       end +:+ ";" +:+ rest)) with true by reflexivity.
  set (tail := match p with
               | Some n => ":" +:+ str_of_Z (Z.of_N n)
               | None => EmptyString
               end +:+ ";" +:+ rest).
  assert (Hm : match_via ("SIP/2.0/" +:+ w +:+ " " +:+ h +:+ tail)
               = Some (h, match p with Some n => Z.of_N n | None => 5060 end)).
  { unfold match_via, startswith. rewrite prefix_app.
    change (str_drop 8 ("SIP/2.0/" +:+ w +:+ " " +:+ h +:+ tail))
      with (w +:+ String " " (h +:+ tail)).
    cbn [negb]. rewrite (span_stop is_word) by easy.
    destruct h as [|c0 h0]; [discriminate|].
    cbn [str_forall] in Hh2. apply andb_true_iff in Hh2 as [Hc0 Hh0].
    assert (Hsp : is_space c0 = false).
    { apply andb_true_iff in Hc0 as [_ H]. now apply negb_true_iff in H. }
    change (String " " (String c0 h0 +:+ tail))
      with (" " +:+ String c0 (h0 +:+ tail)).
    rewrite (span_stop is_space) by easy.
    assert (Hsh : span (fun c => negb (chr_eqb c ";"%char)
                                 && negb (chr_eqb c ":"%char)
                                 && negb (is_space c))
                    (String c0 (h0 +:+ tail))
                  = (String c0 h0, tail)).
    { change (String c0 (h0 +:+ tail)) with (String c0 h0 +:+ tail).
      unfold tail. destruct p as [n|].
      - change ((":" +:+ str_of_Z (Z.of_N n)) +:+ ";" +:+ rest)
          with (String ":" (str_of_Z (Z.of_N n) +:+ ";" +:+ rest)).
        apply span_stop; [|reflexivity]. cbn [str_forall].
        now rewrite Hc0, Hh0.
      - change (EmptyString +:+ ";" +:+ rest) with (String ";" rest).
        apply span_stop; [|reflexivity]. cbn [str_forall].
        now rewrite Hc0, Hh0. }
    rewrite Hsh. rewrite Hw1.
    change (truthy " ") with true. change (truthy (String c0 h0)) with true.
    cbn [andb]. unfold tail. destruct p as [n|].
    - change ((":" +:+ str_of_Z (Z.of_N n)) +:+ ";" +:+ rest)
        with (String ":" (str_of_Z (Z.of_N n) +:+ String ";" rest)).
      cbv beta iota.
      rewrite (span_stop is_digit) by (try apply str_of_N_digits; reflexivity).
      now rewrite str_of_Z_truthy, py_int_str_of_Z.
    - reflexivity. }
  assert (Hs : search_via ("SIP/2.0/" +:+ w +:+ " " +:+ h +:+ tail)
               = Some (h, match p with Some n => Z.of_N n | None => 5060 end)).
  { destruct ("SIP/2.0/" +:+ w +:+ " " +:+ h +:+ tail);
      cbn [search_via]; now rewrite Hm. }
  now rewrite Hs.
Qed.

Lemma request_goes_to_its_via_witness :
  _extract_destination sample_invite
  = ("pc33.example.org", match @None N with Some n => Z.of_N n | None => 5060 end).
Proof.
  apply (request_goes_to_its_via sample_invite "UDP" "pc33.example.org"
           "branch=z9hG4bK776asdhds" None); reflexivity.
Defined.

Section Starting.

Variable transport_ok : list Event -> string -> string * Z -> bool.
Variable uuid_text : nat -> string.

Lemma client_start_with_timers (req : SIPMessage) (m : SIPMethod)
    (tx : SIPTransaction) (env : Env) (ts : SIPTimers) :
  timers tx = Some ts -> is_client (kind tx) = true ->
  method req = Some m ->
  start transport_ok req (tx, env)
  = (Ok tt,
     (set_active_timers
        (if bool_decide (kind tx = INVITE_CLIENT)
         then <[TIMER_B := 64 * T1 ts]>
                (<[TIMER_A := T1 ts]> (_active_timers tx))
         else <[TIMER_F := 64 * T1 ts]>
                (<[TIMER_E := T1 ts]> (_active_timers tx)))
        (set_state TRYING (set_request (Some req) tx)),
      mkEnv (trace env
             ++ [if transport_ok (trace env) (encode_str req)
                      (_extract_destination req)
                 then send_message (encode_str req) (_extract_destination req)
                 else on_transport_error (tx_id tx)])
        (uuid_draws env))).
Proof.
  intros Hts Hk Hm.
  destruct tx as [id k st tm rq rs at_ te rc mx], env as [tr dr].
  cbn [timers kind] in *. subst tm.
  destruct k; try discriminate; mcases; reflexivity.
Qed.

(** X23: [create_client_transaction] for a request on a new branch stores a
    transaction under that branch, in TRYING, hands the request to the
    transport once and starts Timers A and B for an INVITE, E and F for any
    other method; a transport that fails is reported and changes nothing
    else. *)
Theorem client_transaction_start (req : SIPMessage) (m : SIPMethod)
    (mgr : TransactionManager) (env : Env) (ts : SIPTimers) :
  tm_timers mgr = Some ts ->
  truthy (via_branch req) = true ->
  _transactions mgr !! via_branch req = None ->
  method req = Some m ->
  exists tx,
    create_client_transaction transport_ok uuid_text req (mgr, env)
    = (Ok (via_branch req),
       (mkTransactionManager
          (<[via_branch req := tx]> (_transactions mgr)) (Some ts),
        mkEnv (trace env
               ++ [if transport_ok (trace env) (encode_str req)
                        (_extract_destination req)
                   then send_message (encode_str req)
                          (_extract_destination req)
                   else on_transport_error (via_branch req)])
          (uuid_draws env))) /\
    state tx = TRYING /\
    request tx = Some req /\
    kind tx = (if bool_decide (m = INVITE) then INVITE_CLIENT
               else NON_INVITE_CLIENT) /\
    _active_timers tx
    = (if bool_decide (m = INVITE)
       then <[TIMER_B := 64 * T1 ts]> (<[TIMER_A := T1 ts]> ∅)
       else <[TIMER_F := 64 * T1 ts]> (<[TIMER_E := T1 ts]> ∅)) /\
    _retransmission_count tx = 0.
Proof.
  intros Hts Hb Hnone Hm.
  unfold create_client_transaction, bind at 1.
  rewrite generate_transaction_id_branch by exact Hb.
  unfold bind at 1, manager. cbn [fst]. rewrite Hnone, Hts, Hm.
  set (tx0 := if bool_decide (Some m = Some INVITE)
              then SIPTransaction_new (via_branch req) INVITE_CLIENT (Some ts)
              else SIPTransaction_new (via_branch req) NON_INVITE_CLIENT
                     (Some ts)).
  assert (H0 : timers tx0 = Some ts /\ is_client (kind tx0) = true /\
               tx_id tx0 = via_branch req /\ _active_timers tx0 = ∅ /\
               _retransmission_count tx0 = 0 /\
               kind tx0 = (if bool_decide (m = INVITE) then INVITE_CLIENT
                           else NON_INVITE_CLIENT)).
  { unfold tx0. destruct m; repeat split. }
  destruct H0 as (Ht0 & Hk0 & Hid & Hat & Hrc & Hkd).
  pose proof (client_start_with_timers req m tx0 env ts Ht0 Hk0 Hm) as E.
  eexists. split.
  - unfold bind at 1, modify. unfold bind at 1, on_tx. rewrite E.
    unfold put_tx.
    cbn [_transactions tm_timers tx_id set_state set_request
         set_active_timers].
    rewrite Hid, Hts, insert_insert_eq. reflexivity.
  - cbn [state request kind _active_timers _retransmission_count
         set_state set_request set_active_timers].
    rewrite Hat, Hkd, Hrc. repeat split.
    now destruct m.
Qed.

End Starting.

Lemma client_transaction_start_witness :
  exists tx,
    create_client_transaction lossless uuid0 sample_invite (manager0, env0)
    = (Ok (via_branch sample_invite),
       (mkTransactionManager
          (<[via_branch sample_invite := tx]> (_transactions manager0))
          (Some SIPTimers_default),
        mkEnv (trace env0
               ++ [if lossless (trace env0) (encode_str sample_invite)
                        (_extract_destination sample_invite)
                   then send_message (encode_str sample_invite)
                          (_extract_destination sample_invite)
                   else on_transport_error (via_branch sample_invite)])
          (uuid_draws env0))) /\
    state tx = TRYING /\
    request tx = Some sample_invite /\
    kind tx = (if bool_decide (INVITE = INVITE) then INVITE_CLIENT
               else NON_INVITE_CLIENT) /\
    _active_timers tx
    = (if bool_decide (INVITE = INVITE)
       then <[TIMER_B := 64 * T1 SIPTimers_default]>
              (<[TIMER_A := T1 SIPTimers_default]> ∅)
       else <[TIMER_F := 64 * T1 SIPTimers_default]>
              (<[TIMER_E := T1 SIPTimers_default]> ∅)) /\
    _retransmission_count tx = 0.
Proof.
  apply (client_transaction_start lossless uuid0 sample_invite INVITE
           manager0 env0 SIPTimers_default); reflexivity.
Defined.

(** ** The dialog table *)



Lemma retransmissions_are_bounded_witness :
  let s := after (fire_times lossless TIMER_E 7) (trying_options, env0) in
  state s.1 = state trying_options /\
  _retransmission_count s.1 = _max_retransmissions trying_options /\
  (length (sent (trace s.2)) <= length (sent (trace env0)) + 7)%nat /\
  state (after (_on_timer_fired lossless TIMER_E) s).1 = TERMINATED /\
  sent (trace (after (_on_timer_fired lossless TIMER_E) s).2)
  = sent (trace s.2).
Proof.
  apply (retransmissions_are_bounded lossless TIMER_E 7 trying_options env0
           SIPTimers_default); reflexivity.
Defined.

Lemma timer_B_outlives_a_provisional_response_witness :
  let early := after (process_message lossless ringing) (trying_invite, env0)
  in
  state (after (process_message lossless ok_from_other_branch) early).1
  = ACCEPTED /\
  _active_timers (after (process_message lossless ok_from_other_branch)
                    early).1
  = <[TIMER_L := 64 * T1 SIPTimers_default]>
      (delete TIMER_A (_active_timers trying_invite)) /\
  state (after (_on_timer_fired lossless TIMER_B)
           (after (process_message lossless ok_from_other_branch) early)).1
  = TERMINATED /\
  _active_timers (after (process_message lossless ok_from_other_branch)
                    (trying_invite, env0)).1
  = <[TIMER_L := 64 * T1 SIPTimers_default]>
      (delete TIMER_B (delete TIMER_A (_active_timers trying_invite))) /\
  state (after (_on_timer_fired lossless TIMER_L)
           (after (process_message lossless ok_from_other_branch)
              (trying_invite, env0))).1
  = ACCEPTED.
Proof.
  apply (timer_B_outlives_a_provisional_response lossless ringing
           ok_from_other_branch 180 200 trying_invite env0
           SIPTimers_default); try reflexivity; lia.
Defined.

Lemma invite_server_lifecycle_witness :
  let started := after (start lossless sample_invite)
                   (new_invite_server, env0) in
  let answered :=
    after (send_final_response lossless id0 486 "Busy Here" None) started in
  state started.1 = PROCEEDING /\
  state answered.1
  = (if (200 <=? 486) && (486 <=? 299) then ACCEPTED else COMPLETED) /\
  _active_timers answered.1
  = (if (200 <=? 486) && (486 <=? 299)
     then <[TIMER_L := 64 * T1 SIPTimers_default]>
            (_active_timers new_invite_server)
     else <[TIMER_G := T1 SIPTimers_default]>
            (<[TIMER_H := 64 * T1 SIPTimers_default]>
               (_active_timers new_invite_server))) /\
  (length (sent (trace answered.2)) <= length (sent (trace env0)) + 1)%nat /\
  state (after (process_message lossless sample_ack) answered).1
  = CONFIRMED /\
  _active_timers (after (process_message lossless sample_ack) answered).1
  = <[TIMER_I := T4 SIPTimers_default]>
      (if (200 <=? 486) && (486 <=? 299)
       then delete TIMER_L
              (<[TIMER_L := 64 * T1 SIPTimers_default]>
                 (_active_timers new_invite_server))
       else delete TIMER_H
              (delete TIMER_G
                 (<[TIMER_G := T1 SIPTimers_default]>
                    (<[TIMER_H := 64 * T1 SIPTimers_default]>
                       (_active_timers new_invite_server))))) /\
  state (after (_on_timer_fired lossless TIMER_I)
           (after (process_message lossless sample_ack) answered)).1
  = TERMINATED.
Proof.
  apply (invite_server_lifecycle lossless id0 sample_invite sample_ack 486
           "Busy Here" new_invite_server env0 SIPTimers_default);
    reflexivity.
Defined.

Section Retransmitted.

Variable transport_ok : list Event -> string -> string * Z -> bool.
Variable uuid_text : nat -> string.

Lemma put_tx_same (tx : SIPTransaction) (mgr : TransactionManager) :
  _transactions mgr !! tx_id tx = Some tx -> put_tx tx mgr = mgr.
Proof.
  intros H. destruct mgr as [txs ts]. unfold put_tx.
  cbn [_transactions tm_timers] in *. now rewrite insert_id.
Qed.

(** X25: a request that comes in again after the final response.  The
    manager hands a request whose branch has a server transaction in
    COMPLETED to that transaction: a non-INVITE transaction transmits its
    final response once more, an INVITE transaction transmits nothing.
    Nothing else changes. *)
Theorem retransmitted_request_after_final_response (req resp : SIPMessage)
    (tx : SIPTransaction) (mgr : TransactionManager) (env : Env) :
  truthy (via_branch req) = true ->
  _transactions mgr !! via_branch req = Some tx ->
  tx_id tx = via_branch req ->
  is_server (kind tx) = true ->
  state tx = COMPLETED ->
  response tx = Some resp ->
  is_request req = true ->
  method req <> Some ACK ->
  process_request transport_ok uuid_text req (mgr, env)
  = (Ok (via_branch req),
     (mgr,
      if bool_decide (kind tx = NON_INVITE_SERVER)
      then mkEnv (trace env
                  ++ [if transport_ok (trace env) (encode_str resp)
                           (_extract_response_destination resp)
                      then send_message (encode_str resp)
                             (_extract_response_destination resp)
                      else on_transport_error (tx_id tx)])
             (uuid_draws env)
      else env)).
Proof.
  intros Hb Hl Hid Hk Hs Hr Hq Hack.
  unfold process_request.
  rewrite bool_decide_eq_false_2 by exact Hack.
  unfold create_server_transaction, bind at 1.
  rewrite generate_transaction_id_branch by exact Hb.
  unfold bind at 1, manager. cbn [fst]. rewrite Hl.
  rewrite <- Hid in Hl.
  pose proof (put_tx_same tx mgr Hl) as Hput.
  unfold bind at 1, on_tx.
  destruct tx as [id k st tm rq rs at_ te rc mx], env as [tr dr].
  cbn [kind state response tx_id] in *. subst st rs.
  unfold is_request in Hq.
  destruct (method req) as [m|] eqn:Em; [clear Hq|discriminate Hq].
  destruct k; try discriminate.
  - (* INVITE server *)
    assert (E : process_message transport_ok req
                  (mkSIPTransaction id INVITE_SERVER COMPLETED tm rq
                     (Some resp) at_ te rc mx, mkEnv tr dr)
                = (Ok tt,
                   (mkSIPTransaction id INVITE_SERVER COMPLETED tm rq
                      (Some resp) at_ te rc mx, mkEnv tr dr))).
    { mred. rewrite Em. mred.
      rewrite bool_decide_eq_false_2 by exact Hack. mrun. reflexivity. }
    rewrite E, Hput, Hid. reflexivity.
  - (* non-INVITE server *)
    assert (E : process_message transport_ok req
                  (mkSIPTransaction id NON_INVITE_SERVER COMPLETED tm rq
                     (Some resp) at_ te rc mx, mkEnv tr dr)
                = (Ok tt,
                   (mkSIPTransaction id NON_INVITE_SERVER COMPLETED tm rq
                      (Some resp) at_ te rc mx,
                    mkEnv (tr ++ [if transport_ok tr (encode_str resp)
                                       (_extract_response_destination resp)
                                  then send_message (encode_str resp)
                                         (_extract_response_destination resp)
                                  else on_transport_error id]) dr))).
    { mrun. destruct (transport_ok tr _ _); mrun; reflexivity. }
    rewrite E, Hput, Hid. reflexivity.
Qed.

End Retransmitted.

Lemma retransmitted_request_after_final_response_witness :
  let resp := default sample_invite (response busy_server) in
  process_request lossless uuid0 sample_invite (busy_manager, env0)
  = (Ok (via_branch sample_invite),
     (busy_manager,
      if bool_decide (kind busy_server = NON_INVITE_SERVER)
      then mkEnv (trace env0
                  ++ [if lossless (trace env0) (encode_str resp)
                           (_extract_response_destination resp)
                      then send_message (encode_str resp)
                             (_extract_response_destination resp)
                      else on_transport_error (tx_id busy_server)])
             (uuid_draws env0)
      else env0)).
Proof.
  apply (retransmitted_request_after_final_response lossless uuid0
           sample_invite _ busy_server busy_manager env0);
    try reflexivity.
  discriminate.
Defined.

End FsmFacts.
